(** * lwiperf: the iperf-compatible throughput engine of src/lwip/src/apps/lwiperf/lwiperf.c

    A shallow embedding of the session engine and the statements of its
    specification that were checked against it.

    Conventions.
    - C integers are [Z] with the wrap-around of their width written out
      ([u8], [u16], [u32], [u64], [s32]).  The target is a 32-bit
      microcontroller: [long] is 32 bits wide and the host is little-endian,
      so [lwip_htonl] swaps the four bytes of a word.
    - Pointers are addresses in [Z]; [0] is [NULL].
    - Fields that hold wire data (the settings records) are kept as they sit
      in memory, i.e. in network byte order, and are decoded with
      [lwip_ntohl] where the C code does.
    - Calls into the transport stack (tcp_write, udp_send, pbuf_alloc, ...)
      and the clock [sys_now] are answered by explicit arguments of the
      functions that make them. *)

From Stdlib Require Import ZArith Lia List Bool.
From stdpp Require Import gmap list.

Local Open Scope Z_scope.

(** ** Machine integers *)

Definition u8  (x : Z) : Z := x mod 2^8.
Definition u16 (x : Z) : Z := x mod 2^16.
Definition u32 (x : Z) : Z := x mod 2^32.
Definition u64 (x : Z) : Z := x mod 2^64.

(** Two's complement reading of the low 32 bits: int32_t, s32_t, int and
    long on the target. *)
Definition s32 (x : Z) : Z := (x + 2^31) mod 2^32 - 2^31.

(** Modelled from the spec: the byte-order macros lwip_htonl, lwip_ntohl and
    PP_HTONL live in lwip/def.h, which this development does not embed;
    the wire format is network byte order and the host is little-endian, so
    they reverse the four bytes of a 32-bit word. *)
Definition lwip_htonl (x : Z) : Z :=
  (x mod 2^8) * 2^24 + ((x / 2^8) mod 2^8) * 2^16
  + ((x / 2^16) mod 2^8) * 2^8 + ((x / 2^24) mod 2^8).
Definition lwip_ntohl (x : Z) : Z := lwip_htonl x.
Definition PP_HTONL (x : Z) : Z := lwip_htonl x.

(** C truth value of a bit test [a & b]. *)
Definition tst (a b : Z) : bool := negb (Z.land a b =? 0).
(** C truth value of an integer used as a condition. *)
Definition nz (a : Z) : bool := negb (a =? 0).

(** ** Constants of lwiperf.c *)

Definition LWIPERF_MAX_IDLE_SEC : Z := 10.
Definition BLOCK_SIZE : Z := 1024 * 128.
Definition CLOCK_RESOLUTION_US : Z := 1000.

Definition LWIPERF_FLAGS_ANSWER_TEST : Z := 0x80000000.
Definition LWIPERF_FLAGS_EXTEND      : Z := 0x40000000.
Definition LWIPERF_FLAGS_UDPTESTS    : Z := 0x20000000.
Definition LWIPERF_FLAGS_SEQNO64B    : Z := 0x08000000.
Definition LWIPERF_FLAGS_VERSION2    : Z := 0x04000000.
Definition LWIPERF_FLAGS_ANSWER_NOW  : Z := 0x00000001.
Definition LWIPERF_EFLAGS_UNITS_PPS  : Z := 0x00000001.
Definition LWIPERF_EFLAGS_REVERSE    : Z := 0x04000000.

Definition sizeof_lwiperf_settings_t     : Z := 24.
Definition sizeof_lwiperf_settings_ext_t : Z := 60.
Definition sizeof_UDP_datagram           : Z := 16.

(** err_t values of lwip/err.h that the engine tests for. *)
Definition ERR_OK  : Z := 0.
Definition ERR_MEM : Z := -1.

(** Modelled from the spec: enum lwiperf_report_type is declared in
    lwiperf.h, which this development does not embed; these are the
    termination reasons lwiperf.c passes to the report callback. *)
Inductive lwiperf_report_type : Type :=
| LWIPERF_TCP_DONE_SERVER_RX
| LWIPERF_TCP_DONE_SERVER_TX
| LWIPERF_TCP_DONE_CLIENT_RX
| LWIPERF_TCP_DONE_CLIENT_TX
| LWIPERF_TCP_ABORTED_LOCAL
| LWIPERF_TCP_ABORTED_LOCAL_DATAERROR
| LWIPERF_TCP_ABORTED_LOCAL_TXERROR
| LWIPERF_TCP_ABORTED_REMOTE
| LWIPERF_UDP_DONE_SERVER_RX
| LWIPERF_UDP_DONE_SERVER_TX
| LWIPERF_UDP_DONE_CLIENT_RX
| LWIPERF_UDP_DONE_CLIENT_TX
| LWIPERF_UDP_ABORTED_LOCAL
| LWIPERF_UDP_ABORTED_LOCAL_DATAERROR
| LWIPERF_UDP_ABORTED_LOCAL_TXERROR
| LWIPERF_UDP_ABORTED_REMOTE.

(** Modelled from the spec: enum lwiperf_client_type of lwiperf.h. *)
Inductive lwiperf_client_type : Type :=
| LWIPERF_CLIENT | LWIPERF_DUAL | LWIPERF_TRADEOFF | LWIPERF_REVERSE.

(** ** Data model *)

(** An IP address: its family and an opaque value. *)
Record ip_addr_t : Type := mk_ip { ip_is_v6 : bool; ip_val : Z }.

Module Ts.
(** struct timespec; both members are long. *)
Record timespec : Type := mk {
  tv_sec : Z;
  tv_nsec : Z
}.
Definition set_tv_sec (v : Z) (c : timespec) : timespec :=
  {| tv_sec := v; tv_nsec := tv_nsec c |}.
Definition set_tv_nsec (v : Z) (c : timespec) : timespec :=
  {| tv_sec := tv_sec c; tv_nsec := v |}.
End Ts.

Module St.
(** lwiperf_settings_t: six 32-bit words, kept as they sit in memory (network byte order). *)
Record lwiperf_settings_t : Type := mk {
  flags : Z;
  num_threads : Z;
  remote_port : Z;
  buffer_len : Z;
  win_band : Z;
  amount : Z
}.
Definition set_flags (v : Z) (c : lwiperf_settings_t) : lwiperf_settings_t :=
  {| flags := v; num_threads := num_threads c; remote_port := remote_port c; buffer_len := buffer_len c; win_band := win_band c; amount := amount c |}.
Definition set_num_threads (v : Z) (c : lwiperf_settings_t) : lwiperf_settings_t :=
  {| flags := flags c; num_threads := v; remote_port := remote_port c; buffer_len := buffer_len c; win_band := win_band c; amount := amount c |}.
Definition set_remote_port (v : Z) (c : lwiperf_settings_t) : lwiperf_settings_t :=
  {| flags := flags c; num_threads := num_threads c; remote_port := v; buffer_len := buffer_len c; win_band := win_band c; amount := amount c |}.
Definition set_buffer_len (v : Z) (c : lwiperf_settings_t) : lwiperf_settings_t :=
  {| flags := flags c; num_threads := num_threads c; remote_port := remote_port c; buffer_len := v; win_band := win_band c; amount := amount c |}.
Definition set_win_band (v : Z) (c : lwiperf_settings_t) : lwiperf_settings_t :=
  {| flags := flags c; num_threads := num_threads c; remote_port := remote_port c; buffer_len := buffer_len c; win_band := v; amount := amount c |}.
Definition set_amount (v : Z) (c : lwiperf_settings_t) : lwiperf_settings_t :=
  {| flags := flags c; num_threads := num_threads c; remote_port := remote_port c; buffer_len := buffer_len c; win_band := win_band c; amount := v |}.
End St.

Module Ext.
(** lwiperf_settings_ext_t: the base settings followed by nine 32-bit words, network byte order. *)
Record lwiperf_settings_ext_t : Type := mk {
  base : St.lwiperf_settings_t;
  type : Z;
  len : Z;
  eflags : Z;
  version_u : Z;
  version_l : Z;
  reserved : Z;
  rate : Z;
  UDP_rate_units : Z;
  real_time : Z
}.
Definition set_base (v : St.lwiperf_settings_t) (c : lwiperf_settings_ext_t) : lwiperf_settings_ext_t :=
  {| base := v; type := type c; len := len c; eflags := eflags c; version_u := version_u c; version_l := version_l c; reserved := reserved c; rate := rate c; UDP_rate_units := UDP_rate_units c; real_time := real_time c |}.
Definition set_type (v : Z) (c : lwiperf_settings_ext_t) : lwiperf_settings_ext_t :=
  {| base := base c; type := v; len := len c; eflags := eflags c; version_u := version_u c; version_l := version_l c; reserved := reserved c; rate := rate c; UDP_rate_units := UDP_rate_units c; real_time := real_time c |}.
Definition set_len (v : Z) (c : lwiperf_settings_ext_t) : lwiperf_settings_ext_t :=
  {| base := base c; type := type c; len := v; eflags := eflags c; version_u := version_u c; version_l := version_l c; reserved := reserved c; rate := rate c; UDP_rate_units := UDP_rate_units c; real_time := real_time c |}.
Definition set_eflags (v : Z) (c : lwiperf_settings_ext_t) : lwiperf_settings_ext_t :=
  {| base := base c; type := type c; len := len c; eflags := v; version_u := version_u c; version_l := version_l c; reserved := reserved c; rate := rate c; UDP_rate_units := UDP_rate_units c; real_time := real_time c |}.
Definition set_version_u (v : Z) (c : lwiperf_settings_ext_t) : lwiperf_settings_ext_t :=
  {| base := base c; type := type c; len := len c; eflags := eflags c; version_u := v; version_l := version_l c; reserved := reserved c; rate := rate c; UDP_rate_units := UDP_rate_units c; real_time := real_time c |}.
Definition set_version_l (v : Z) (c : lwiperf_settings_ext_t) : lwiperf_settings_ext_t :=
  {| base := base c; type := type c; len := len c; eflags := eflags c; version_u := version_u c; version_l := v; reserved := reserved c; rate := rate c; UDP_rate_units := UDP_rate_units c; real_time := real_time c |}.
Definition set_reserved (v : Z) (c : lwiperf_settings_ext_t) : lwiperf_settings_ext_t :=
  {| base := base c; type := type c; len := len c; eflags := eflags c; version_u := version_u c; version_l := version_l c; reserved := v; rate := rate c; UDP_rate_units := UDP_rate_units c; real_time := real_time c |}.
Definition set_rate (v : Z) (c : lwiperf_settings_ext_t) : lwiperf_settings_ext_t :=
  {| base := base c; type := type c; len := len c; eflags := eflags c; version_u := version_u c; version_l := version_l c; reserved := reserved c; rate := v; UDP_rate_units := UDP_rate_units c; real_time := real_time c |}.
Definition set_UDP_rate_units (v : Z) (c : lwiperf_settings_ext_t) : lwiperf_settings_ext_t :=
  {| base := base c; type := type c; len := len c; eflags := eflags c; version_u := version_u c; version_l := version_l c; reserved := reserved c; rate := rate c; UDP_rate_units := v; real_time := real_time c |}.
Definition set_real_time (v : Z) (c : lwiperf_settings_ext_t) : lwiperf_settings_ext_t :=
  {| base := base c; type := type c; len := len c; eflags := eflags c; version_u := version_u c; version_l := version_l c; reserved := reserved c; rate := rate c; UDP_rate_units := UDP_rate_units c; real_time := v |}.
End Ext.

Module Base.
(** struct _lwiperf_state_base: list link, kind flags (u8) and the two master references; pointers are addresses, 0 is NULL. *)
Record lwiperf_state_base_t : Type := mk {
  next : Z;
  tcp : Z;
  server : Z;
  reverse : Z;
  related_master_state : Z;
  deallocated_master_state_address : Z
}.
Definition set_next (v : Z) (c : lwiperf_state_base_t) : lwiperf_state_base_t :=
  {| next := v; tcp := tcp c; server := server c; reverse := reverse c; related_master_state := related_master_state c; deallocated_master_state_address := deallocated_master_state_address c |}.
Definition set_tcp (v : Z) (c : lwiperf_state_base_t) : lwiperf_state_base_t :=
  {| next := next c; tcp := v; server := server c; reverse := reverse c; related_master_state := related_master_state c; deallocated_master_state_address := deallocated_master_state_address c |}.
Definition set_server (v : Z) (c : lwiperf_state_base_t) : lwiperf_state_base_t :=
  {| next := next c; tcp := tcp c; server := v; reverse := reverse c; related_master_state := related_master_state c; deallocated_master_state_address := deallocated_master_state_address c |}.
Definition set_reverse (v : Z) (c : lwiperf_state_base_t) : lwiperf_state_base_t :=
  {| next := next c; tcp := tcp c; server := server c; reverse := v; related_master_state := related_master_state c; deallocated_master_state_address := deallocated_master_state_address c |}.
Definition set_related_master_state (v : Z) (c : lwiperf_state_base_t) : lwiperf_state_base_t :=
  {| next := next c; tcp := tcp c; server := server c; reverse := reverse c; related_master_state := v; deallocated_master_state_address := deallocated_master_state_address c |}.
Definition set_deallocated_master_state_address (v : Z) (c : lwiperf_state_base_t) : lwiperf_state_base_t :=
  {| next := next c; tcp := tcp c; server := server c; reverse := reverse c; related_master_state := related_master_state c; deallocated_master_state_address := v |}.
End Base.

Module Udp.
(** lwiperf_state_udp_t, field for field. *)
Record lwiperf_state_udp_t : Type := mk {
  base : Base.lwiperf_state_base_t;
  pcb : Z;
  reported : Z;
  remote_addr : ip_addr_t;
  remote_port : Z;
  report_count : Z;
  have_settings_buf : Z;
  settings : Ext.lwiperf_settings_ext_t;
  delay_target : Z;
  frames_per_delay : Z;
  time_started : Z;
  bytes_transferred : Z;
  report_fn : Z;
  report_arg : Z;
  udp_lastpkt : Ts.timespec;
  udp_seq : Z;
  udp_rx_lost : Z;
  udp_rx_outorder : Z;
  udp_rx_total_pkt : Z;
  udp_rx_total_size : Z;
  udp_last_transit : Z;
  jitter : Z
}.
Definition set_base (v : Base.lwiperf_state_base_t) (c : lwiperf_state_udp_t) : lwiperf_state_udp_t :=
  {| base := v; pcb := pcb c; reported := reported c; remote_addr := remote_addr c; remote_port := remote_port c; report_count := report_count c; have_settings_buf := have_settings_buf c; settings := settings c; delay_target := delay_target c; frames_per_delay := frames_per_delay c; time_started := time_started c; bytes_transferred := bytes_transferred c; report_fn := report_fn c; report_arg := report_arg c; udp_lastpkt := udp_lastpkt c; udp_seq := udp_seq c; udp_rx_lost := udp_rx_lost c; udp_rx_outorder := udp_rx_outorder c; udp_rx_total_pkt := udp_rx_total_pkt c; udp_rx_total_size := udp_rx_total_size c; udp_last_transit := udp_last_transit c; jitter := jitter c |}.
Definition set_pcb (v : Z) (c : lwiperf_state_udp_t) : lwiperf_state_udp_t :=
  {| base := base c; pcb := v; reported := reported c; remote_addr := remote_addr c; remote_port := remote_port c; report_count := report_count c; have_settings_buf := have_settings_buf c; settings := settings c; delay_target := delay_target c; frames_per_delay := frames_per_delay c; time_started := time_started c; bytes_transferred := bytes_transferred c; report_fn := report_fn c; report_arg := report_arg c; udp_lastpkt := udp_lastpkt c; udp_seq := udp_seq c; udp_rx_lost := udp_rx_lost c; udp_rx_outorder := udp_rx_outorder c; udp_rx_total_pkt := udp_rx_total_pkt c; udp_rx_total_size := udp_rx_total_size c; udp_last_transit := udp_last_transit c; jitter := jitter c |}.
Definition set_reported (v : Z) (c : lwiperf_state_udp_t) : lwiperf_state_udp_t :=
  {| base := base c; pcb := pcb c; reported := v; remote_addr := remote_addr c; remote_port := remote_port c; report_count := report_count c; have_settings_buf := have_settings_buf c; settings := settings c; delay_target := delay_target c; frames_per_delay := frames_per_delay c; time_started := time_started c; bytes_transferred := bytes_transferred c; report_fn := report_fn c; report_arg := report_arg c; udp_lastpkt := udp_lastpkt c; udp_seq := udp_seq c; udp_rx_lost := udp_rx_lost c; udp_rx_outorder := udp_rx_outorder c; udp_rx_total_pkt := udp_rx_total_pkt c; udp_rx_total_size := udp_rx_total_size c; udp_last_transit := udp_last_transit c; jitter := jitter c |}.
Definition set_remote_addr (v : ip_addr_t) (c : lwiperf_state_udp_t) : lwiperf_state_udp_t :=
  {| base := base c; pcb := pcb c; reported := reported c; remote_addr := v; remote_port := remote_port c; report_count := report_count c; have_settings_buf := have_settings_buf c; settings := settings c; delay_target := delay_target c; frames_per_delay := frames_per_delay c; time_started := time_started c; bytes_transferred := bytes_transferred c; report_fn := report_fn c; report_arg := report_arg c; udp_lastpkt := udp_lastpkt c; udp_seq := udp_seq c; udp_rx_lost := udp_rx_lost c; udp_rx_outorder := udp_rx_outorder c; udp_rx_total_pkt := udp_rx_total_pkt c; udp_rx_total_size := udp_rx_total_size c; udp_last_transit := udp_last_transit c; jitter := jitter c |}.
Definition set_remote_port (v : Z) (c : lwiperf_state_udp_t) : lwiperf_state_udp_t :=
  {| base := base c; pcb := pcb c; reported := reported c; remote_addr := remote_addr c; remote_port := v; report_count := report_count c; have_settings_buf := have_settings_buf c; settings := settings c; delay_target := delay_target c; frames_per_delay := frames_per_delay c; time_started := time_started c; bytes_transferred := bytes_transferred c; report_fn := report_fn c; report_arg := report_arg c; udp_lastpkt := udp_lastpkt c; udp_seq := udp_seq c; udp_rx_lost := udp_rx_lost c; udp_rx_outorder := udp_rx_outorder c; udp_rx_total_pkt := udp_rx_total_pkt c; udp_rx_total_size := udp_rx_total_size c; udp_last_transit := udp_last_transit c; jitter := jitter c |}.
Definition set_report_count (v : Z) (c : lwiperf_state_udp_t) : lwiperf_state_udp_t :=
  {| base := base c; pcb := pcb c; reported := reported c; remote_addr := remote_addr c; remote_port := remote_port c; report_count := v; have_settings_buf := have_settings_buf c; settings := settings c; delay_target := delay_target c; frames_per_delay := frames_per_delay c; time_started := time_started c; bytes_transferred := bytes_transferred c; report_fn := report_fn c; report_arg := report_arg c; udp_lastpkt := udp_lastpkt c; udp_seq := udp_seq c; udp_rx_lost := udp_rx_lost c; udp_rx_outorder := udp_rx_outorder c; udp_rx_total_pkt := udp_rx_total_pkt c; udp_rx_total_size := udp_rx_total_size c; udp_last_transit := udp_last_transit c; jitter := jitter c |}.
Definition set_have_settings_buf (v : Z) (c : lwiperf_state_udp_t) : lwiperf_state_udp_t :=
  {| base := base c; pcb := pcb c; reported := reported c; remote_addr := remote_addr c; remote_port := remote_port c; report_count := report_count c; have_settings_buf := v; settings := settings c; delay_target := delay_target c; frames_per_delay := frames_per_delay c; time_started := time_started c; bytes_transferred := bytes_transferred c; report_fn := report_fn c; report_arg := report_arg c; udp_lastpkt := udp_lastpkt c; udp_seq := udp_seq c; udp_rx_lost := udp_rx_lost c; udp_rx_outorder := udp_rx_outorder c; udp_rx_total_pkt := udp_rx_total_pkt c; udp_rx_total_size := udp_rx_total_size c; udp_last_transit := udp_last_transit c; jitter := jitter c |}.
Definition set_settings (v : Ext.lwiperf_settings_ext_t) (c : lwiperf_state_udp_t) : lwiperf_state_udp_t :=
  {| base := base c; pcb := pcb c; reported := reported c; remote_addr := remote_addr c; remote_port := remote_port c; report_count := report_count c; have_settings_buf := have_settings_buf c; settings := v; delay_target := delay_target c; frames_per_delay := frames_per_delay c; time_started := time_started c; bytes_transferred := bytes_transferred c; report_fn := report_fn c; report_arg := report_arg c; udp_lastpkt := udp_lastpkt c; udp_seq := udp_seq c; udp_rx_lost := udp_rx_lost c; udp_rx_outorder := udp_rx_outorder c; udp_rx_total_pkt := udp_rx_total_pkt c; udp_rx_total_size := udp_rx_total_size c; udp_last_transit := udp_last_transit c; jitter := jitter c |}.
Definition set_delay_target (v : Z) (c : lwiperf_state_udp_t) : lwiperf_state_udp_t :=
  {| base := base c; pcb := pcb c; reported := reported c; remote_addr := remote_addr c; remote_port := remote_port c; report_count := report_count c; have_settings_buf := have_settings_buf c; settings := settings c; delay_target := v; frames_per_delay := frames_per_delay c; time_started := time_started c; bytes_transferred := bytes_transferred c; report_fn := report_fn c; report_arg := report_arg c; udp_lastpkt := udp_lastpkt c; udp_seq := udp_seq c; udp_rx_lost := udp_rx_lost c; udp_rx_outorder := udp_rx_outorder c; udp_rx_total_pkt := udp_rx_total_pkt c; udp_rx_total_size := udp_rx_total_size c; udp_last_transit := udp_last_transit c; jitter := jitter c |}.
Definition set_frames_per_delay (v : Z) (c : lwiperf_state_udp_t) : lwiperf_state_udp_t :=
  {| base := base c; pcb := pcb c; reported := reported c; remote_addr := remote_addr c; remote_port := remote_port c; report_count := report_count c; have_settings_buf := have_settings_buf c; settings := settings c; delay_target := delay_target c; frames_per_delay := v; time_started := time_started c; bytes_transferred := bytes_transferred c; report_fn := report_fn c; report_arg := report_arg c; udp_lastpkt := udp_lastpkt c; udp_seq := udp_seq c; udp_rx_lost := udp_rx_lost c; udp_rx_outorder := udp_rx_outorder c; udp_rx_total_pkt := udp_rx_total_pkt c; udp_rx_total_size := udp_rx_total_size c; udp_last_transit := udp_last_transit c; jitter := jitter c |}.
Definition set_time_started (v : Z) (c : lwiperf_state_udp_t) : lwiperf_state_udp_t :=
  {| base := base c; pcb := pcb c; reported := reported c; remote_addr := remote_addr c; remote_port := remote_port c; report_count := report_count c; have_settings_buf := have_settings_buf c; settings := settings c; delay_target := delay_target c; frames_per_delay := frames_per_delay c; time_started := v; bytes_transferred := bytes_transferred c; report_fn := report_fn c; report_arg := report_arg c; udp_lastpkt := udp_lastpkt c; udp_seq := udp_seq c; udp_rx_lost := udp_rx_lost c; udp_rx_outorder := udp_rx_outorder c; udp_rx_total_pkt := udp_rx_total_pkt c; udp_rx_total_size := udp_rx_total_size c; udp_last_transit := udp_last_transit c; jitter := jitter c |}.
Definition set_bytes_transferred (v : Z) (c : lwiperf_state_udp_t) : lwiperf_state_udp_t :=
  {| base := base c; pcb := pcb c; reported := reported c; remote_addr := remote_addr c; remote_port := remote_port c; report_count := report_count c; have_settings_buf := have_settings_buf c; settings := settings c; delay_target := delay_target c; frames_per_delay := frames_per_delay c; time_started := time_started c; bytes_transferred := v; report_fn := report_fn c; report_arg := report_arg c; udp_lastpkt := udp_lastpkt c; udp_seq := udp_seq c; udp_rx_lost := udp_rx_lost c; udp_rx_outorder := udp_rx_outorder c; udp_rx_total_pkt := udp_rx_total_pkt c; udp_rx_total_size := udp_rx_total_size c; udp_last_transit := udp_last_transit c; jitter := jitter c |}.
Definition set_report_fn (v : Z) (c : lwiperf_state_udp_t) : lwiperf_state_udp_t :=
  {| base := base c; pcb := pcb c; reported := reported c; remote_addr := remote_addr c; remote_port := remote_port c; report_count := report_count c; have_settings_buf := have_settings_buf c; settings := settings c; delay_target := delay_target c; frames_per_delay := frames_per_delay c; time_started := time_started c; bytes_transferred := bytes_transferred c; report_fn := v; report_arg := report_arg c; udp_lastpkt := udp_lastpkt c; udp_seq := udp_seq c; udp_rx_lost := udp_rx_lost c; udp_rx_outorder := udp_rx_outorder c; udp_rx_total_pkt := udp_rx_total_pkt c; udp_rx_total_size := udp_rx_total_size c; udp_last_transit := udp_last_transit c; jitter := jitter c |}.
Definition set_report_arg (v : Z) (c : lwiperf_state_udp_t) : lwiperf_state_udp_t :=
  {| base := base c; pcb := pcb c; reported := reported c; remote_addr := remote_addr c; remote_port := remote_port c; report_count := report_count c; have_settings_buf := have_settings_buf c; settings := settings c; delay_target := delay_target c; frames_per_delay := frames_per_delay c; time_started := time_started c; bytes_transferred := bytes_transferred c; report_fn := report_fn c; report_arg := v; udp_lastpkt := udp_lastpkt c; udp_seq := udp_seq c; udp_rx_lost := udp_rx_lost c; udp_rx_outorder := udp_rx_outorder c; udp_rx_total_pkt := udp_rx_total_pkt c; udp_rx_total_size := udp_rx_total_size c; udp_last_transit := udp_last_transit c; jitter := jitter c |}.
Definition set_udp_lastpkt (v : Ts.timespec) (c : lwiperf_state_udp_t) : lwiperf_state_udp_t :=
  {| base := base c; pcb := pcb c; reported := reported c; remote_addr := remote_addr c; remote_port := remote_port c; report_count := report_count c; have_settings_buf := have_settings_buf c; settings := settings c; delay_target := delay_target c; frames_per_delay := frames_per_delay c; time_started := time_started c; bytes_transferred := bytes_transferred c; report_fn := report_fn c; report_arg := report_arg c; udp_lastpkt := v; udp_seq := udp_seq c; udp_rx_lost := udp_rx_lost c; udp_rx_outorder := udp_rx_outorder c; udp_rx_total_pkt := udp_rx_total_pkt c; udp_rx_total_size := udp_rx_total_size c; udp_last_transit := udp_last_transit c; jitter := jitter c |}.
Definition set_udp_seq (v : Z) (c : lwiperf_state_udp_t) : lwiperf_state_udp_t :=
  {| base := base c; pcb := pcb c; reported := reported c; remote_addr := remote_addr c; remote_port := remote_port c; report_count := report_count c; have_settings_buf := have_settings_buf c; settings := settings c; delay_target := delay_target c; frames_per_delay := frames_per_delay c; time_started := time_started c; bytes_transferred := bytes_transferred c; report_fn := report_fn c; report_arg := report_arg c; udp_lastpkt := udp_lastpkt c; udp_seq := v; udp_rx_lost := udp_rx_lost c; udp_rx_outorder := udp_rx_outorder c; udp_rx_total_pkt := udp_rx_total_pkt c; udp_rx_total_size := udp_rx_total_size c; udp_last_transit := udp_last_transit c; jitter := jitter c |}.
Definition set_udp_rx_lost (v : Z) (c : lwiperf_state_udp_t) : lwiperf_state_udp_t :=
  {| base := base c; pcb := pcb c; reported := reported c; remote_addr := remote_addr c; remote_port := remote_port c; report_count := report_count c; have_settings_buf := have_settings_buf c; settings := settings c; delay_target := delay_target c; frames_per_delay := frames_per_delay c; time_started := time_started c; bytes_transferred := bytes_transferred c; report_fn := report_fn c; report_arg := report_arg c; udp_lastpkt := udp_lastpkt c; udp_seq := udp_seq c; udp_rx_lost := v; udp_rx_outorder := udp_rx_outorder c; udp_rx_total_pkt := udp_rx_total_pkt c; udp_rx_total_size := udp_rx_total_size c; udp_last_transit := udp_last_transit c; jitter := jitter c |}.
Definition set_udp_rx_outorder (v : Z) (c : lwiperf_state_udp_t) : lwiperf_state_udp_t :=
  {| base := base c; pcb := pcb c; reported := reported c; remote_addr := remote_addr c; remote_port := remote_port c; report_count := report_count c; have_settings_buf := have_settings_buf c; settings := settings c; delay_target := delay_target c; frames_per_delay := frames_per_delay c; time_started := time_started c; bytes_transferred := bytes_transferred c; report_fn := report_fn c; report_arg := report_arg c; udp_lastpkt := udp_lastpkt c; udp_seq := udp_seq c; udp_rx_lost := udp_rx_lost c; udp_rx_outorder := v; udp_rx_total_pkt := udp_rx_total_pkt c; udp_rx_total_size := udp_rx_total_size c; udp_last_transit := udp_last_transit c; jitter := jitter c |}.
Definition set_udp_rx_total_pkt (v : Z) (c : lwiperf_state_udp_t) : lwiperf_state_udp_t :=
  {| base := base c; pcb := pcb c; reported := reported c; remote_addr := remote_addr c; remote_port := remote_port c; report_count := report_count c; have_settings_buf := have_settings_buf c; settings := settings c; delay_target := delay_target c; frames_per_delay := frames_per_delay c; time_started := time_started c; bytes_transferred := bytes_transferred c; report_fn := report_fn c; report_arg := report_arg c; udp_lastpkt := udp_lastpkt c; udp_seq := udp_seq c; udp_rx_lost := udp_rx_lost c; udp_rx_outorder := udp_rx_outorder c; udp_rx_total_pkt := v; udp_rx_total_size := udp_rx_total_size c; udp_last_transit := udp_last_transit c; jitter := jitter c |}.
Definition set_udp_rx_total_size (v : Z) (c : lwiperf_state_udp_t) : lwiperf_state_udp_t :=
  {| base := base c; pcb := pcb c; reported := reported c; remote_addr := remote_addr c; remote_port := remote_port c; report_count := report_count c; have_settings_buf := have_settings_buf c; settings := settings c; delay_target := delay_target c; frames_per_delay := frames_per_delay c; time_started := time_started c; bytes_transferred := bytes_transferred c; report_fn := report_fn c; report_arg := report_arg c; udp_lastpkt := udp_lastpkt c; udp_seq := udp_seq c; udp_rx_lost := udp_rx_lost c; udp_rx_outorder := udp_rx_outorder c; udp_rx_total_pkt := udp_rx_total_pkt c; udp_rx_total_size := v; udp_last_transit := udp_last_transit c; jitter := jitter c |}.
Definition set_udp_last_transit (v : Z) (c : lwiperf_state_udp_t) : lwiperf_state_udp_t :=
  {| base := base c; pcb := pcb c; reported := reported c; remote_addr := remote_addr c; remote_port := remote_port c; report_count := report_count c; have_settings_buf := have_settings_buf c; settings := settings c; delay_target := delay_target c; frames_per_delay := frames_per_delay c; time_started := time_started c; bytes_transferred := bytes_transferred c; report_fn := report_fn c; report_arg := report_arg c; udp_lastpkt := udp_lastpkt c; udp_seq := udp_seq c; udp_rx_lost := udp_rx_lost c; udp_rx_outorder := udp_rx_outorder c; udp_rx_total_pkt := udp_rx_total_pkt c; udp_rx_total_size := udp_rx_total_size c; udp_last_transit := v; jitter := jitter c |}.
Definition set_jitter (v : Z) (c : lwiperf_state_udp_t) : lwiperf_state_udp_t :=
  {| base := base c; pcb := pcb c; reported := reported c; remote_addr := remote_addr c; remote_port := remote_port c; report_count := report_count c; have_settings_buf := have_settings_buf c; settings := settings c; delay_target := delay_target c; frames_per_delay := frames_per_delay c; time_started := time_started c; bytes_transferred := bytes_transferred c; report_fn := report_fn c; report_arg := report_arg c; udp_lastpkt := udp_lastpkt c; udp_seq := udp_seq c; udp_rx_lost := udp_rx_lost c; udp_rx_outorder := udp_rx_outorder c; udp_rx_total_pkt := udp_rx_total_pkt c; udp_rx_total_size := udp_rx_total_size c; udp_last_transit := udp_last_transit c; jitter := v |}.
End Udp.

Module Tcp.
(** lwiperf_state_tcp_t, field for field. *)
Record lwiperf_state_tcp_t : Type := mk {
  base : Base.lwiperf_state_base_t;
  server_pcb : Z;
  conn_pcb : Z;
  time_started : Z;
  report_fn : Z;
  report_arg : Z;
  poll_count : Z;
  client_tradeoff_mode : Z;
  bytes_transferred : Z;
  settings : Ext.lwiperf_settings_ext_t;
  have_settings_buf : Z;
  specific_remote : Z;
  remote_addr : ip_addr_t
}.
Definition set_base (v : Base.lwiperf_state_base_t) (c : lwiperf_state_tcp_t) : lwiperf_state_tcp_t :=
  {| base := v; server_pcb := server_pcb c; conn_pcb := conn_pcb c; time_started := time_started c; report_fn := report_fn c; report_arg := report_arg c; poll_count := poll_count c; client_tradeoff_mode := client_tradeoff_mode c; bytes_transferred := bytes_transferred c; settings := settings c; have_settings_buf := have_settings_buf c; specific_remote := specific_remote c; remote_addr := remote_addr c |}.
Definition set_server_pcb (v : Z) (c : lwiperf_state_tcp_t) : lwiperf_state_tcp_t :=
  {| base := base c; server_pcb := v; conn_pcb := conn_pcb c; time_started := time_started c; report_fn := report_fn c; report_arg := report_arg c; poll_count := poll_count c; client_tradeoff_mode := client_tradeoff_mode c; bytes_transferred := bytes_transferred c; settings := settings c; have_settings_buf := have_settings_buf c; specific_remote := specific_remote c; remote_addr := remote_addr c |}.
Definition set_conn_pcb (v : Z) (c : lwiperf_state_tcp_t) : lwiperf_state_tcp_t :=
  {| base := base c; server_pcb := server_pcb c; conn_pcb := v; time_started := time_started c; report_fn := report_fn c; report_arg := report_arg c; poll_count := poll_count c; client_tradeoff_mode := client_tradeoff_mode c; bytes_transferred := bytes_transferred c; settings := settings c; have_settings_buf := have_settings_buf c; specific_remote := specific_remote c; remote_addr := remote_addr c |}.
Definition set_time_started (v : Z) (c : lwiperf_state_tcp_t) : lwiperf_state_tcp_t :=
  {| base := base c; server_pcb := server_pcb c; conn_pcb := conn_pcb c; time_started := v; report_fn := report_fn c; report_arg := report_arg c; poll_count := poll_count c; client_tradeoff_mode := client_tradeoff_mode c; bytes_transferred := bytes_transferred c; settings := settings c; have_settings_buf := have_settings_buf c; specific_remote := specific_remote c; remote_addr := remote_addr c |}.
Definition set_report_fn (v : Z) (c : lwiperf_state_tcp_t) : lwiperf_state_tcp_t :=
  {| base := base c; server_pcb := server_pcb c; conn_pcb := conn_pcb c; time_started := time_started c; report_fn := v; report_arg := report_arg c; poll_count := poll_count c; client_tradeoff_mode := client_tradeoff_mode c; bytes_transferred := bytes_transferred c; settings := settings c; have_settings_buf := have_settings_buf c; specific_remote := specific_remote c; remote_addr := remote_addr c |}.
Definition set_report_arg (v : Z) (c : lwiperf_state_tcp_t) : lwiperf_state_tcp_t :=
  {| base := base c; server_pcb := server_pcb c; conn_pcb := conn_pcb c; time_started := time_started c; report_fn := report_fn c; report_arg := v; poll_count := poll_count c; client_tradeoff_mode := client_tradeoff_mode c; bytes_transferred := bytes_transferred c; settings := settings c; have_settings_buf := have_settings_buf c; specific_remote := specific_remote c; remote_addr := remote_addr c |}.
Definition set_poll_count (v : Z) (c : lwiperf_state_tcp_t) : lwiperf_state_tcp_t :=
  {| base := base c; server_pcb := server_pcb c; conn_pcb := conn_pcb c; time_started := time_started c; report_fn := report_fn c; report_arg := report_arg c; poll_count := v; client_tradeoff_mode := client_tradeoff_mode c; bytes_transferred := bytes_transferred c; settings := settings c; have_settings_buf := have_settings_buf c; specific_remote := specific_remote c; remote_addr := remote_addr c |}.
Definition set_client_tradeoff_mode (v : Z) (c : lwiperf_state_tcp_t) : lwiperf_state_tcp_t :=
  {| base := base c; server_pcb := server_pcb c; conn_pcb := conn_pcb c; time_started := time_started c; report_fn := report_fn c; report_arg := report_arg c; poll_count := poll_count c; client_tradeoff_mode := v; bytes_transferred := bytes_transferred c; settings := settings c; have_settings_buf := have_settings_buf c; specific_remote := specific_remote c; remote_addr := remote_addr c |}.
Definition set_bytes_transferred (v : Z) (c : lwiperf_state_tcp_t) : lwiperf_state_tcp_t :=
  {| base := base c; server_pcb := server_pcb c; conn_pcb := conn_pcb c; time_started := time_started c; report_fn := report_fn c; report_arg := report_arg c; poll_count := poll_count c; client_tradeoff_mode := client_tradeoff_mode c; bytes_transferred := v; settings := settings c; have_settings_buf := have_settings_buf c; specific_remote := specific_remote c; remote_addr := remote_addr c |}.
Definition set_settings (v : Ext.lwiperf_settings_ext_t) (c : lwiperf_state_tcp_t) : lwiperf_state_tcp_t :=
  {| base := base c; server_pcb := server_pcb c; conn_pcb := conn_pcb c; time_started := time_started c; report_fn := report_fn c; report_arg := report_arg c; poll_count := poll_count c; client_tradeoff_mode := client_tradeoff_mode c; bytes_transferred := bytes_transferred c; settings := v; have_settings_buf := have_settings_buf c; specific_remote := specific_remote c; remote_addr := remote_addr c |}.
Definition set_have_settings_buf (v : Z) (c : lwiperf_state_tcp_t) : lwiperf_state_tcp_t :=
  {| base := base c; server_pcb := server_pcb c; conn_pcb := conn_pcb c; time_started := time_started c; report_fn := report_fn c; report_arg := report_arg c; poll_count := poll_count c; client_tradeoff_mode := client_tradeoff_mode c; bytes_transferred := bytes_transferred c; settings := settings c; have_settings_buf := v; specific_remote := specific_remote c; remote_addr := remote_addr c |}.
Definition set_specific_remote (v : Z) (c : lwiperf_state_tcp_t) : lwiperf_state_tcp_t :=
  {| base := base c; server_pcb := server_pcb c; conn_pcb := conn_pcb c; time_started := time_started c; report_fn := report_fn c; report_arg := report_arg c; poll_count := poll_count c; client_tradeoff_mode := client_tradeoff_mode c; bytes_transferred := bytes_transferred c; settings := settings c; have_settings_buf := have_settings_buf c; specific_remote := v; remote_addr := remote_addr c |}.
Definition set_remote_addr (v : ip_addr_t) (c : lwiperf_state_tcp_t) : lwiperf_state_tcp_t :=
  {| base := base c; server_pcb := server_pcb c; conn_pcb := conn_pcb c; time_started := time_started c; report_fn := report_fn c; report_arg := report_arg c; poll_count := poll_count c; client_tradeoff_mode := client_tradeoff_mode c; bytes_transferred := bytes_transferred c; settings := settings c; have_settings_buf := have_settings_buf c; specific_remote := specific_remote c; remote_addr := v |}.
End Tcp.


(** A received or allocated packet buffer: total length in bytes, the
    payload as the 32-bit words the host loads from it (word 0 is the id of
    struct UDP_datagram, words 1 and 2 its timestamp, word 3 id2, and the
    settings or report record starts at word 4), and the reference count. *)
Module Pbuf.
Record pbuf : Type := mk { tot_len : Z; payload : list Z; ref : Z }.
End Pbuf.

Definition pkt_word (p : Pbuf.pbuf) (k : nat) : Z := u32 (nth k (Pbuf.payload p) 0).

(** ** Faults and results

    Behaviour the C standard leaves undefined, a failed LWIP_ASSERT, and the
    exhaustion of the fuel that bounds a loop of the model. *)
Inductive fault : Type :=
| DivisionByZero
| AssertFailed
| InvalidPointer
| OutOfFuel.

Inductive res (A : Type) : Type :=
| Ok (a : A)
| Crash (f : fault).
Arguments Ok {A} a.
Arguments Crash {A} f.

(** [res] is an error monad; stdpp's [x ← m; k] notation is used for it. *)
#[global] Instance res_bind : MBind res := fun A B k m =>
  match m with
  | Ok a => k a
  | Crash f => Crash f
  end.
#[global] Instance res_ret : MRet res := fun A a => Ok a.

Definition LWIP_ASSERT (b : bool) : res unit :=
  if b then Ok tt else Crash AssertFailed.

(** What a callback does to the outside world, in order. *)
Inductive event : Type :=
| EvReport (conn : Z) (rt : lwiperf_report_type) (bytes duration_ms bandwidth_kbitpsec : Z)
| EvFree (addr : Z)
| EvPbufFree
| EvUdpSend (id len err : Z)
| EvUdpSendTo (pcb q : Z) (addr : ip_addr_t) (port : Z)
| EvUdpRemove (pcb : Z)
| EvTcpWrite (len apiflags err : Z)
| EvTcpOutput
| EvTcpClose (pcb err : Z)
| EvTcpAbort (pcb : Z)
| EvTcpRecved (len : Z)
| EvTimeout (ms : Z).

(** ** Clock helpers *)

(** clock_gettime: sys_now() split into seconds and nanoseconds. *)
Definition clock_gettime (now : Z) : Ts.timespec :=
  {| Ts.tv_sec := s32 (u32 now / 1000);
     Ts.tv_nsec := s32 (u32 ((u32 now mod 1000) * 1000000)) |}.

Definition diff_ts (start stop : Ts.timespec) : Ts.timespec :=
  if s32 (Ts.tv_nsec stop - Ts.tv_nsec start) <? 0 then
    {| Ts.tv_sec := s32 (Ts.tv_sec stop - Ts.tv_sec start - 1);
       Ts.tv_nsec := s32 (Ts.tv_nsec stop - Ts.tv_nsec start + 1000000000) |}
  else
    {| Ts.tv_sec := s32 (Ts.tv_sec stop - Ts.tv_sec start);
       Ts.tv_nsec := s32 (Ts.tv_nsec stop - Ts.tv_nsec start) |}.

(** (uint32_t)((dt.tv_sec * 1000000) + (dt.tv_nsec / 1000)) *)
Definition ts_to_us (dt : Ts.timespec) : Z :=
  u32 (Ts.tv_sec dt * 1000000 + Z.quot (Ts.tv_nsec dt) 1000).

(** ** UDP pacing *)

(** (uint32_t)((buf_len * 8 * (u64_t)1000000) / rate): buf_len * 8 is a
    32-bit product, rate is converted to u64_t, and the division traps on a
    zero divisor. *)
Definition ideal_frame_delay (rate buf_len : Z) : res Z :=
  if u64 rate =? 0 then Crash DivisionByZero
  else Ok (u32 ((u32 (buf_len * 8) * 1000000) / u64 rate)).

Definition lwiperf_udp_set_client_rate (c : Udp.lwiperf_state_udp_t) (rate buf_len : Z)
  : res Udp.lwiperf_state_udp_t :=
  d ← ideal_frame_delay rate buf_len;
  let c := Udp.set_delay_target d c in
  let c := Udp.set_delay_target
             (u32 ((Udp.delay_target c / CLOCK_RESOLUTION_US) * CLOCK_RESOLUTION_US)) c in
  if Udp.delay_target c =? 0 then
    let c := Udp.set_delay_target CLOCK_RESOLUTION_US c in
    d2 ← ideal_frame_delay rate buf_len;
    if d2 =? 0 then Crash DivisionByZero
    else Ok (Udp.set_frames_per_delay (CLOCK_RESOLUTION_US / d2) c)
  else
    Ok (Udp.set_frames_per_delay 1 c).

(** How a callback leaves the session it ran on: still alive with a new
    state, or handed to lwiperf_tcp_close / lwiperf_udp_close (which
    unregisters, reports and frees it) in the state and with the reason
    given. *)
Inductive outcome (S : Type) : Type :=
| Kept (s : S)
| Closed (s : S) (rt : lwiperf_report_type).
Arguments Kept {S} s.
Arguments Closed {S} s rt.

(** Answers of the clock and the transport stack to one run of
    lwiperf_udp_client_send_more. *)
Record tx_env : Type := mk_tx_env {
  tx_now_limit : Z;           (* sys_now() of the time-limit check *)
  tx_now_clock : Z;           (* sys_now() behind clock_gettime *)
  tx_pbuf_alloc : Z -> bool;  (* pbuf_alloc succeeded in round i *)
  tx_udp_send : Z -> Z        (* err_t of udp_send in round i *)
}.

(** The termination test of lwiperf_udp_client_send_more: 0 while the
    target is not reached, 1 once it is, 2 once it is overshot by 500 ms
    or 4096 bytes. *)
Definition udp_tx_ending (now : Z) (conn : Udp.lwiperf_state_udp_t) : Z :=
  let amount := St.amount (Ext.base (Udp.settings conn)) in
  if tst amount (PP_HTONL 0x80000000) then
    let diff_ms := u32 (now - Udp.time_started conn) in
    let time := u32 (- s32 (lwip_ntohl amount)) in
    let time_ms := u32 (time * 10) in
    if time_ms <=? diff_ms then
      (if u32 (time_ms + 500) <? diff_ms then 2 else 1)
    else 0
  else
    let amount_bytes := lwip_ntohl amount in
    if amount_bytes <=? Udp.bytes_transferred conn then
      (if u32 (amount_bytes + 4096) <=? Udp.bytes_transferred conn then 2 else 1)
    else 0.

(** The for loop of lwiperf_udp_client_send_more, from round [i] on.  The
    contents of the datagram beyond its id and length are not recorded. *)
Fixpoint udp_send_rounds (fuel : nat) (e : tx_env) (ts : Ts.timespec) (ending : Z)
    (i : Z) (conn : Udp.lwiperf_state_udp_t) (tr : list event)
  : res (Udp.lwiperf_state_udp_t * list event) :=
  match fuel with
  | O => Crash OutOfFuel
  | S fuel' =>
    if i <? Udp.frames_per_delay conn then
      if tx_pbuf_alloc e i then
        let len := u16 (lwip_ntohl (St.buffer_len (Ext.base (Udp.settings conn)))) in
        let id := if nz ending then s32 (- Udp.udp_seq conn) else s32 (Udp.udp_seq conn) in
        let conn := Udp.set_udp_lastpkt ts conn in
        let err := tx_udp_send e i in
        if err =? ERR_OK then
          let conn :=
            if negb (nz (Base.server (Udp.base conn))) || negb (nz (Base.reverse (Udp.base conn)))
            then Udp.set_bytes_transferred (u64 (Udp.bytes_transferred conn + len))
                   (Udp.set_udp_seq (u32 (Udp.udp_seq conn + 1)) conn)
            else conn in
          let conn :=
            if nz ending
            then Udp.set_frames_per_delay 10 (Udp.set_delay_target 50000 conn)
            else conn in
          udp_send_rounds fuel' e ts ending (u32 (i + 1)) conn
            (tr ++ [EvUdpSend id len err; EvPbufFree])
        else
          (* udp_send failed: the datagram is lost, the buffer released *)
          Ok (conn, tr ++ [EvUdpSend id len err; EvPbufFree])
      else
        (* pbuf_alloc failed: it may recover later *)
        Ok (conn, tr)
    else Ok (conn, tr)
  end.

Definition lwiperf_udp_client_send_more (e : tx_env) (conn : Udp.lwiperf_state_udp_t)
  : res (outcome Udp.lwiperf_state_udp_t * list event) :=
  _ ← LWIP_ASSERT (negb (nz (Base.tcp (Udp.base conn)))
                   && ((Base.server (Udp.base conn) =? 0) || nz (Base.reverse (Udp.base conn))));
  let ending := udp_tx_ending (tx_now_limit e) conn in
  if nz ending && ((1 <? ending) || (0 <? Udp.report_count conn)) then
    if nz (Base.reverse (Udp.base conn))
    then Ok (Closed conn LWIPERF_UDP_DONE_SERVER_TX, [])
    else Ok (Closed conn LWIPERF_UDP_DONE_CLIENT_TX, [])
  else
    let ts := clock_gettime (tx_now_clock e) in
    let dt := diff_ts (Udp.udp_lastpkt conn) ts in
    if ts_to_us dt <? Udp.delay_target conn then Ok (Kept conn, [])
    else
      '(conn', tr) ← udp_send_rounds (S (Z.to_nat (Z.max (Udp.frames_per_delay conn) 10)))
                        e ts ending 0 conn [];
      Ok (Kept conn', tr).

(** ** Starting a UDP transmitter *)

(** Answers to the calls made while a transmitter is set up. *)
Record start_env : Type := mk_start_env {
  st_malloc : Z;     (* LWIPERF_ALLOC: the address of the new state, 0 on failure *)
  st_udp_new : Z;    (* udp_new: the new pcb, 0 on failure *)
  st_now : Z;        (* sys_now() stored as time_started *)
  st_bind : Z;       (* err_t of udp_bind *)
  st_connect : Z;    (* err_t of udp_connect *)
  st_tx : tx_env     (* the first run of lwiperf_udp_client_send_more *)
}.

Definition St_zero : St.lwiperf_settings_t := St.mk 0 0 0 0 0 0.
Definition Ext_zero : Ext.lwiperf_settings_ext_t := Ext.mk St_zero 0 0 0 0 0 0 0 0 0.
Definition Base_zero : Base.lwiperf_state_base_t := Base.mk 0 0 0 0 0 0.
Definition ip_zero : ip_addr_t := mk_ip false 0.
(** memset(conn, 0, sizeof(lwiperf_state_udp_t)) *)
Definition Udp_zero : Udp.lwiperf_state_udp_t :=
  Udp.mk Base_zero 0 0 ip_zero 0 0 0 Ext_zero 0 0 0 0 0 0 (Ts.mk 0 0) 0 0 0 0 0 0 0.

Definition set_flags (v : Z) (s : Ext.lwiperf_settings_ext_t) : Ext.lwiperf_settings_ext_t :=
  Ext.set_base (St.set_flags v (Ext.base s)) s.
Definition set_buffer_len (v : Z) (s : Ext.lwiperf_settings_ext_t) : Ext.lwiperf_settings_ext_t :=
  Ext.set_base (St.set_buffer_len v (Ext.base s)) s.

(** lwiperf_udp_tx_new: a fresh client state, copied from [conn] when one is
    given.  [None] is the NULL result. *)
Definition lwiperf_udp_tx_new (e : start_env) (conn : option Udp.lwiperf_state_udp_t)
  : option Udp.lwiperf_state_udp_t * list event :=
  if st_malloc e =? 0 then (None, [])
  else if st_udp_new e =? 0 then (None, [EvFree (st_malloc e)])
  else
    let c := match conn with Some c0 => c0 | None => Udp_zero end in
    let c := Udp.set_base (Base.set_server 0 (Base.set_tcp 0 (Udp.base c))) c in
    let c := Udp.set_pcb (st_udp_new e) c in
    let c := Udp.set_time_started (u32 (st_now e)) c in
    let c := Udp.set_bytes_transferred 0 c in
    let c := Udp.set_settings (set_flags 0 (Udp.settings c)) c in
    let c := Udp.set_report_count 0 c in
    if negb (st_bind e =? ERR_OK)
    then (None, [EvUdpRemove (st_udp_new e); EvFree (st_malloc e)])
    else (Some c, []).

Definition default_buf_len (a : ip_addr_t) : Z := if ip_is_v6 a then 1450 else 1470.

(** What starting a return transmitter leaves behind: the err_t, the new
    session with its address when one was registered, and the trace. *)
Record udp_started : Type := mk_udp_started {
  started_err : Z;
  started_conn : option (Z * outcome Udp.lwiperf_state_udp_t);
  started_trace : list event
}.

(** lwiperf_udp_tx_start: the return transmitter of a dual or tradeoff
    test, paced at the rate the peer's settings ask for. *)
Definition lwiperf_udp_tx_start (e : start_env) (conn : Udp.lwiperf_state_udp_t)
  : res udp_started :=
  match lwiperf_udp_tx_new e (Some conn) with
  | (None, tr) => Ok (mk_udp_started ERR_MEM None tr)
  | (Some cc, tr) =>
    let cc := Udp.set_remote_port
                (u16 (lwip_htonl (St.remote_port (Ext.base (Udp.settings cc))))) cc in
    let buf_len := default_buf_len (Udp.remote_addr cc) in
    let cc := Udp.set_settings (set_buffer_len (lwip_htonl buf_len) (Udp.settings cc)) cc in
    cc ← (if tst (St.flags (Ext.base (Udp.settings conn))) (PP_HTONL LWIPERF_FLAGS_EXTEND)
          then lwiperf_udp_set_client_rate cc
                 (s32 (lwip_ntohl (Ext.rate (Udp.settings conn)))) buf_len
          else if nz (St.win_band (Ext.base (Udp.settings cc)))
          then lwiperf_udp_set_client_rate cc
                 (s32 (lwip_ntohl (St.win_band (Ext.base (Udp.settings cc))))) buf_len
          else lwiperf_udp_set_client_rate cc (1024 * 1024) buf_len);
    if negb (st_connect e =? ERR_OK) then
      (* lwiperf_udp_close(cc, LWIPERF_UDP_ABORTED_LOCAL) on the unregistered state *)
      Ok (mk_udp_started (st_connect e)
            (Some (st_malloc e, Closed cc LWIPERF_UDP_ABORTED_LOCAL)) tr)
    else
      '(o, tr') ← lwiperf_udp_client_send_more (st_tx e) cc;
      Ok (mk_udp_started ERR_OK (Some (st_malloc e, o)) (tr ++ tr'))
  end.

(** lwiperf_udp_tx_reverse_start: the server side of a reverse test turns
    the receiving session itself into the transmitter. *)
Definition lwiperf_udp_tx_reverse_start (e : start_env) (conn : Udp.lwiperf_state_udp_t)
  : res (Z * outcome Udp.lwiperf_state_udp_t * list event) :=
  _ ← LWIP_ASSERT (Udp.pcb conn =? 0);
  _ ← LWIP_ASSERT (tst (St.flags (Ext.base (Udp.settings conn))) (lwip_htonl LWIPERF_FLAGS_EXTEND));
  if st_udp_new e =? 0 then Ok (ERR_MEM, Kept conn, [])
  else
    let conn := Udp.set_base (Base.set_server 0 (Udp.base conn)) conn in
    let conn := Udp.set_pcb (st_udp_new e) conn in
    let conn := Udp.set_time_started (u32 (st_now e)) conn in
    let conn := Udp.set_bytes_transferred 0 conn in
    let conn := Udp.set_settings (set_flags 0 (Udp.settings conn)) conn in
    let conn := Udp.set_settings
                  (Ext.set_eflags (Z.ldiff (Ext.eflags (Udp.settings conn))
                                     (lwip_htonl LWIPERF_EFLAGS_REVERSE))
                     (Udp.settings conn)) conn in
    let buf_len := default_buf_len (Udp.remote_addr conn) in
    let conn := Udp.set_settings (set_buffer_len (lwip_htonl buf_len) (Udp.settings conn)) conn in
    _ ← LWIP_ASSERT (nz (lwip_ntohl (Ext.rate (Udp.settings conn))));
    conn ← lwiperf_udp_set_client_rate conn
              (s32 (lwip_ntohl (Ext.rate (Udp.settings conn)))) buf_len;
    if negb (st_bind e =? ERR_OK)
    then Ok (st_bind e, Closed conn LWIPERF_UDP_ABORTED_LOCAL, [])
    else if negb (st_connect e =? ERR_OK)
    then Ok (st_connect e, Closed conn LWIPERF_UDP_ABORTED_LOCAL, [])
    else
      '(o, tr) ← lwiperf_udp_client_send_more (st_tx e) conn;
      Ok (ERR_OK, o, tr).

(** ** Receiving UDP datagrams *)

(** lwiperf_udp_report_t as the receiver fills it in, network byte order. *)
Record lwiperf_udp_report_t : Type := mk_report {
  rp_flags : Z; rp_total_len1 : Z; rp_total_len2 : Z; rp_stop_sec : Z; rp_stop_usec : Z;
  rp_error_cnt : Z; rp_outorder_cnt : Z; rp_datagrams : Z; rp_jitter1 : Z; rp_jitter2 : Z
}.

(** Answers to the calls made by one run of lwiperf_udp_recv. *)
Record rx_env : Type := mk_rx_env {
  rx_now_clock : Z;     (* sys_now() behind clock_gettime *)
  rx_malloc : Z;        (* LWIPERF_ALLOC of lwiperf_udp_new_client, 0 on failure *)
  rx_now_new : Z;       (* sys_now() of lwiperf_udp_new_client *)
  rx_now_started : Z;   (* sys_now() when the settings are captured *)
  rx_now_report : Z;    (* sys_now() when the report is assembled *)
  rx_clone : Z;         (* pbuf_clone: the copy, 0 on failure *)
  rx_clone_ref : Z;     (* q->ref of the copy once udp_sendto has returned *)
  rx_start : start_env  (* lwiperf_udp_tx_start or lwiperf_udp_tx_reverse_start *)
}.

(** What one run of lwiperf_udp_recv leaves behind. *)
Record udp_rx_out : Type := mk_rx_out {
  rx_conn : option (outcome Udp.lwiperf_state_udp_t); (* the session the datagram was for *)
  rx_created : option Z;   (* address of a client state allocated and registered by this run *)
  rx_spawned : option (Z * outcome Udp.lwiperf_state_udp_t); (* return transmitter started *)
  rx_report : option lwiperf_udp_report_t; (* report handed to lwiperf_udp_send_report *)
  rx_master : option (outcome Udp.lwiperf_state_udp_t); (* the master, when the run closed it *)
  rx_trace : list event
}.

(** datagramID = ntohl(pkt->id), an int32_t *)
Definition datagram_id (p : Pbuf.pbuf) : Z := s32 (lwip_ntohl (pkt_word p 0)).

(** Modelled from the spec: pbuf_copy_partial belongs to the transport
    stack; it copies what the buffer holds from [offset] on, at most [len]
    bytes, and returns the number of bytes copied. *)
Definition pbuf_copy_partial (p : Pbuf.pbuf) (len offset : Z) : Z :=
  if offset <=? u16 (Pbuf.tot_len p) then Z.min len (u16 (Pbuf.tot_len p) - offset) else 0.

Definition lwiperf_udp_new_client (e : rx_env) (srv : Z) (s : Udp.lwiperf_state_udp_t)
  : option Udp.lwiperf_state_udp_t :=
  if srv =? 0 then None
  else if rx_malloc e =? 0 then None
  else
    let conn := Udp_zero in
    let conn := Udp.set_base
                  (Base.set_related_master_state srv
                     (Base.set_server 1 (Base.set_tcp 0 (Udp.base conn)))) conn in
    let conn := Udp.set_pcb 0 conn in
    let conn := Udp.set_time_started (u32 (rx_now_new e)) conn in
    let conn := Udp.set_report_fn (Udp.report_fn s) conn in
    let conn := Udp.set_report_arg (Udp.report_arg s) conn in
    Some conn.

(** A client session receives the server's report (the branch
    [conn && !conn->base.server] of lwiperf_udp_recv). *)
Definition udp_recv_server_report (conn : Udp.lwiperf_state_udp_t) (p : Pbuf.pbuf)
  : Udp.lwiperf_state_udp_t :=
  let hdr_flags := pkt_word p 4 in
  let conn :=
    if negb (nz (Udp.report_count conn)) && tst hdr_flags (PP_HTONL LWIPERF_FLAGS_ANSWER_TEST)
    then Udp.set_bytes_transferred
           (u64 (Z.shiftl (lwip_ntohl (pkt_word p 5)) 32 + lwip_ntohl (pkt_word p 6))) conn
    else conn in
  if tst hdr_flags (PP_HTONL LWIPERF_FLAGS_ANSWER_TEST)
  then Udp.set_report_count (u8 (Udp.report_count conn + 1)) conn
  else conn.

(** The "Update stats" block of lwiperf_udp_recv. *)
Definition udp_recv_stats (conn : Udp.lwiperf_state_udp_t) (p : Pbuf.pbuf)
    (datagramID tot_len : Z) : Udp.lwiperf_state_udp_t :=
  let conn := Udp.set_udp_lastpkt
                {| Ts.tv_sec := s32 (lwip_ntohl (pkt_word p 1));
                   Ts.tv_nsec := s32 (lwip_ntohl (pkt_word p 2) * 1000) |} conn in
  if negb (Udp.udp_seq conn =? u32 datagramID) then
    let conn := Udp.set_udp_rx_lost
                  (u32 (Udp.udp_rx_lost conn + u32 (u32 datagramID - Udp.udp_seq conn))) conn in
    let conn := Udp.set_udp_seq (u32 (datagramID + 1)) conn in
    let conn := Udp.set_udp_rx_outorder (u32 (Udp.udp_rx_outorder conn + 1)) conn in
    let conn := Udp.set_bytes_transferred (u64 (Udp.bytes_transferred conn + tot_len)) conn in
    Udp.set_udp_rx_total_pkt (u32 (Udp.udp_rx_total_pkt conn + 1)) conn
  else
    let conn := Udp.set_bytes_transferred (u64 (Udp.bytes_transferred conn + tot_len)) conn in
    let conn := Udp.set_udp_rx_total_pkt (u32 (Udp.udp_rx_total_pkt conn + 1)) conn in
    Udp.set_udp_seq (u32 (Udp.udp_seq conn + 1)) conn.

(** The transit time of the datagram just recorded in udp_lastpkt, as seen
    at arrival time [ts]. *)
Definition udp_transit (ts : Ts.timespec) (conn : Udp.lwiperf_state_udp_t) : Z :=
  ts_to_us (diff_ts (Udp.udp_lastpkt conn) ts).

(** The "Jitter calculation" block of lwiperf_udp_recv. *)
Definition udp_recv_jitter (ts : Ts.timespec) (conn : Udp.lwiperf_state_udp_t)
  : Udp.lwiperf_state_udp_t :=
  let transit := udp_transit ts conn in
  if nz (Udp.udp_last_transit conn) then
    let deltaTransit := s32 (transit - Udp.udp_last_transit conn) in
    let deltaTransit := if deltaTransit <? 0 then s32 (- deltaTransit) else deltaTransit in
    Udp.set_jitter (s32 (Udp.jitter conn + Z.shiftr (s32 (deltaTransit - Udp.jitter conn)) 4)) conn
  else
    Udp.set_udp_last_transit transit conn.

(** The settings words of a packet, copied over those of the session:
    the base record starts at word [k], the extension six words later. *)
Definition copy_settings_base (k : nat) (p : Pbuf.pbuf) (s : Ext.lwiperf_settings_ext_t)
  : Ext.lwiperf_settings_ext_t :=
  Ext.set_base (St.mk (pkt_word p k) (pkt_word p (k + 1)) (pkt_word p (k + 2))
                      (pkt_word p (k + 3)) (pkt_word p (k + 4)) (pkt_word p (k + 5))) s.
Definition copy_settings_ext (k : nat) (p : Pbuf.pbuf) (s : Ext.lwiperf_settings_ext_t)
  : Ext.lwiperf_settings_ext_t :=
  Ext.mk (Ext.base s) (pkt_word p (k + 6)) (pkt_word p (k + 7)) (pkt_word p (k + 8))
         (pkt_word p (k + 9)) (pkt_word p (k + 10)) (pkt_word p (k + 11))
         (pkt_word p (k + 12)) (pkt_word p (k + 13)) (pkt_word p (k + 14)).

Definition reverse_requested (s : Ext.lwiperf_settings_ext_t) : bool :=
  tst (St.flags (Ext.base s)) (PP_HTONL LWIPERF_FLAGS_EXTEND)
  && tst (Ext.eflags s) (PP_HTONL LWIPERF_EFLAGS_REVERSE).

(** How the handshake of the first datagram ends: the datagram goes on to
    the statistics, or lwiperf_udp_recv returns. *)
Inductive handshake : Type :=
| HsGo (c : Udp.lwiperf_state_udp_t)
       (spawned : option (Z * outcome Udp.lwiperf_state_udp_t)) (tr : list event)
| HsStop (o : outcome Udp.lwiperf_state_udp_t)
         (spawned : option (Z * outcome Udp.lwiperf_state_udp_t)) (tr : list event).

(** The block of lwiperf_udp_recv guarded by [!conn->have_settings_buf],
    after the client state exists. *)
Definition udp_recv_handshake (e : rx_env) (server conn : Udp.lwiperf_state_udp_t)
    (p : Pbuf.pbuf) (addr : ip_addr_t) (port : Z) : res handshake :=
  if u16 (Pbuf.tot_len p) <? sizeof_UDP_datagram + sizeof_lwiperf_settings_t then
    Ok (HsStop (Closed conn LWIPERF_UDP_ABORTED_LOCAL_DATAERROR) None [EvPbufFree])
  else
    let copied := pbuf_copy_partial p sizeof_lwiperf_settings_t sizeof_UDP_datagram in
    let conn := Udp.set_settings (copy_settings_base 4 p (Udp.settings conn)) conn in
    if negb (copied =? sizeof_lwiperf_settings_t) then
      Ok (HsStop (Closed conn LWIPERF_UDP_ABORTED_LOCAL) None [EvPbufFree])
    else
      let extend := tst (St.flags (Ext.base (Udp.settings conn))) (lwip_htonl LWIPERF_FLAGS_EXTEND) in
      if extend && (u16 (Pbuf.tot_len p) <? sizeof_UDP_datagram + sizeof_lwiperf_settings_ext_t) then
        Ok (HsStop (Closed conn LWIPERF_UDP_ABORTED_LOCAL_DATAERROR) None [EvPbufFree])
      else
        let copied2 := pbuf_copy_partial p
                         (sizeof_lwiperf_settings_ext_t - sizeof_lwiperf_settings_t)
                         (sizeof_UDP_datagram + sizeof_lwiperf_settings_t) in
        let conn := if extend
                    then Udp.set_settings (copy_settings_ext 4 p (Udp.settings conn)) conn
                    else conn in
        if extend && negb (copied2 =? sizeof_lwiperf_settings_ext_t - sizeof_lwiperf_settings_t) then
          Ok (HsStop (Closed conn LWIPERF_UDP_ABORTED_LOCAL) None [EvPbufFree])
        else
          let conn := Udp.set_have_settings_buf 1 conn in
          let conn := Udp.set_remote_addr addr conn in
          let conn := Udp.set_remote_port port conn in
          let conn := Udp.set_time_started (u32 (rx_now_started e)) conn in
          let conn :=
            if tst (Base.server (Udp.base server)) 0x80
            then Udp.set_settings
                   (set_flags (Z.ldiff (St.flags (Ext.base (Udp.settings conn)))
                                 (PP_HTONL (Z.lor LWIPERF_FLAGS_ANSWER_TEST LWIPERF_FLAGS_ANSWER_NOW)))
                      (Udp.settings conn)) conn
            else conn in
          if reverse_requested (Udp.settings conn) then
            let conn := Udp.set_base (Base.set_reverse 1 (Udp.base conn)) conn in
            '(err2, o, tr) ← lwiperf_udp_tx_reverse_start (rx_start e) conn;
            if negb (err2 =? ERR_OK) then
              match o with
              | Kept c => Ok (HsStop (Closed c LWIPERF_UDP_ABORTED_LOCAL_TXERROR) None
                                (tr ++ [EvPbufFree]))
              | Closed _ _ =>
                (* the state was closed and freed inside; closing it again
                   reads freed memory *)
                Crash InvalidPointer
              end
            else Ok (HsStop o None (tr ++ [EvPbufFree]))
          else if tst (St.flags (Ext.base (Udp.settings conn))) (PP_HTONL LWIPERF_FLAGS_ANSWER_TEST)
                  && tst (St.flags (Ext.base (Udp.settings conn))) (PP_HTONL LWIPERF_FLAGS_ANSWER_NOW)
          then
            st ← lwiperf_udp_tx_start (rx_start e) conn;
            if negb (started_err st =? ERR_OK) then
              Ok (HsStop (Closed conn LWIPERF_UDP_ABORTED_LOCAL_TXERROR) (started_conn st)
                    (started_trace st ++ [EvPbufFree]))
            else Ok (HsGo conn (started_conn st) (started_trace st))
          else Ok (HsGo conn None []).

(** The report record assembled when the peer signals the end of the
    stream (negative id). *)
Definition make_udp_report (now : Z) (conn : Udp.lwiperf_state_udp_t) : lwiperf_udp_report_t :=
  let duration_ms := u32 (now - Udp.time_started conn) in
  {| rp_flags := PP_HTONL LWIPERF_FLAGS_ANSWER_TEST;
     rp_total_len1 := lwip_htonl (u32 (Z.shiftr (Udp.bytes_transferred conn) 32));
     rp_total_len2 := lwip_htonl (u32 (Z.land (Udp.bytes_transferred conn) 0xFFFFFFFF));
     rp_stop_sec := lwip_htonl (duration_ms / 1000);
     rp_stop_usec := lwip_htonl (u32 ((duration_ms mod 1000) * 1000));
     rp_error_cnt := lwip_htonl (Udp.udp_rx_lost conn);
     rp_outorder_cnt := lwip_htonl (Udp.udp_rx_outorder conn);
     rp_datagrams := lwip_htonl (Udp.udp_rx_total_pkt conn);
     rp_jitter1 := lwip_htonl (u32 (Z.quot (Udp.jitter conn) 1000000));
     rp_jitter2 := lwip_htonl (u32 (Z.quot (Z.rem (Udp.jitter conn) 1000000) 1000)) |}.


(** What one run of lwiperf_udp_send_report leaves behind: the session,
    its master when it was a temporary server and got closed, the return
    transmitter started for a tradeoff test, and the trace. *)
Record udp_report_out : Type := mk_report_out {
  rs_conn : outcome Udp.lwiperf_state_udp_t;
  rs_master : option (outcome Udp.lwiperf_state_udp_t);
  rs_spawned : option (Z * outcome Udp.lwiperf_state_udp_t);
  rs_trace : list event
}.

(** lwiperf_udp_send_report, run from lwiperf_udp_recv and again from the
    10 ms timer it arms.  [listed] is whether lwiperf_list_find still finds
    the session, [s] the state related_master_state points to ([None] for
    NULL), [q_ref] the reference count of the report buffer once udp_sendto
    has returned. *)
Definition lwiperf_udp_send_report (listed : bool) (q_ref : Z) (e : start_env)
    (s : option Udp.lwiperf_state_udp_t) (conn : Udp.lwiperf_state_udp_t)
  : res udp_report_out :=
  let q := Udp.reported conn in
  if negb listed then
    (* the session was aborted in the meantime *)
    Ok (mk_report_out (Kept conn) None None [])
  else
    _ ← LWIP_ASSERT (nz q);
    match s with
    | None => Crash InvalidPointer
    | Some s =>
      let sent := EvUdpSendTo (Udp.pcb s) q (Udp.remote_addr conn) (Udp.remote_port conn) in
      let conn := Udp.set_report_count (u8 (Udp.report_count conn + 1)) conn in
      if (Udp.report_count conn <? 2) && (q_ref <=? 1) then
        (* send twice after a little delay *)
        Ok (mk_report_out (Kept conn) None None [sent; EvTimeout 10])
      else
        let conn := Udp.set_reported 0 conn in
        let flags := St.flags (Ext.base (Udp.settings conn)) in
        '(spawned, tr) ←
          (if tst flags (PP_HTONL LWIPERF_FLAGS_ANSWER_TEST)
              && negb (tst flags (PP_HTONL LWIPERF_FLAGS_ANSWER_NOW))
           then
             (* client requested transmission after end of test *)
             st ← lwiperf_udp_tx_start e conn;
             Ok (started_conn st, started_trace st)
           else Ok (None, []));
        let master :=
          if tst (Base.server (Udp.base s)) 0x80
          then Some (Closed (Udp.set_report_fn 0 s) LWIPERF_UDP_DONE_SERVER_RX)
          else None in
        Ok (mk_report_out (Closed conn LWIPERF_UDP_DONE_SERVER_RX) master spawned
              ([sent; EvPbufFree] ++ tr))
    end.

(** The session a datagram is for: a server looks the sender up among its
    clients ([found] is what lwiperf_udp_search_client returns), every other
    session receives for itself. *)
Definition udp_recv_select (server : Udp.lwiperf_state_udp_t)
    (found : option Udp.lwiperf_state_udp_t) : option Udp.lwiperf_state_udp_t :=
  if nz (Base.server (Udp.base server))
     && negb (tst (St.flags (Ext.base (Udp.settings server))) (lwip_htonl LWIPERF_FLAGS_EXTEND)
              && tst (Ext.eflags (Udp.settings server)) (lwip_htonl LWIPERF_EFLAGS_REVERSE))
  then found
  else Some server.

(** lwiperf_udp_recv, the receive callback of every UDP session.  [srv] is
    the address of the state the callback was registered with and [server]
    its contents; [found] is the result of lwiperf_udp_search_client, which
    walks the registry and returns only sessions whose related_master_state
    is [srv].  The end-of-stream report therefore goes out for a session
    that is listed and whose master is [server]. *)
Definition lwiperf_udp_recv (e : rx_env) (srv : Z) (server : Udp.lwiperf_state_udp_t)
    (found : option Udp.lwiperf_state_udp_t) (p : Pbuf.pbuf) (addr : ip_addr_t) (port : Z)
  : res udp_rx_out :=
  let tot_len := u16 (Pbuf.tot_len p) in
  let conn := udp_recv_select server found in
  let datagramID := datagram_id p in
  let is_client c := negb (nz (Base.server (Udp.base c))) in
  match conn with
  | Some c =>
    if is_client c && nz (Base.reverse (Udp.base c)) then
      (* ignore *)
      Ok (mk_rx_out (Some (Kept c)) None None None None [EvPbufFree])
    else if is_client c then
      Ok (mk_rx_out (Some (Kept (udp_recv_server_report c p))) None None None None [EvPbufFree])
    else if 0 <=? datagramID then
      let ts := clock_gettime (rx_now_clock e) in
      hs ← (if nz (Udp.have_settings_buf c) then Ok (HsGo c None [])
            else udp_recv_handshake e server c p addr port);
      match hs with
      | HsStop o sp tr => Ok (mk_rx_out (Some o) None sp None None tr)
      | HsGo c sp tr =>
        let c := udp_recv_stats c p datagramID tot_len in
        let c := udp_recv_jitter ts c in
        Ok (mk_rx_out (Some (Kept c)) None sp None None (tr ++ [EvPbufFree]))
      end
    else if reverse_requested (Udp.settings c) then
      Ok (mk_rx_out (Some (Closed c LWIPERF_UDP_DONE_CLIENT_RX)) None None None None [EvPbufFree])
    else if nz (Udp.have_settings_buf c) && negb (nz (Udp.report_count c)) then
      if rx_clone e =? 0 then Ok (mk_rx_out (Some (Kept c)) None None None None [EvPbufFree])
      else
        (* Store report buffer in conn structure, send report to client *)
        let c' := Udp.set_reported (rx_clone e) c in
        r ← lwiperf_udp_send_report true (rx_clone_ref e) (rx_start e) (Some server) c';
        Ok (mk_rx_out (Some (rs_conn r)) None (rs_spawned r)
              (Some (make_udp_report (rx_now_report e) c)) (rs_master r)
              (rs_trace r ++ [EvPbufFree]))
    else Ok (mk_rx_out (Some (Kept c)) None None None None [EvPbufFree])
  | None =>
    if 0 <=? datagramID then
      let ts := clock_gettime (rx_now_clock e) in
      match lwiperf_udp_new_client e srv server with
      | None => Ok (mk_rx_out None None None None None [EvPbufFree])
      | Some c =>
        hs ← udp_recv_handshake e server c p addr port;
        match hs with
        | HsStop o sp tr => Ok (mk_rx_out (Some o) (Some (rx_malloc e)) sp None None tr)
        | HsGo c sp tr =>
          let c := udp_recv_stats c p datagramID tot_len in
          let c := udp_recv_jitter ts c in
          Ok (mk_rx_out (Some (Kept c)) (Some (rx_malloc e)) sp None None
                (tr ++ [EvPbufFree]))
        end
      end
    else Ok (mk_rx_out None None None None None [EvPbufFree])
  end.

(** A receiving session fed a sequence of datagrams, one callback each;
    [clock k] is the tick count at the arrival of datagram [k].  The run
    stops with [None] when a callback closes the session. *)
Fixpoint udp_recv_all (clock : nat -> rx_env) (k : nat) (srv : Z)
    (server conn : Udp.lwiperf_state_udp_t) (ps : list Pbuf.pbuf)
  : res (option Udp.lwiperf_state_udp_t) :=
  match ps with
  | [] => Ok (Some conn)
  | p :: ps' =>
    out ← lwiperf_udp_recv (clock k) srv server (Some conn) p (Udp.remote_addr conn)
            (Udp.remote_port conn);
    match rx_conn out with
    | Some (Kept conn') => udp_recv_all clock (S k) srv server conn' ps'
    | _ => Ok None
    end
  end.


(** ** Reports *)

(** lwip_tcp_conn_report: what the report callback is handed, if there is a
    callback at all.  [conn] is the address of the state, [now] the answer
    of sys_now().  The endpoints passed along are not recorded. *)
Definition lwip_tcp_conn_report (now : Z) (conn : Z) (c : Tcp.lwiperf_state_tcp_t)
    (report_type : lwiperf_report_type) : list event :=
  if nz conn && nz (Tcp.report_fn c) then
    let duration_ms := u32 (now - Tcp.time_started c) in
    let bandwidth_kbitpsec :=
      if duration_ms =? 0 then 0
      else u32 (u64 (Tcp.bytes_transferred c * 8) / duration_ms) in
    if nz (Tcp.conn_pcb c) then
      [EvReport conn report_type (Tcp.bytes_transferred c) duration_ms bandwidth_kbitpsec]
    else if nz (Tcp.server_pcb c) then
      [EvReport conn report_type (Tcp.bytes_transferred c) duration_ms bandwidth_kbitpsec]
    else
      [EvReport conn report_type 0 0 0]
  else [].

(** lwip_udp_conn_report *)
Definition lwip_udp_conn_report (now : Z) (conn : Z) (c : Udp.lwiperf_state_udp_t)
    (report_type : lwiperf_report_type) : list event :=
  if nz conn && nz (Udp.report_fn c) then
    let duration_ms := u32 (now - Udp.time_started c) in
    let bandwidth_kbitpsec :=
      if duration_ms =? 0 then 0
      else u32 (u64 (8 * Udp.bytes_transferred c) / duration_ms) in
    [EvReport conn report_type (Udp.bytes_transferred c) duration_ms bandwidth_kbitpsec]
  else [].

(** ** TCP sessions *)

Definition TCP_WRITE_FLAG_COPY : Z := 0x01.
Definition TCP_WRITE_FLAG_MORE : Z := 0x02.

(** Answers of the clock and the transport stack to one run of
    lwiperf_tcp_client_send_more. *)
Record tcp_tx_env : Type := mk_tcp_tx_env {
  tw_mss : Z;                 (* conn_pcb->mss on entry *)
  tw_now : nat -> Z;          (* sys_now() in round k of the send loop *)
  tw_write : nat -> nat -> Z  (* err_t of tcp_write in round k, attempt j *)
}.

(** How far a loop of the model got: it ended, or the fuel ran out with the
    loop still going in the state given. *)
Inductive run (S : Type) : Type :=
| Finished (o : outcome S)
| Running (s : S).
Arguments Finished {S} o.
Arguments Running {S} s.

(** The session state an outcome or a run carries. *)
Definition outcome_state {S : Type} (o : outcome S) : S :=
  match o with
  | Kept s => s
  | Closed s _ => s
  end.

(** primary_a_client, computed from the server flag of the master session
    ([None] when related_master_state is NULL). *)
Definition primary_a_client (master_server : option Z) : bool :=
  match master_server with
  | None => true
  | Some srv => negb (nz srv)
  end.

(** The termination test at the head of the TCP send loop. *)
Definition tcp_tx_done (now : Z) (conn : Tcp.lwiperf_state_tcp_t) : bool :=
  let amount := St.amount (Ext.base (Tcp.settings conn)) in
  if tst amount (PP_HTONL 0x80000000) then
    let diff_ms := u32 (now - Tcp.time_started conn) in
    let time := u32 (- s32 (lwip_ntohl amount)) in
    let time_ms := u32 (time * 10) in
    time_ms <=? diff_ms
  else
    let amount_bytes := lwip_ntohl amount in
    amount_bytes <=? Tcp.bytes_transferred conn.

(** What the loop decides to write next: length, API flags, and whether the
    loop goes on after a successful write. *)
Definition tcp_tx_chunk (primary : bool) (mss : Z) (conn : Tcp.lwiperf_state_tcp_t)
  : Z * Z * bool :=
  let bytes := Tcp.bytes_transferred conn in
  if primary && (bytes <? sizeof_lwiperf_settings_ext_t) then
    (u16 (sizeof_lwiperf_settings_ext_t - bytes), TCP_WRITE_FLAG_COPY, false)
  else
    let block_pos :=
      if primary then u32 (u64 (bytes - sizeof_lwiperf_settings_ext_t) mod BLOCK_SIZE)
      else u32 (bytes mod BLOCK_SIZE) in
    if primary && (block_pos <? sizeof_lwiperf_settings_ext_t) then
      (u16 (sizeof_lwiperf_settings_ext_t - block_pos),
       Z.lor TCP_WRITE_FLAG_COPY TCP_WRITE_FLAG_MORE, true)
    else
      let txlen_max := u16 mss in
      let txlen_max :=
        if block_pos =? sizeof_lwiperf_settings_ext_t
        then u16 (txlen_max - sizeof_lwiperf_settings_ext_t) else txlen_max in
      let txlen_max :=
        if BLOCK_SIZE <? block_pos + txlen_max then u16 (BLOCK_SIZE - block_pos)
        else txlen_max in
      (txlen_max, 0, true).

(** The inner do-while: tcp_write, halving the length while the send buffer
    is full and the length is at least half a segment. *)
Fixpoint tcp_write_retry (fuel : nat) (write : nat -> Z) (mss txlen apiflags : Z) (j : nat)
    (tr : list event) : res (Z * Z * list event) :=
  match fuel with
  | O => Crash OutOfFuel
  | S fuel' =>
    let err := write j in
    let tr := tr ++ [EvTcpWrite txlen apiflags err] in
    if err =? ERR_MEM then
      let txlen := txlen / 2 in
      if u16 mss / 2 <=? txlen
      then tcp_write_retry fuel' write mss txlen apiflags (S j) tr
      else Ok (err, txlen, tr)
    else Ok (err, txlen, tr)
  end.

(** The outer do-while of lwiperf_tcp_client_send_more, from round [k] on. *)
Fixpoint tcp_send_rounds (fuel : nat) (e : tcp_tx_env) (primary : bool) (mss : Z) (k : nat)
    (conn : Tcp.lwiperf_state_tcp_t) (tr : list event)
  : res (run Tcp.lwiperf_state_tcp_t * list event) :=
  match fuel with
  | O => Ok (Running conn, tr)
  | S fuel' =>
    if tcp_tx_done (tw_now e k) conn then
      Ok (Finished (Closed conn (if nz (Base.reverse (Tcp.base conn))
                                 then LWIPERF_TCP_DONE_SERVER_TX
                                 else LWIPERF_TCP_DONE_CLIENT_TX)), tr)
    else
      let '(txlen_max, apiflags, send_more) := tcp_tx_chunk primary mss conn in
      '(err, txlen, tr) ← tcp_write_retry 17 (tw_write e k) mss txlen_max apiflags O tr;
      if err =? ERR_OK then
        let conn :=
          if nz (Base.server (Tcp.base conn)) || negb (nz (Base.reverse (Tcp.base conn)))
          then Tcp.set_bytes_transferred (u64 (Tcp.bytes_transferred conn + txlen)) conn
          else conn in
        if send_more then tcp_send_rounds fuel' e primary mss (S k) conn tr
        else Ok (Finished (Kept conn), tr ++ [EvTcpOutput])
      else Ok (Finished (Kept conn), tr ++ [EvTcpOutput])
  end.

(** lwiperf_tcp_client_send_more; [master_server] is the server flag of the
    session related_master_state points to. *)
Definition lwiperf_tcp_client_send_more (fuel : nat) (e : tcp_tx_env)
    (master_server : option Z) (conn : Tcp.lwiperf_state_tcp_t)
  : res (run Tcp.lwiperf_state_tcp_t * list event) :=
  _ ← LWIP_ASSERT (nz (Base.tcp (Tcp.base conn))
                   && ((Base.server (Tcp.base conn) =? 0) || nz (Base.reverse (Tcp.base conn))));
  let buffer_len := lwip_ntohl (St.buffer_len (Ext.base (Tcp.settings conn))) in
  let mss := if nz buffer_len && (buffer_len <? tw_mss e) then u16 buffer_len else tw_mss e in
  tcp_send_rounds fuel e (primary_a_client master_server) mss O conn [].


Definition Tcp_zero : Tcp.lwiperf_state_tcp_t :=
  Tcp.mk Base_zero 0 0 0 0 0 0 0 0 Ext_zero 0 0 ip_zero.









(** lwiperf_tcp_poll, the poll callback of a TCP connection: a session that
    was polled LWIPERF_MAX_IDLE_SEC times in a row is closed; a client that
    sends is given a chance to send more.  [tpcb] is the pcb the transport
    polls. *)
Definition lwiperf_tcp_poll (fuel : nat) (e : tcp_tx_env) (master_server : option Z)
    (conn : Tcp.lwiperf_state_tcp_t) (tpcb : Z)
  : res (run Tcp.lwiperf_state_tcp_t * list event) :=
  _ ← LWIP_ASSERT (Tcp.conn_pcb conn =? tpcb);
  let conn := Tcp.set_poll_count (u8 (Tcp.poll_count conn + 1)) conn in
  if LWIPERF_MAX_IDLE_SEC <=? Tcp.poll_count conn then
    Ok (Finished (Closed conn LWIPERF_TCP_ABORTED_LOCAL), [])
  else if negb (nz (Base.server (Tcp.base conn))) && negb (nz (Base.reverse (Tcp.base conn)))
  then lwiperf_tcp_client_send_more fuel e master_server conn
  else Ok (Finished (Kept conn), []).

(** A connection polled [n] times in a row, with no other callback in
    between; the run stops when a poll closes the session. *)
Fixpoint tcp_polls (n fuel : nat) (e : tcp_tx_env) (master_server : option Z)
    (conn : Tcp.lwiperf_state_tcp_t) (tpcb : Z) : res (outcome Tcp.lwiperf_state_tcp_t) :=
  match n with
  | O => Ok (Kept conn)
  | S n' =>
    '(r, _) ← lwiperf_tcp_poll fuel e master_server conn tpcb;
    match r with
    | Finished (Kept c) => tcp_polls n' fuel e master_server c tpcb
    | Finished (Closed c rt) => Ok (Closed c rt)
    | Running _ => Crash OutOfFuel
    end
  end.

(** ** The session registry

    Session states live in a heap of addresses; lwiperf_all_connections is
    the head of the list threaded through their [next] fields. *)

Inductive session : Type :=
| TcpS (t : Tcp.lwiperf_state_tcp_t)
| UdpS (u : Udp.lwiperf_state_udp_t).

Definition base_of (s : session) : Base.lwiperf_state_base_t :=
  match s with
  | TcpS t => Tcp.base t
  | UdpS u => Udp.base u
  end.

Definition with_base (b : Base.lwiperf_state_base_t) (s : session) : session :=
  match s with
  | TcpS t => TcpS (Tcp.set_base b t)
  | UdpS u => UdpS (Udp.set_base b u)
  end.

Record world : Type := mk_world {
  heap : gmap Z session;
  lwiperf_all_connections : Z
}.

Definition set_heap (h : gmap Z session) (w : world) : world :=
  mk_world h (lwiperf_all_connections w).
Definition set_head (p : Z) (w : world) : world := mk_world (heap w) p.

(** Reading and writing the base of the state at an address; an address
    that holds no state is an invalid pointer. *)
Definition read_base (a : Z) (w : world) : res Base.lwiperf_state_base_t :=
  match heap w !! a with
  | Some s => Ok (base_of s)
  | None => Crash InvalidPointer
  end.

Definition write_base (f : Base.lwiperf_state_base_t -> Base.lwiperf_state_base_t)
    (a : Z) (w : world) : res world :=
  match heap w !! a with
  | Some s => Ok (set_heap (<[a := with_base (f (base_of s)) s]> (heap w)) w)
  | None => Crash InvalidPointer
  end.

Definition lwiperf_list_add (item : Z) (w : world) : res world :=
  w ← write_base (Base.set_next (lwiperf_all_connections w)) item w;
  Ok (set_head item w).

(** The assignments of lwiperf_list_remove to a session that names [item]
    as its master. *)
Definition forget_master (item : Z) (b : Base.lwiperf_state_base_t)
  : Base.lwiperf_state_base_t :=
  Base.set_deallocated_master_state_address item (Base.set_related_master_state 0 b).

(** The for loop of lwiperf_list_remove. *)
Fixpoint list_remove_loop (fuel : nat) (item prev iter : Z) (found : bool) (w : world)
  : res world :=
  match fuel with
  | O => Crash OutOfFuel
  | S fuel' =>
    if iter =? 0 then Ok w
    else
      b ← read_base iter w;
      w ← (if Base.related_master_state b =? item
           then write_base (forget_master item) iter w
           else Ok w);
      '(w, found) ←
        (if iter =? item then
           _ ← LWIP_ASSERT (negb found);
           b ← read_base iter w;
           w ← (if prev =? 0 then Ok (set_head (Base.next b) w)
                else write_base (Base.set_next (Base.next b)) prev w);
           Ok (w, true)
         else Ok (w, found));
      b ← read_base iter w;
      list_remove_loop fuel' item iter (Base.next b) found w
  end.

Definition lwiperf_list_remove (fuel : nat) (item : Z) (w : world) : res world :=
  list_remove_loop fuel item 0 (lwiperf_all_connections w) false w.

Fixpoint list_find_loop (fuel : nat) (item iter : Z) (w : world) : res Z :=
  match fuel with
  | O => Crash OutOfFuel
  | S fuel' =>
    if iter =? 0 then Ok 0
    else if iter =? item then Ok item
    else b ← read_base iter w; list_find_loop fuel' item (Base.next b) w
  end.

Definition lwiperf_list_find (fuel : nat) (item : Z) (w : world) : res Z :=
  list_find_loop fuel item (lwiperf_all_connections w) w.

(** Modelled from the spec: ip_addr_eq belongs to lwip/ip_addr.h, which
    this development does not embed; two addresses are equal when their
    family and their value are. *)
Definition ip_addr_eq (a b : ip_addr_t) : bool :=
  Bool.eqb (ip_is_v6 a) (ip_is_v6 b) && (ip_val a =? ip_val b).

(** The loop of lwiperf_udp_search_client: the first listed UDP session
    whose master is [s] and whose peer is [addr]:[port].  The loop reads
    the peer out of every state that passes the two tests on the base; a
    TCP state that passed them would be read as a UDP state. *)
Fixpoint udp_search_loop (fuel : nat) (s : Z) (addr : ip_addr_t) (port : Z) (iter : Z)
    (w : world) : res Z :=
  match fuel with
  | O => Crash OutOfFuel
  | S fuel' =>
    if iter =? 0 then Ok 0
    else
      match heap w !! iter with
      | None => Crash InvalidPointer
      | Some st =>
        let b := base_of st in
        if nz (Base.tcp b) || negb (nz (Base.related_master_state b)) then
          udp_search_loop fuel' s addr port (Base.next b) w
        else if negb (Base.related_master_state b =? s) then
          udp_search_loop fuel' s addr port (Base.next b) w
        else
          match st with
          | UdpS u =>
            if ip_addr_eq addr (Udp.remote_addr u) && (u16 port =? Udp.remote_port u)
            then Ok iter
            else udp_search_loop fuel' s addr port (Base.next b) w
          | TcpS _ => Crash InvalidPointer
          end
      end
  end.

Definition lwiperf_udp_search_client (fuel : nat) (s : Z) (addr : ip_addr_t) (port : Z)
    (w : world) : res Z :=
  udp_search_loop fuel s addr port (lwiperf_all_connections w) w.

(** ** Closing sessions *)

(** Answers of the clock and the transport stack while sessions are
    closed: the tick count when the session at an address is reported, and
    the err_t of tcp_close on a connection and on a listener. *)
Record close_env : Type := mk_close_env {
  cl_now : Z -> Z;
  cl_tcp_close : Z -> Z;
  cl_tcp_close_listen : Z -> Z
}.

Definition lwiperf_tcp_close (fuel : nat) (e : close_env) (conn : Z)
    (report_type : lwiperf_report_type) (w : world) : res (world * list event) :=
  w ← lwiperf_list_remove fuel conn w;
  match heap w !! conn with
  | Some (TcpS c) =>
    let tr := lwip_tcp_conn_report (cl_now e conn) conn c report_type in
    tr' ← (if nz (Tcp.conn_pcb c) then
             let err := cl_tcp_close e (Tcp.conn_pcb c) in
             Ok ([EvTcpClose (Tcp.conn_pcb c) err]
                 ++ (if negb (err =? ERR_OK) then [EvTcpAbort (Tcp.conn_pcb c)] else []))
           else if nz (Tcp.server_pcb c) then
             let err := cl_tcp_close_listen e (Tcp.server_pcb c) in
             _ ← LWIP_ASSERT (err =? ERR_OK);
             Ok [EvTcpClose (Tcp.server_pcb c) err]
           else Ok []);
    Ok (set_heap (delete conn (heap w)) w, tr ++ tr' ++ [EvFree conn])
  | _ => Crash InvalidPointer
  end.

Definition lwiperf_udp_close (fuel : nat) (e : close_env) (conn : Z)
    (report_type : lwiperf_report_type) (w : world) : res (world * list event) :=
  match heap w !! conn with
  | Some (UdpS c) =>
    let tr := lwip_udp_conn_report (cl_now e conn) conn c report_type in
    w ← lwiperf_list_remove fuel conn w;
    let tr1 := if nz (Udp.reported c) then [EvPbufFree] else [] in
    let tr2 := if nz (Udp.pcb c) then [EvUdpRemove (Udp.pcb c)] else [] in
    Ok (set_heap (delete conn (heap w)) w, tr ++ tr1 ++ tr2 ++ [EvFree conn])
  | _ => Crash InvalidPointer
  end.

(** lwiperf_tcp_err, the error callback: the transport has already freed
    the pcb, so both handles are cleared before the session is closed. *)
Definition lwiperf_tcp_err (fuel : nat) (e : close_env) (conn : Z) (w : world)
  : res (world * list event) :=
  match heap w !! conn with
  | Some (TcpS c) =>
    let c := Tcp.set_server_pcb 0 (Tcp.set_conn_pcb 0 c) in
    lwiperf_tcp_close fuel e conn LWIPERF_TCP_ABORTED_REMOTE
      (set_heap (<[conn := TcpS c]> (heap w)) w)
  | _ => Crash InvalidPointer
  end.

(** The loop of lwiperf_abort; [rfuel] bounds the scans of
    lwiperf_list_remove it triggers. *)
Fixpoint abort_loop (fuel rfuel : nat) (e : close_env) (lwiperf_session i last : Z)
    (w : world) (tr : list event) : res (world * list event) :=
  match fuel with
  | O => Crash OutOfFuel
  | S fuel' =>
    if i =? 0 then Ok (w, tr)
    else
      b ← read_base i w;
      if (i =? lwiperf_session)
         || (Base.related_master_state b =? lwiperf_session)
         || (Base.deallocated_master_state_address b =? lwiperf_session)
      then
        let dealloc := i in
        let i := Base.next b in
        w ← (if nz last then write_base (Base.set_next i) last w else Ok w);
        '(w, tr') ←
          (if nz (Base.tcp b)
           then lwiperf_tcp_close rfuel e dealloc LWIPERF_TCP_ABORTED_LOCAL w
           else lwiperf_udp_close rfuel e dealloc LWIPERF_UDP_ABORTED_LOCAL w);
        abort_loop fuel' rfuel e lwiperf_session i last w (tr ++ tr')
      else
        abort_loop fuel' rfuel e lwiperf_session (Base.next b) i w tr
  end.

Definition lwiperf_abort (fuel : nat) (e : close_env) (lwiperf_session : Z) (w : world)
  : res (world * list event) :=
  abort_loop fuel fuel e lwiperf_session (lwiperf_all_connections w) 0 w [].

(** lwiperf_udp_client_send_more run on the session at address [conn] of
    the registry: the new state is stored back, or the session is closed. *)
Definition udp_client_send_more_at (fuel : nat) (ce : close_env) (e : tx_env) (conn : Z)
    (w : world) : res (world * list event) :=
  match heap w !! conn with
  | Some (UdpS c) =>
    '(o, tr) ← lwiperf_udp_client_send_more e c;
    match o with
    | Kept c' => Ok (set_heap (<[conn := UdpS c']> (heap w)) w, tr)
    | Closed c' rt =>
      '(w, tr') ← lwiperf_udp_close fuel ce conn rt (set_heap (<[conn := UdpS c']> (heap w)) w);
      Ok (w, tr ++ tr')
    end
  | _ => Crash InvalidPointer
  end.

(** ** The UDP client entry point *)

Definition client_flags (type : lwiperf_client_type) : Z * Z :=
  match type with
  | LWIPERF_CLIENT => (0, 0)
  | LWIPERF_REVERSE =>
    (lwip_htonl (Z.lor LWIPERF_FLAGS_EXTEND (Z.lor LWIPERF_FLAGS_UDPTESTS LWIPERF_FLAGS_VERSION2)),
     lwip_htonl LWIPERF_EFLAGS_REVERSE)
  | LWIPERF_DUAL =>
    (lwip_htonl (Z.lor LWIPERF_FLAGS_ANSWER_TEST LWIPERF_FLAGS_ANSWER_NOW), 0)
  | LWIPERF_TRADEOFF => (lwip_htonl LWIPERF_FLAGS_ANSWER_TEST, 0)
  end.

(** lwiperf_start_udp_client.  [sport] is the local port of the temporary
    server started for a dual or tradeoff test (0 when there is none); the
    local address is taken not to be a multicast group.  The result is the
    new session with its address, [None] for the NULL handle. *)
Definition lwiperf_start_udp_client (e : start_env) (sport : Z) (remote_addr : ip_addr_t)
    (remote_port : Z) (type : lwiperf_client_type)
    (amount buffer_len rate report_fn report_arg : Z)
  : res (option (Z * outcome Udp.lwiperf_state_udp_t) * list event) :=
  let '(flags, eflags) := client_flags type in
  match lwiperf_udp_tx_new e None with
  | (None, tr) => Ok (None, tr)
  | (Some c, tr) =>
    let c := Udp.set_report_fn report_fn c in
    let c := Udp.set_report_arg report_arg c in
    let c := Udp.set_remote_addr remote_addr c in
    let c := Udp.set_remote_port (u16 remote_port) c in
    let c := Udp.set_have_settings_buf 1 c in
    let c := Udp.set_settings
               (Ext.set_base (St.set_amount (lwip_htonl (u32 amount))
                                (Ext.base (Udp.settings c))) (Udp.settings c)) c in
    let buf_len :=
      if nz (u32 buffer_len)
      then Z.min (default_buf_len remote_addr) (u32 buffer_len)
      else default_buf_len remote_addr in
    let c := Udp.set_settings (set_buffer_len (lwip_htonl buf_len) (Udp.settings c)) c in
    let c :=
      if negb (s32 rate =? 1024 * 1024) then
        let s := Ext.set_rate (lwip_htonl (u32 rate)) (Udp.settings c) in
        let s := set_flags (Z.lor (St.flags (Ext.base s)) (PP_HTONL LWIPERF_FLAGS_EXTEND)) s in
        let s := Ext.set_base (St.set_win_band (lwip_htonl (u32 rate)) (Ext.base s)) s in
        Udp.set_settings s c
      else c in
    let c := Udp.set_settings
               (set_flags (Z.lor (St.flags (Ext.base (Udp.settings c))) flags) (Udp.settings c)) c in
    let c := Udp.set_settings
               (Ext.set_eflags (Z.lor (Ext.eflags (Udp.settings c)) eflags) (Udp.settings c)) c in
    let c :=
      if nz sport
      then Udp.set_settings
             (Ext.set_base (St.set_remote_port (lwip_htonl sport) (Ext.base (Udp.settings c)))
                (Udp.settings c)) c
      else c in
    c ← (match type with
         | LWIPERF_REVERSE => Ok (Udp.set_frames_per_delay 1 c)
         | _ => lwiperf_udp_set_client_rate c (s32 rate) buf_len
         end);
    if negb (st_connect e =? ERR_OK)
    then Ok (None, tr ++ [EvUdpRemove (Udp.pcb c); EvFree (st_malloc e)])
    else
      let c :=
        match type with
        | LWIPERF_REVERSE => Udp.set_base (Base.set_reverse 1 (Base.set_server 1 (Udp.base c))) c
        | _ => c
        end in
      '(o, tr') ← lwiperf_udp_client_send_more (st_tx e) c;
      Ok (Some (st_malloc e, o), tr ++ tr')
  end.

(** ** Sequence tracking, read off the receiver state *)






(** ** The jitter update of the specification *)

(** The jitter update as the specification words it: the first transit
    sample only seeds the baseline; every later one moves the estimate by a
    sixteenth of the distance between |transit - previous transit| and the
    estimate, and becomes the previous sample. *)
Definition spec_jitter_step (st : option Z * Z) (transit : Z) : option Z * Z :=
  match st with
  | (None, jitter) => (Some transit, jitter)
  | (Some prev, jitter) => (Some transit, jitter + (Z.abs (transit - prev) - jitter) / 16)
  end.

(** ** What a trace shows *)

(** Trace entries of a datagram that went out: the successful udp_send and
    the release of its buffer. *)
Definition sent_ok (ev : event) : Prop :=
  ev = EvPbufFree \/ exists id len, ev = EvUdpSend id len ERR_OK.

(** The addresses handed to LWIPERF_FREE, in order. *)
Definition freed (tr : list event) : list Z :=
  flat_map (fun ev => match ev with EvFree a => [a] | _ => [] end) tr.

(** tcp_close on a listening pcb succeeds, as the assertion in
    lwiperf_tcp_close expects. *)
Definition listeners_close (e : close_env) : Prop :=
  forall pcb, cl_tcp_close_listen e pcb = ERR_OK.

(** ** The registry as a list of addresses *)

(** [lseg hp p l q]: following the [next] fields in heap [hp] from [p]
    visits exactly the addresses [l], none of them NULL, and arrives at
    [q]. *)
Fixpoint lseg (hp : gmap Z session) (p : Z) (l : list Z) (q : Z) : Prop :=
  match l with
  | [] => p = q
  | a :: l' =>
    p = a /\ a <> 0
    /\ exists s, hp !! a = Some s /\ lseg hp (Base.next (base_of s)) l' q
  end.

(** The registry holds the sessions at the addresses [l], in list order. *)
Definition registry (w : world) (l : list Z) : Prop :=
  lseg (heap w) (lwiperf_all_connections w) l 0.

(** A state with its list link blanked: what is left are the fields that
    do not depend on where the session sits in the list. *)
Definition unlinked (s : session) : session :=
  with_base (Base.set_next 0 (base_of s)) s.

(** What lwiperf_list_remove(item) does to the fields of a listed state. *)
Definition fix_master (item : Z) (s : session) : session :=
  if Base.related_master_state (base_of s) =? item
  then with_base (forget_master item (base_of s)) s
  else s.

(** [touched item F hp hp']: heap [hp'] is [hp] with the states at the
    addresses [F] fixed up for the removal of [item] and possibly relinked;
    every other state is the same. *)
Definition touched (item : Z) (F : list Z) (hp hp' : gmap Z session) : Prop :=
  forall a,
    match hp !! a with
    | None => hp' !! a = None
    | Some s =>
      exists s', hp' !! a = Some s'
                 /\ unlinked s' = unlinked (if bool_decide (a ∈ F) then fix_master item s else s)
                 /\ (a ∉ F -> s' = s)
    end.

(** The test of lwiperf_abort on one list entry. *)
Definition abort_target (h a : Z) (b : Base.lwiperf_state_base_t) : bool :=
  (a =? h) || (Base.related_master_state b =? h)
  || (Base.deallocated_master_state_address b =? h).

(** Whether the session at address [a] of world [w] is one that
    lwiperf_abort(h) is to close. *)
Definition targets (w : world) (h a : Z) : bool :=
  match heap w !! a with
  | Some s => abort_target h a (base_of s)
  | None => false
  end.

(** The tcp flag of a state tells which kind of state it is. *)
Definition kind_ok (s : session) : Prop :=
  match s with
  | TcpS _ => Base.tcp (base_of s) <> 0
  | UdpS _ => Base.tcp (base_of s) = 0
  end.

(** A session has a live master or remembers a deallocated one, not both:
    states are created with the remembered address cleared, and
    lwiperf_list_remove sets it only while clearing the live reference. *)
Definition master_ok (s : session) : Prop :=
  Base.related_master_state (base_of s) <> 0 ->
  Base.deallocated_master_state_address (base_of s) = 0.

Definition registry_ok (w : world) (l : list Z) : Prop :=
  registry w l
  /\ forall a, a ∈ l -> exists s, heap w !! a = Some s /\ kind_ok s /\ master_ok s.

(** The last address of a list of addresses, NULL for the empty list: the
    value of [prev] in lwiperf_list_remove and of [last] in lwiperf_abort. *)
Definition last_or_null (l : list Z) : Z := default 0 (last l).

(** The list without [item]. *)
Definition keep (item : Z) (l : list Z) : list Z := filter (λ a : Z, a ≠ item) l.

(** The entries of [l] on which the test [m0] answers [b]. *)
Definition pick (m0 : Z -> bool) (b : bool) (l : list Z) : list Z :=
  filter (λ a : Z, m0 a = b) l.

(** The state at [a] is well-formed and the test of lwiperf_abort(h) on it
    answers [m0 a]. *)
Definition node_ok (m0 : Z -> bool) (h : Z) (hp : gmap Z session) (a : Z) : Prop :=
  exists s, hp !! a = Some s /\ kind_ok s /\ master_ok s
            /\ abort_target h a (base_of s) = m0 a.

(** Whether the state at [a] is a UDP session of master [s] with peer
    [addr]:[port]. *)
Definition udp_client_of (w : world) (s : Z) (addr : ip_addr_t) (port : Z) (a : Z) : bool :=
  match heap w !! a with
  | Some (UdpS u) =>
    nz (Base.related_master_state (Udp.base u))
    && (Base.related_master_state (Udp.base u) =? s)
    && ip_addr_eq addr (Udp.remote_addr u) && (u16 port =? Udp.remote_port u)
  | _ => false
  end.

(** ** Sample data *)

(** A data datagram with the given id, send timestamp and length. *)
Definition datagram (id sec usec len : Z) : Pbuf.pbuf :=
  Pbuf.mk len [lwip_htonl (u32 id); lwip_htonl sec; lwip_htonl usec; 0] 1.

Definition sample_server : Udp.lwiperf_state_udp_t :=
  Udp.set_pcb 0x2000 (Udp.set_base (Base.set_server 1 Base_zero) Udp_zero).

(** The state of a client of [sample_server] (at address 0x1000) right after
    its settings were captured: all counters zero. *)
Definition sample_receiver : Udp.lwiperf_state_udp_t :=
  Udp.set_have_settings_buf 1
    (Udp.set_base (Base.set_related_master_state 0x1000 (Base.set_server 1 Base_zero)) Udp_zero).

Definition quiet_tx_env : tx_env := mk_tx_env 0 0 (fun _ => false) (fun _ => ERR_OK).
Definition quiet_start_env : start_env := mk_start_env 0 0 0 0 0 quiet_tx_env.
(** Arrival at tick [now]; no allocation succeeds. *)
Definition rx_env_at (now : Z) : rx_env := mk_rx_env now 0 0 0 0 0 0 quiet_start_env.

(** A session of [sample_server] that has counted one datagram of 1470
    bytes. *)
Definition sample_counting_receiver : Udp.lwiperf_state_udp_t :=
  Udp.set_bytes_transferred 1470
    (Udp.set_udp_rx_total_pkt 1 (Udp.set_udp_seq 1 sample_receiver)).

(** Three datagrams sent at 0, 1 and 2 ms that arrive at 1, 3 and 4 ms:
    transit times of 1000, 2000 and 2000 microseconds. *)
Definition jitter_sample_datagrams : list Pbuf.pbuf :=
  [datagram 0 0 0 1470; datagram 1 0 1000 1470; datagram 2 0 2000 1470].
Definition jitter_sample_clock (k : nat) : rx_env := rx_env_at (nth k [1; 3; 4] 0).

(** A connected TCP session at address 0x3000 that started at tick 0 and
    has moved 125000 bytes, alone in the registry. *)
Definition sample_tcp_conn : Tcp.lwiperf_state_tcp_t :=
  Tcp.set_bytes_transferred 125000
    (Tcp.set_report_fn 0x8000
       (Tcp.set_conn_pcb 0x5000
          (Tcp.set_base (Base.set_tcp 1 Base_zero) Tcp_zero))).
Definition sample_tcp_world : world := mk_world {[ 0x3000 := TcpS sample_tcp_conn ]} 0x3000.
(** Every session is reported at tick 1000; tcp_close succeeds. *)
Definition sample_close_env : close_env :=
  mk_close_env (fun _ => 1000) (fun _ => ERR_OK) (fun _ => ERR_OK).

(** Every allocation and every transport call succeeds. *)
Definition busy_tx_env : tx_env := mk_tx_env 0 0 (fun _ => true) (fun _ => ERR_OK).
Definition sample_start_env : start_env :=
  mk_start_env 0x4000 0x6000 0 ERR_OK ERR_OK busy_tx_env.
Definition sample_rx_env : rx_env := mk_rx_env 0 0x7000 0 0 0 0 0 sample_start_env.
Definition sample_remote : ip_addr_t := mk_ip false 0xC0A80102.

(** The first datagram of a peer that asks for a simultaneous return
    transfer (dual test) with extended settings whose rate field is 0. *)
Definition dual_rate0_datagram : Pbuf.pbuf :=
  Pbuf.mk 1470
    [lwip_htonl 0; lwip_htonl 0; lwip_htonl 0; 0;
     lwip_htonl (Z.lor LWIPERF_FLAGS_ANSWER_TEST
                   (Z.lor LWIPERF_FLAGS_EXTEND LWIPERF_FLAGS_ANSWER_NOW));
     lwip_htonl 1; lwip_htonl 5001; lwip_htonl 1470; 0; lwip_htonl (u32 (-1000));
     0; 0; 0; 0; 0; 0; (* rate *) 0; 0; 0] 1.

(** A TCP client that is to send 1048576 bytes, with [bytes] sent so far. *)
Definition sample_tcp_sender (bytes : Z) : Tcp.lwiperf_state_tcp_t :=
  Tcp.set_bytes_transferred bytes
    (Tcp.set_settings
       (Ext.set_base (St.set_amount (lwip_htonl 1048576) St_zero) Ext_zero)
       (Tcp.set_have_settings_buf 1 sample_tcp_conn)).
(** tcp_write always succeeds; the segment size is 1460. *)
Definition sample_tcp_tx_env : tcp_tx_env :=
  mk_tcp_tx_env 1460 (fun _ => 0) (fun _ _ => ERR_OK).

(** A UDP client that is to send 1048576 bytes, with [bytes] sent so far
    and [reports] server reports seen. *)
Definition sample_udp_sender (bytes reports : Z) : Udp.lwiperf_state_udp_t :=
  Udp.set_report_count reports
    (Udp.set_bytes_transferred bytes
       (Udp.set_frames_per_delay 1
          (Udp.set_settings
             (Ext.set_base (St.set_buffer_len (lwip_htonl 1470)
                              (St.set_amount (lwip_htonl 1048576) St_zero)) Ext_zero)
             (Udp.set_have_settings_buf 1 (Udp.set_pcb 0x6000 Udp_zero))))).

(** udp_send fails in round 2 of a run, after two datagrams went out. *)
Definition failing_tx_env : tx_env :=
  mk_tx_env 0 5 (fun _ => true) (fun i => if i =? 2 then ERR_MEM else ERR_OK).
(** A UDP client in mid-transfer, sending four datagrams per tick, alone in
    the registry at address 0x4000. *)
Definition sample_udp_world : world :=
  mk_world {[ 0x4000 := UdpS (Udp.set_frames_per_delay 4 (sample_udp_sender 2940 0)) ]} 0x4000.


(** A registry of four sessions, in list order: two UDP clients at 0x300
    and 0x200 whose master is the UDP server at 0x100, an unrelated TCP
    listener at 0x400 in between, and the server itself, which was
    registered first. *)
Definition sample_child (next : Z) : session :=
  UdpS (Udp.set_report_fn 0x8000
          (Udp.set_base (Base.mk next 0 1 0 0x100 0) Udp_zero)).
Definition sample_listener (next : Z) : session :=
  TcpS (Tcp.set_server_pcb 0x5000
          (Tcp.set_base (Base.mk next 1 1 0 0 0) Tcp_zero)).
Definition sample_master (next : Z) : session :=
  UdpS (Udp.set_pcb 0x2000 (Udp.set_base (Base.mk next 0 1 0 0 0) Udp_zero)).
Definition sample_registry : world :=
  mk_world (<[0x300 := sample_child 0x200]>
              (<[0x200 := sample_child 0x400]>
                 (<[0x400 := sample_listener 0x100]>
                    {[ 0x100 := sample_master 0 ]}))) 0x300.

(** The registry lwiperf_start_udp_client leaves behind for a dual test:
    the client at 0x700, registered last, is the master of the temporary
    server at 0x600 that follows it in the list. *)
Definition sample_dual_registry : world :=
  mk_world (<[0x700 := UdpS (Udp.set_pcb 0x2100 (Udp.set_base (Base.mk 0x600 0 0 0 0 0) Udp_zero))]>
              {[ 0x600 := UdpS (Udp.set_pcb 0x2200
                                  (Udp.set_base (Base.mk 0 0 0x81 0 0x700 0) Udp_zero)) ]})
           0x700.

(** The sample registry with one more state, at 0x500, allocated but not
    registered yet. *)
Definition sample_pending_world : world :=
  mk_world (<[0x500 := sample_listener 0]> (heap sample_registry)) 0x300.

(** A session that has been handed the copy (at 0x9000) of the datagram
    that ended the stream, with no report sent yet. *)
Definition sample_reporting_receiver : Udp.lwiperf_state_udp_t :=
  Udp.set_reported 0x9000 sample_counting_receiver.

(** A TCP client and a UDP client that are to run for 1000 hundredths of a
    second, the amount of the default clients. *)
Definition sample_timed_tcp_sender : Tcp.lwiperf_state_tcp_t :=
  Tcp.set_settings (Ext.set_base (St.set_amount (lwip_htonl (u32 (-1000))) St_zero) Ext_zero)
    sample_tcp_conn.
Definition sample_timed_udp_sender : Udp.lwiperf_state_udp_t :=
  Udp.set_settings (Ext.set_base (St.set_amount (lwip_htonl (u32 (-1000))) St_zero) Ext_zero)
    (sample_udp_sender 0 0).

(** A UDP client paced at one datagram per 11 ms that sent its last
    datagram at tick 100, polled at tick 105. *)
Definition sample_paced_sender : Udp.lwiperf_state_udp_t :=
  Udp.set_delay_target 11000
    (Udp.set_udp_lastpkt (clock_gettime 100) (sample_udp_sender 2940 0)).
Definition sample_pacing_env : tx_env := mk_tx_env 105 105 (fun _ => true) (fun _ => ERR_OK).

(** The server side of a TCP connection, idle so far. *)
Definition sample_tcp_server_conn : Tcp.lwiperf_state_tcp_t :=
  Tcp.set_base (Base.set_server 1 (Tcp.base sample_tcp_conn)) sample_tcp_conn.


(** * Properties *)

(** Case analysis on every conditional of the goal. *)
Ltac split_ifs :=
  repeat match goal with |- context [if ?b then _ else _] => destruct b end.

(** ** Machine integers *)

Lemma u32_small (x : Z) : 0 <= x < 2^32 -> u32 x = x.
Proof. intros H. unfold u32. apply Z.mod_small. exact H. Qed.

Lemma u32_range (x : Z) : 0 <= u32 x < 2^32.
Proof. unfold u32. apply Z.mod_pos_bound. lia. Qed.




(** ** The error monad *)

Lemma bind_Ok {A B : Type} (m : res A) (k : A -> res B) (b : B) :
  m ≫= k = Ok b -> exists a, m = Ok a /\ k a = Ok b.
Proof.
  destruct m as [a | f]; cbn; intros H; [eauto | discriminate].
Qed.

(** ** UDP receive: sequence tracking *)
















(** ** UDP receive: jitter *)

(** The first transit sample seeds the baseline and leaves the jitter
    estimate alone. *)
Lemma udp_recv_jitter_first ts c :
  Udp.udp_last_transit c = 0 ->
  Udp.jitter (udp_recv_jitter ts c) = Udp.jitter c
  /\ Udp.udp_last_transit (udp_recv_jitter ts c) = udp_transit ts c.
Proof.
  intros H. unfold udp_recv_jitter. rewrite H. cbn. auto.
Qed.

(** Once seeded, the baseline is never written again: every later update
    measures the distance to the first sample, not to the previous one. *)
Lemma udp_recv_jitter_baseline_fixed ts c :
  Udp.udp_last_transit c <> 0 ->
  Udp.udp_last_transit (udp_recv_jitter ts c) = Udp.udp_last_transit c.
Proof.
  intros H. unfold udp_recv_jitter, nz.
  destruct (Udp.udp_last_transit c =? 0) eqn:E; [apply Z.eqb_eq in E; contradiction |].
  reflexivity.
Qed.

(** C5, the code at the failing input: with transit times 1000, 2000 and
    2000 microseconds the third datagram is compared with the first one
    (distance 1000) instead of the second one (distance 0), and the
    estimate ends at 120 where the update against the previous sample
    gives 58. *)
Theorem udp_recv_jitter_uses_first_transit :
  exists c, udp_recv_all jitter_sample_clock 0 0x1000 sample_server sample_receiver
              jitter_sample_datagrams = Ok (Some c)
            /\ Udp.udp_last_transit c = 1000
            /\ Udp.jitter c = 120
            /\ fold_left spec_jitter_step [1000; 2000; 2000] (None, 0) = (Some 2000, 58).
Proof.
  eexists. split; [vm_compute; reflexivity |]. cbn. auto.
Qed.

(** ** Reports *)

(** C9 (amended): the report of a UDP session, and of a TCP session that
    still holds its connection or its listener pcb, carries the byte count,
    duration = now - time_started in 32-bit arithmetic, and bandwidth = 0
    when the duration is 0 and otherwise 8 * bytes / duration (64-bit
    product, quotient cut to 32 bits).  A TCP session whose two pcbs are
    NULL, which is how the error callback hands it to close, is reported
    with byte count, duration and bandwidth all 0.  Without a report
    callback nothing is emitted; the functions are total. *)
Theorem conn_report_values now conn rt :
  conn <> 0 ->
  (forall c : Tcp.lwiperf_state_tcp_t,
      (Tcp.report_fn c = 0 -> lwip_tcp_conn_report now conn c rt = [])
      /\ (Tcp.report_fn c <> 0 -> Tcp.conn_pcb c <> 0 \/ Tcp.server_pcb c <> 0 ->
          lwip_tcp_conn_report now conn c rt =
          [EvReport conn rt (Tcp.bytes_transferred c) (u32 (now - Tcp.time_started c))
             (if u32 (now - Tcp.time_started c) =? 0 then 0
              else u32 (u64 (Tcp.bytes_transferred c * 8) / u32 (now - Tcp.time_started c)))])
      /\ (Tcp.report_fn c <> 0 -> Tcp.conn_pcb c = 0 -> Tcp.server_pcb c = 0 ->
          lwip_tcp_conn_report now conn c rt = [EvReport conn rt 0 0 0]))
  /\ (forall c : Udp.lwiperf_state_udp_t,
         (Udp.report_fn c = 0 -> lwip_udp_conn_report now conn c rt = [])
         /\ (Udp.report_fn c <> 0 ->
             lwip_udp_conn_report now conn c rt =
             [EvReport conn rt (Udp.bytes_transferred c) (u32 (now - Udp.time_started c))
                (if u32 (now - Udp.time_started c) =? 0 then 0
                 else u32 (u64 (8 * Udp.bytes_transferred c) / u32 (now - Udp.time_started c)))])).
Proof.
  intros Hconn.
  assert (nz conn = true) as Hc by (unfold nz; apply negb_true_iff, Z.eqb_neq; exact Hconn).
  split; intros c.
  - unfold lwip_tcp_conn_report. rewrite Hc. cbn [andb]. unfold nz. repeat split.
    + intros ->. reflexivity.
    + intros Hfn Hpcb. apply Z.eqb_neq in Hfn. rewrite Hfn. cbn [negb].
      destruct (Tcp.conn_pcb c =? 0) eqn:E1; cbn [negb]; [| reflexivity].
      destruct (Tcp.server_pcb c =? 0) eqn:E2; cbn [negb]; [| reflexivity].
      apply Z.eqb_eq in E1, E2. tauto.
    + intros Hfn -> ->. apply Z.eqb_neq in Hfn. rewrite Hfn. reflexivity.
  - unfold lwip_udp_conn_report. rewrite Hc. cbn [andb]. unfold nz. split.
    + intros ->. reflexivity.
    + intros Hfn. apply Z.eqb_neq in Hfn. rewrite Hfn. reflexivity.
Qed.

Lemma conn_report_values_witness :
  lwip_tcp_conn_report 1000 0x3000 sample_tcp_conn LWIPERF_TCP_DONE_CLIENT_TX
  = [EvReport 0x3000 LWIPERF_TCP_DONE_CLIENT_TX 125000 1000 1000].
Proof.
  destruct (conn_report_values 1000 0x3000 LWIPERF_TCP_DONE_CLIENT_TX ltac:(lia)) as [Ht _].
  destruct (Ht sample_tcp_conn) as (_ & H & _).
  apply H.
  - vm_compute. discriminate.
  - left. vm_compute. discriminate.
Defined.

(** C9 as the specification states it fails: when the transport reports an
    error on a connection that started at tick 0 and moved 125000 bytes,
    the report emitted at tick 1000 does not carry duration 1000 and
    bandwidth 1000 kbit/s; it carries zeros. *)
Lemma tcp_err_report_is_zero :
  exists w, lwiperf_tcp_err 2 sample_close_env 0x3000 sample_tcp_world
            = Ok (w, [EvReport 0x3000 LWIPERF_TCP_ABORTED_REMOTE 0 0 0; EvFree 0x3000])
  /\ [EvReport 0x3000 LWIPERF_TCP_ABORTED_REMOTE 0 0 0; EvFree 0x3000]
     <> [EvReport 0x3000 LWIPERF_TCP_ABORTED_REMOTE 125000
           (u32 (1000 - Tcp.time_started sample_tcp_conn))
           (u32 (u64 (Tcp.bytes_transferred sample_tcp_conn * 8)
                 / u32 (1000 - Tcp.time_started sample_tcp_conn)));
         EvFree 0x3000].
Proof.
  eexists. split; [vm_compute; reflexivity |]. vm_compute. discriminate.
Qed.

(** ** UDP pacing: the divisions of lwiperf_udp_set_client_rate *)

(** The first division is by the rate itself: a rate of 0 traps. *)
Lemma udp_set_client_rate_zero c buf_len :
  lwiperf_udp_set_client_rate c 0 buf_len = Crash DivisionByZero.
Proof. reflexivity. Qed.

(** The pacing computation returns exactly when neither divisor is zero:
    the rate, read as a 64-bit unsigned value, and the ideal frame delay it
    yields. *)
Lemma lwiperf_udp_set_client_rate_returns c rate buf_len :
  (exists c', lwiperf_udp_set_client_rate c rate buf_len = Ok c')
  <-> u64 rate <> 0 /\ u32 (u32 (buf_len * 8) * 1000000 / u64 rate) <> 0.
Proof.
  unfold lwiperf_udp_set_client_rate, ideal_frame_delay.
  destruct (u64 rate =? 0) eqn:Er.
  - apply Z.eqb_eq in Er. cbn. split; [intros (c' & H); discriminate | tauto].
  - apply Z.eqb_neq in Er. cbn [mbind res_bind].
    set (d := u32 (u32 (buf_len * 8) * 1000000 / u64 rate)).
    cbn [Udp.delay_target Udp.set_delay_target].
    pose proof (u32_range (u32 (buf_len * 8) * 1000000 / u64 rate)) as Hd. fold d in Hd.
    destruct (d =? 0) eqn:Ed.
    + apply Z.eqb_eq in Ed. rewrite Ed. cbn. split; [intros (c' & H); discriminate | tauto].
    + apply Z.eqb_neq in Ed.
      split; [auto |]. intros _.
      destruct (u32 (d / CLOCK_RESOLUTION_US * CLOCK_RESOLUTION_US) =? 0); eauto.
Qed.

(** C10, the code at the failing inputs.  Nothing guards the rate on its
    way to lwiperf_udp_set_client_rate: lwiperf_start_udp_client called
    with rate 0 divides by zero, and so does the server when a peer opens a
    dual test whose extended settings carry rate 0 (through
    lwiperf_udp_tx_start).  The second division, by the ideal frame delay,
    traps as well once the rate exceeds 8 * buf_len * 10^6, here 10^7 bit/s
    with one-byte buffers. *)
Theorem udp_client_rate_division_by_zero :
  lwiperf_start_udp_client sample_start_env 0 sample_remote 5001 LWIPERF_CLIENT
    (-1000) 0 0 0x8000 0 = Crash DivisionByZero
  /\ lwiperf_udp_recv sample_rx_env 0x1000 sample_server None dual_rate0_datagram
       sample_remote 5001 = Crash DivisionByZero
  /\ lwiperf_start_udp_client sample_start_env 0 sample_remote 5001 LWIPERF_CLIENT
       (-1000) 1 10000000 0x8000 0 = Crash DivisionByZero.
Proof.
  repeat split; vm_compute; reflexivity.
Qed.

(** ** Byte-limited senders *)

Lemma tcp_send_rounds_closed fuel e primary mss :
  forall k conn tr c rt tr',
    tcp_send_rounds fuel e primary mss k conn tr = Ok (Finished (Closed c rt), tr') ->
    Tcp.settings c = Tcp.settings conn
    /\ (exists now, tcp_tx_done now c = true)
    /\ (rt = LWIPERF_TCP_DONE_SERVER_TX \/ rt = LWIPERF_TCP_DONE_CLIENT_TX).
Proof.
  induction fuel as [| fuel IH]; intros k conn tr c rt tr' H; cbn [tcp_send_rounds] in H.
  - discriminate.
  - destruct (tcp_tx_done (tw_now e k) conn) eqn:Hdone.
    + inversion H; subst. split; [reflexivity |]. split; [eauto |].
      destruct (nz _); auto.
    + destruct (tcp_tx_chunk primary mss conn) as [[txlen_max apiflags] send_more].
      destruct (tcp_write_retry 17 (tw_write e k) mss txlen_max apiflags 0 tr)
        as [[[err txlen] tr1] | f]; cbn in H; [| discriminate].
      destruct (err =? ERR_OK); [| discriminate].
      destruct send_more; [| discriminate].
      apply IH in H. destruct H as (Hs & Hd & Hrt).
      split; [| auto]. rewrite Hs. destruct (_ || _); reflexivity.
Qed.

Lemma tcp_tx_done_1048576 now c :
  St.amount (Ext.base (Tcp.settings c)) = lwip_htonl 1048576 ->
  tcp_tx_done now c = (1048576 <=? Tcp.bytes_transferred c).
Proof.
  intros H. unfold tcp_tx_done. rewrite H.
  change (tst (lwip_htonl 1048576) (PP_HTONL 0x80000000)) with false.
  change (lwip_ntohl (lwip_htonl 1048576)) with 1048576. reflexivity.
Qed.

Lemma udp_tx_ending_1048576 now c :
  St.amount (Ext.base (Udp.settings c)) = lwip_htonl 1048576 ->
  udp_tx_ending now c =
  if 1048576 <=? Udp.bytes_transferred c
  then (if 1052672 <=? Udp.bytes_transferred c then 2 else 1)
  else 0.
Proof.
  intros H. unfold udp_tx_ending. rewrite H.
  change (tst (lwip_htonl 1048576) (PP_HTONL 0x80000000)) with false.
  change (lwip_ntohl (lwip_htonl 1048576)) with 1048576. reflexivity.
Qed.

Lemma udp_send_more_closed e conn c rt tr :
  lwiperf_udp_client_send_more e conn = Ok (Closed c rt, tr) ->
  c = conn /\ udp_tx_ending (tx_now_limit e) conn <> 0
  /\ (rt = LWIPERF_UDP_DONE_SERVER_TX \/ rt = LWIPERF_UDP_DONE_CLIENT_TX).
Proof.
  unfold lwiperf_udp_client_send_more. intros H.
  apply bind_Ok in H. destruct H as (_ & _ & H).
  destruct (nz (udp_tx_ending (tx_now_limit e) conn)) eqn:Hend; cbn [andb] in H.
  - destruct (_ || _).
    + destruct (nz (Base.reverse (Udp.base conn))); inversion H; subst;
        (split; [reflexivity |]; split; [| auto]);
        unfold nz in Hend; apply negb_true_iff, Z.eqb_neq in Hend; exact Hend.
    + destruct (ts_to_us _ <? _); [discriminate |].
      apply bind_Ok in H. destruct H as ([c' tr'] & _ & H). discriminate.
  - destruct (ts_to_us _ <? _); [discriminate |].
    apply bind_Ok in H. destruct H as ([c' tr'] & _ & H). discriminate.
Qed.

(** C6: a sender whose amount field encodes 1048576 bytes is closed by the
    send routine only in a state with at least 1048576 bytes transferred,
    and then with a "done" reason; with 1048575 bytes or fewer the
    termination test does not fire.  This holds for the TCP send scheduler
    and for the UDP pacing routine alike. *)
Theorem byte_limited_close_at_target :
  (forall fuel e master_server conn c rt tr,
      St.amount (Ext.base (Tcp.settings conn)) = lwip_htonl 1048576 ->
      lwiperf_tcp_client_send_more fuel e master_server conn = Ok (Finished (Closed c rt), tr) ->
      1048576 <= Tcp.bytes_transferred c
      /\ (rt = LWIPERF_TCP_DONE_SERVER_TX \/ rt = LWIPERF_TCP_DONE_CLIENT_TX))
  /\ (forall now conn,
         St.amount (Ext.base (Tcp.settings conn)) = lwip_htonl 1048576 ->
         Tcp.bytes_transferred conn <= 1048575 ->
         tcp_tx_done now conn = false)
  /\ (forall e conn c rt tr,
         St.amount (Ext.base (Udp.settings conn)) = lwip_htonl 1048576 ->
         lwiperf_udp_client_send_more e conn = Ok (Closed c rt, tr) ->
         1048576 <= Udp.bytes_transferred c
         /\ (rt = LWIPERF_UDP_DONE_SERVER_TX \/ rt = LWIPERF_UDP_DONE_CLIENT_TX))
  /\ (forall e conn o tr,
         St.amount (Ext.base (Udp.settings conn)) = lwip_htonl 1048576 ->
         Udp.bytes_transferred conn <= 1048575 ->
         lwiperf_udp_client_send_more e conn = Ok (o, tr) ->
         exists c, o = Kept c).
Proof.
  split; [| split; [| split]].
  - intros fuel e ms conn c rt tr Hamount H.
    unfold lwiperf_tcp_client_send_more in H.
    destruct (LWIP_ASSERT _); cbn in H; [| discriminate].
    apply tcp_send_rounds_closed in H. destruct H as (Hs & (now & Hd) & Hrt).
    split; [| exact Hrt].
    rewrite (tcp_tx_done_1048576 now c) in Hd by (rewrite Hs; exact Hamount).
    apply Z.leb_le in Hd. exact Hd.
  - intros now conn Hamount Hb. rewrite tcp_tx_done_1048576 by exact Hamount.
    apply Z.leb_gt. lia.
  - intros e conn c rt tr Hamount H.
    apply udp_send_more_closed in H. destruct H as (-> & Hend & Hrt).
    split; [| exact Hrt].
    rewrite udp_tx_ending_1048576 in Hend by exact Hamount.
    destruct (1048576 <=? Udp.bytes_transferred conn) eqn:E; [| contradiction].
    apply Z.leb_le in E. exact E.
  - intros e conn o tr Hamount Hb H.
    destruct o as [c | c rt]; [eauto |].
    apply udp_send_more_closed in H. destruct H as (-> & Hend & _).
    rewrite udp_tx_ending_1048576 in Hend by exact Hamount.
    destruct (1048576 <=? Udp.bytes_transferred conn) eqn:E; [| contradiction].
    apply Z.leb_le in E. lia.
Qed.

Lemma byte_limited_close_at_target_witness :
  (1048576 <= Tcp.bytes_transferred (sample_tcp_sender 1048576)
   /\ (LWIPERF_TCP_DONE_CLIENT_TX = LWIPERF_TCP_DONE_SERVER_TX
       \/ LWIPERF_TCP_DONE_CLIENT_TX = LWIPERF_TCP_DONE_CLIENT_TX))
  /\ tcp_tx_done 0 (sample_tcp_sender 1048575) = false
  /\ (1048576 <= Udp.bytes_transferred (sample_udp_sender 1048576 1)
      /\ (LWIPERF_UDP_DONE_CLIENT_TX = LWIPERF_UDP_DONE_SERVER_TX
          \/ LWIPERF_UDP_DONE_CLIENT_TX = LWIPERF_UDP_DONE_CLIENT_TX))
  /\ (exists c, Kept (sample_udp_sender 1048575 1) = Kept c).
Proof.
  destruct byte_limited_close_at_target as (Htcp & Hnot & Hudp & Hunot).
  split; [| split; [| split]].
  - apply (Htcp 1%nat sample_tcp_tx_env None (sample_tcp_sender 1048576)
             (sample_tcp_sender 1048576) LWIPERF_TCP_DONE_CLIENT_TX []).
    + reflexivity.
    + vm_compute. reflexivity.
  - apply Hnot; [reflexivity | vm_compute; discriminate].
  - apply (Hudp quiet_tx_env (sample_udp_sender 1048576 1) (sample_udp_sender 1048576 1)
             LWIPERF_UDP_DONE_CLIENT_TX []).
    + reflexivity.
    + vm_compute. reflexivity.
  - apply (Hunot quiet_tx_env (sample_udp_sender 1048575 1) (Kept (sample_udp_sender 1048575 1)) []).
    + reflexivity.
    + vm_compute. discriminate.
    + vm_compute. reflexivity.
Defined.

(** ** UDP pacing: a failed udp_send *)

(** The send loop touches neither the list link nor the master references,
    and its trace is a run of datagrams that went out, followed by at most
    one failed udp_send with the release of its buffer. *)
Lemma udp_send_rounds_trace e ts ending :
  forall fuel i conn tr c' tr',
    udp_send_rounds fuel e ts ending i conn tr = Ok (c', tr') ->
    Udp.base c' = Udp.base conn
    /\ exists good last,
        tr' = tr ++ good ++ last
        /\ Forall sent_ok good
        /\ (last = [] \/ exists id len err,
               err <> ERR_OK /\ last = [EvUdpSend id len err; EvPbufFree]).
Proof.
  induction fuel as [| fuel IH]; intros i conn tr c' tr' H; cbn [udp_send_rounds] in H.
  - discriminate.
  - destruct (i <? Udp.frames_per_delay conn).
    2: { inversion H; subst. split; [reflexivity |]. exists [], []. rewrite !app_nil_r. auto. }
    destruct (tx_pbuf_alloc e i).
    2: { inversion H; subst. split; [reflexivity |]. exists [], []. rewrite !app_nil_r. auto. }
    destruct (tx_udp_send e i =? ERR_OK) eqn:Esend.
    + apply Z.eqb_eq in Esend. apply IH in H. destruct H as (Hb & good & last & -> & Hgood & Hlast).
      split.
      * rewrite Hb. destruct (nz ending); destruct (_ || _); reflexivity.
      * eexists (_ :: _ :: good), last. split; [| split; [| exact Hlast]].
        -- rewrite <- !app_assoc. reflexivity.
        -- rewrite Esend. constructor; [right; eauto |]. constructor; [left; reflexivity | exact Hgood].
    + apply Z.eqb_neq in Esend. inversion H; subst. split; [reflexivity |].
      exists [], [EvUdpSend
                    (if nz ending then s32 (- Udp.udp_seq conn) else s32 (Udp.udp_seq conn))
                    (u16 (lwip_ntohl (St.buffer_len (Ext.base (Udp.settings conn)))))
                    (tx_udp_send e i); EvPbufFree].
      split; [reflexivity |]. split; [constructor |]. right. eauto.
Qed.

(** With the fuel lwiperf_udp_client_send_more gives it, the send loop
    always comes to an end. *)
Lemma udp_send_rounds_returns e ts ending :
  forall fuel i conn tr,
    0 <= i -> 0 <= Udp.frames_per_delay conn < 2^32 ->
    Z.max 0 (Z.max (Udp.frames_per_delay conn) 10 - i) < Z.of_nat fuel ->
    exists r, udp_send_rounds fuel e ts ending i conn tr = Ok r.
Proof.
  induction fuel as [| fuel IH]; intros i conn tr Hi Hf Hm.
  - lia.
  - cbn [udp_send_rounds].
    destruct (i <? Udp.frames_per_delay conn) eqn:Ei; [| eauto].
    apply Z.ltb_lt in Ei.
    destruct (tx_pbuf_alloc e i); [| eauto].
    destruct (tx_udp_send e i =? ERR_OK); [| eauto].
    apply IH.
    + apply u32_range.
    + destruct (nz ending); destruct (_ || _); cbn -[Z.max Z.pow Z.of_nat]; lia.
    + rewrite (u32_small (i + 1)) by lia.
      destruct (nz ending); destruct (_ || _); cbn -[Z.max Z.pow Z.of_nat]; lia.
Qed.

Lemma lwiperf_udp_client_send_more_returns e conn :
  LWIP_ASSERT (negb (nz (Base.tcp (Udp.base conn)))
               && ((Base.server (Udp.base conn) =? 0) || nz (Base.reverse (Udp.base conn))))
  = Ok tt ->
  0 <= Udp.frames_per_delay conn < 2^32 ->
  exists r, lwiperf_udp_client_send_more e conn = Ok r.
Proof.
  intros Ha Hf. unfold lwiperf_udp_client_send_more. rewrite Ha. cbn [mbind res_bind].
  destruct (nz (udp_tx_ending _ _) && _).
  - destruct (nz (Base.reverse (Udp.base conn))); eauto.
  - destruct (ts_to_us _ <? _); [eauto |].
    destruct (udp_send_rounds_returns e (clock_gettime (tx_now_clock e))
                (udp_tx_ending (tx_now_limit e) conn)
                (S (Z.to_nat (Z.max (Udp.frames_per_delay conn) 10))) 0 conn [])
      as ([c' tr'] & ->); [lia | exact Hf | lia |].
    cbn. eauto.
Qed.

Lemma lwiperf_udp_close_trace fuel ce conn rt w w' tr :
  lwiperf_udp_close fuel ce conn rt w = Ok (w', tr) ->
  forall id len err, ~ In (EvUdpSend id len err) tr.
Proof.
  unfold lwiperf_udp_close. intros H id len err Hin.
  destruct (heap w !! conn) as [[t | c] |]; try discriminate.
  apply bind_Ok in H. destruct H as (w1 & _ & H). inversion H; subst; clear H.
  unfold lwip_udp_conn_report in Hin.
  repeat (apply in_app_or in Hin; destruct Hin as [Hin | Hin]).
  - destruct (_ && _); cbn in Hin; [destruct Hin as [Hin | []]; discriminate | contradiction].
  - destruct (nz (Udp.reported c)); cbn in Hin; [destruct Hin as [Hin | []]; discriminate | contradiction].
  - destruct (nz (Udp.pcb c)); cbn in Hin; [destruct Hin as [Hin | []]; discriminate | contradiction].
  - cbn in Hin. destruct Hin as [Hin | []]. discriminate.
Qed.

(** C8: whenever udp_send fails during a run of the pacing send routine on
    a registered session, the run neither closes nor unregisters nor frees
    the session: the registry head and every other state are untouched,
    the session's state is stored back with its list link and master
    references unchanged, and the routine returns right after releasing
    the buffer of the datagram that could not be sent. *)
Theorem udp_send_failure_keeps_session fuel ce e conn w w' tr :
  udp_client_send_more_at fuel ce e conn w = Ok (w', tr) ->
  (exists id len err, err <> ERR_OK /\ In (EvUdpSend id len err) tr) ->
  exists c c',
    heap w !! conn = Some (UdpS c)
    /\ lwiperf_all_connections w' = lwiperf_all_connections w
    /\ heap w' = <[conn := UdpS c']> (heap w)
    /\ Udp.base c' = Udp.base c
    /\ (forall a rt b d k, ~ In (EvFree a) tr /\ ~ In (EvReport a rt b d k) tr)
    /\ exists tr0 id len err,
        err <> ERR_OK /\ tr = tr0 ++ [EvUdpSend id len err; EvPbufFree].
Proof.
  unfold udp_client_send_more_at. intros H (id & len & err & Herr & Hin).
  destruct (heap w !! conn) as [[t | c] |] eqn:Hc; try discriminate.
  apply bind_Ok in H. destruct H as ([o tr1] & Hrun & H).
  destruct o as [c' | c' rt].
  - inversion H; subst; clear H.
    unfold lwiperf_udp_client_send_more in Hrun.
    apply bind_Ok in Hrun. destruct Hrun as (_ & _ & Hrun).
    assert (exists c0 tr0, udp_send_rounds
                             (S (Z.to_nat (Z.max (Udp.frames_per_delay c) 10))) e
                             (clock_gettime (tx_now_clock e))
                             (udp_tx_ending (tx_now_limit e) c) 0 c [] = Ok (c0, tr0)
                           /\ c0 = c' /\ tr0 = tr) as (c0 & tr0 & Hr & -> & ->).
    { destruct (nz (udp_tx_ending _ _) && _).
      - destruct (nz (Base.reverse (Udp.base c))); inversion Hrun.
      - destruct (ts_to_us _ <? _).
        + inversion Hrun; subst. contradiction.
        + apply bind_Ok in Hrun. destruct Hrun as ([c0 tr0] & Hr & Hk).
          inversion Hk; subst. eauto. }
    apply udp_send_rounds_trace in Hr.
    destruct Hr as (Hb & good & last & Htr & Hgood & Hlast). cbn [app] in Htr. subst tr.
    exists c, c'. repeat split; try assumption; try reflexivity.
    + intros [Hf | Hf]%in_app_or.
      * rewrite Forall_forall in Hgood. apply list_elem_of_In, Hgood in Hf.
        destruct Hf as [Hf | (? & ? & Hf)]; discriminate.
      * destruct Hlast as [-> | (? & ? & ? & _ & ->)]; cbn in Hf; [contradiction |].
        destruct Hf as [Hf | [Hf | []]]; discriminate.
    + intros [Hf | Hf]%in_app_or.
      * rewrite Forall_forall in Hgood. apply list_elem_of_In, Hgood in Hf.
        destruct Hf as [Hf | (? & ? & Hf)]; discriminate.
      * destruct Hlast as [-> | (? & ? & ? & _ & ->)]; cbn in Hf; [contradiction |].
        destruct Hf as [Hf | [Hf | []]]; discriminate.
    + destruct Hlast as [-> | (id' & len' & err' & Herr' & ->)].
      * rewrite app_nil_r in Hin. rewrite Forall_forall in Hgood.
        apply list_elem_of_In, Hgood in Hin.
        destruct Hin as [Hin | (? & ? & Hin)]; [discriminate |].
        inversion Hin; subst. contradiction.
      * exists good, id', len', err'. auto.
  - (* the termination test closed the session before anything was sent *)
    exfalso. apply udp_send_more_closed in Hrun as Hcl. destruct Hcl as (-> & _ & _).
    assert (tr1 = []) as ->.
    { unfold lwiperf_udp_client_send_more in Hrun.
      apply bind_Ok in Hrun. destruct Hrun as (_ & _ & Hrun).
      destruct (nz (udp_tx_ending _ _) && _).
      - destruct (nz (Base.reverse (Udp.base c))); inversion Hrun; reflexivity.
      - destruct (ts_to_us _ <? _); [discriminate |].
        apply bind_Ok in Hrun. destruct Hrun as ([c0 tr0] & _ & Hk). discriminate. }
    apply bind_Ok in H. destruct H as ([w2 tr2] & Hclose & H). inversion H; subst.
    cbn [app] in Hin. exact (lwiperf_udp_close_trace _ _ _ _ _ _ _ Hclose _ _ _ Hin).
Qed.

Lemma udp_send_failure_keeps_session_witness :
  exists w' tr,
    udp_client_send_more_at 2 sample_close_env failing_tx_env 0x4000 sample_udp_world
    = Ok (w', tr)
    /\ exists c c',
        heap sample_udp_world !! 0x4000 = Some (UdpS c)
        /\ lwiperf_all_connections w' = lwiperf_all_connections sample_udp_world
        /\ heap w' = <[0x4000 := UdpS c']> (heap sample_udp_world)
        /\ Udp.base c' = Udp.base c
        /\ (forall a rt b d k, ~ In (EvFree a) tr /\ ~ In (EvReport a rt b d k) tr)
        /\ exists tr0 id len err,
            err <> ERR_OK /\ tr = tr0 ++ [EvUdpSend id len err; EvPbufFree].
Proof.
  eexists. eexists. split; [vm_compute; reflexivity |].
  apply (udp_send_failure_keeps_session 2 sample_close_env failing_tx_env 0x4000
           sample_udp_world).
  - vm_compute. reflexivity.
  - exists 2, 1470, ERR_MEM. split; [discriminate |].
    vm_compute. do 4 right. left. reflexivity.
Defined.

(** ** The byte counter *)



(** The retry loop of tcp_write ends within its seventeen attempts whenever
    half a segment is at least one byte. *)
Lemma tcp_write_retry_returns write mss apiflags :
  1 <= u16 mss / 2 ->
  forall fuel txlen j tr,
    0 <= txlen < 2 ^ (Z.of_nat fuel - 1) ->
    exists r, tcp_write_retry fuel write mss txlen apiflags j tr = Ok r.
Proof.
  intros Hmss. induction fuel as [| fuel IH]; intros txlen j tr Hlen.
  - cbn in Hlen. lia.
  - cbn [tcp_write_retry]. destruct (write j =? ERR_MEM); [| eauto].
    destruct (u16 mss / 2 <=? txlen / 2) eqn:E; [| eauto].
    apply Z.leb_le in E. apply IH.
    replace (Z.of_nat (S fuel) - 1) with (Z.of_nat fuel) in Hlen by lia.
    destruct fuel as [| fuel].
    + change (2 ^ Z.of_nat 0) with 1 in Hlen. assert (txlen = 0) as -> by lia.
      change (0 / 2) with 0 in E. lia.
    + replace (Z.of_nat (S fuel) - 1) with (Z.of_nat fuel) by lia.
      rewrite Nat2Z.inj_succ, Z.pow_succ_r in Hlen by lia.
      split; [apply Z.div_pos; lia |]. apply Z.div_lt_upper_bound; lia.
Qed.














(** ** The registry *)

Lemma base_of_with_base b s : base_of (with_base b s) = b.
Proof. destruct s; reflexivity. Qed.

Lemma with_base_with_base b1 b2 s : with_base b1 (with_base b2 s) = with_base b1 s.
Proof. destruct s; reflexivity. Qed.

Lemma unlinked_next s n :
  unlinked (with_base (Base.set_next n (base_of s)) s) = unlinked s.
Proof. unfold unlinked. rewrite base_of_with_base, with_base_with_base. reflexivity. Qed.

Lemma unlinked_eq s s' :
  unlinked s' = unlinked s -> Base.next (base_of s') = Base.next (base_of s) -> s' = s.
Proof.
  unfold unlinked. destruct s as [[b ? ? ? ? ? ? ? ? ? ? ? ?] | [b ? ? ? ? ? ? ? ? ? ? ? ? ? ? ? ? ? ? ? ? ?]],
    s' as [[b' ? ? ? ? ? ? ? ? ? ? ? ?] | [b' ? ? ? ? ? ? ? ? ? ? ? ? ? ? ? ? ? ? ? ? ?]];
    destruct b, b'; cbn; intros H Hn; inversion H; subst; reflexivity.
Qed.

Lemma lseg_app hp l1 : forall p l2 q,
  lseg hp p (l1 ++ l2) q <-> exists m, lseg hp p l1 m /\ lseg hp m l2 q.
Proof.
  induction l1 as [| a l1 IH]; intros p l2 q; cbn.
  - split; [intros H; exists p; auto | intros (m & -> & H); exact H].
  - split.
    + intros (-> & Ha & s & Hs & H). apply IH in H. destruct H as (m & H1 & H2).
      exists m. split; [| exact H2]. repeat split; auto. exists s. auto.
    + intros (m & (-> & Ha & s & Hs & H1) & H2). repeat split; auto.
      exists s. split; [exact Hs |]. apply IH. exists m. auto.
Qed.

Lemma lseg_nonnull hp l : forall p q, lseg hp p l q -> 0 ∉ l.
Proof.
  induction l as [| a l IH]; intros p q H; cbn in H.
  - apply not_elem_of_nil.
  - destruct H as (-> & Ha & s & Hs & H). apply not_elem_of_cons. split; [lia | eauto].
Qed.

Lemma lseg_lookup hp l : forall p q a, lseg hp p l q -> a ∈ l -> is_Some (hp !! a).
Proof.
  induction l as [| b l IH]; intros p q a H Hin; cbn in H.
  - apply elem_of_nil in Hin. contradiction.
  - destruct H as (-> & Hb & s & Hs & H). apply elem_of_cons in Hin. destruct Hin as [-> | Hin].
    + eauto.
    + eapply IH; eauto.
Qed.

(** Changing states without changing the links of the listed ones keeps
    the list. *)
Lemma lseg_frame hp hp' l : forall p q,
  (forall a s, a ∈ l -> hp !! a = Some s ->
               exists s', hp' !! a = Some s' /\ Base.next (base_of s') = Base.next (base_of s)) ->
  lseg hp p l q -> lseg hp' p l q.
Proof.
  induction l as [| b l IH]; intros p q Hsame H; cbn in *.
  - exact H.
  - destruct H as (-> & Hb & s & Hs & H).
    destruct (Hsame b s ltac:(left) Hs) as (s' & Hs' & Hn).
    repeat split; auto. exists s'. split; [exact Hs' |]. rewrite Hn.
    apply IH; [| exact H]. intros a s0 Ha. apply Hsame. right. exact Ha.
Qed.

(** A list that ends in NULL is determined by its head. *)
Lemma lseg_functional hp l1 : forall p l2, lseg hp p l1 0 -> lseg hp p l2 0 -> l1 = l2.
Proof.
  induction l1 as [| a l1 IH]; intros p l2 H1 H2; destruct l2 as [| b l2]; cbn in *.
  - reflexivity.
  - destruct H2 as (-> & Hb & _). lia.
  - destruct H1 as (-> & Ha & _). lia.
  - destruct H1 as (-> & Ha & s & Hs & H1), H2 as (<- & _ & s' & Hs' & H2).
    rewrite Hs in Hs'. inversion Hs'; subst. f_equal. eapply IH; eauto.
Qed.

Lemma lseg_NoDup hp l : forall p, lseg hp p l 0 -> NoDup l.
Proof.
  induction l as [| a l IH]; intros p H.
  - constructor.
  - pose proof H as Hall. cbn in H. destruct H as (-> & Ha & s & Hs & H).
    constructor; [| eauto].
    intros Hin. apply list_elem_of_split in Hin. destruct Hin as (l1 & l2 & ->).
    apply lseg_app in H. destruct H as (m & _ & H2).
    pose proof H2 as H2'. cbn in H2'. destruct H2' as (-> & _).
    pose proof (lseg_functional _ _ _ _ Hall H2) as Heq.
    apply (f_equal length) in Heq. cbn in Heq. rewrite length_app in Heq. cbn in Heq. lia.
Qed.

Lemma lseg_insert_same_next hp a s s' l : forall p q,
  hp !! a = Some s -> Base.next (base_of s') = Base.next (base_of s) ->
  lseg hp p l q -> lseg (<[a := s']> hp) p l q.
Proof.
  intros p q Ha Hn. apply lseg_frame. intros b sb _ Hb.
  destruct (decide (a = b)) as [-> | Hne].
  - rewrite lookup_insert_eq. rewrite Ha in Hb. inversion Hb; subst. eauto.
  - rewrite lookup_insert_ne by exact Hne. eauto.
Qed.

Lemma lseg_insert_notin hp a s' l : forall p q,
  a ∉ l -> lseg hp p l q -> lseg (<[a := s']> hp) p l q.
Proof.
  intros p q Ha. apply lseg_frame. intros b sb Hin Hb.
  rewrite lookup_insert_ne by (intros ->; contradiction). eauto.
Qed.

Lemma lseg_delete_notin hp a l : forall p q,
  a ∉ l -> lseg hp p l q -> lseg (delete a hp) p l q.
Proof.
  intros p q Ha. apply lseg_frame. intros b sb Hin Hb.
  rewrite lookup_delete_ne by (intros ->; contradiction). eauto.
Qed.

(** Redirecting the link of the last node of a segment. *)
Lemma lseg_relink_last hp l b s n : forall p q,
  lseg hp p (l ++ [b]) q -> b ∉ l -> hp !! b = Some s ->
  lseg (<[b := with_base (Base.set_next n (base_of s)) s]> hp) p (l ++ [b]) n.
Proof.
  intros p q H Hb Hs. apply lseg_app in H. destruct H as (m & H1 & H2).
  apply lseg_app. exists m. split.
  - apply lseg_insert_notin; assumption.
  - cbn in *. destruct H2 as (-> & Hnz & _). repeat split; auto.
    eexists. rewrite lookup_insert_eq. split; [reflexivity |].
    rewrite base_of_with_base. reflexivity.
Qed.

Lemma read_base_Some a w s : heap w !! a = Some s -> read_base a w = Ok (base_of s).
Proof. unfold read_base. intros ->. reflexivity. Qed.

Lemma write_base_Some f a w s :
  heap w !! a = Some s ->
  write_base f a w = Ok (set_heap (<[a := with_base (f (base_of s)) s]> (heap w)) w).
Proof. unfold write_base. intros ->. reflexivity. Qed.

Lemma touched_refl item hp : touched item [] hp hp.
Proof.
  intros a. destruct (hp !! a) as [s |] eqn:E; [| reflexivity].
  exists s. rewrite bool_decide_eq_false_2 by apply not_elem_of_nil. auto.
Qed.

Lemma touched_lookup_notin item F hp0 hp a :
  touched item F hp0 hp -> a ∉ F -> hp !! a = hp0 !! a.
Proof.
  intros H Ha. specialize (H a). destruct (hp0 !! a) as [s |]; [| exact H].
  destruct H as (s' & -> & _ & Heq). rewrite (Heq Ha). reflexivity.
Qed.

Lemma fix_master_next item s :
  Base.next (base_of (fix_master item s)) = Base.next (base_of s).
Proof.
  unfold fix_master. destruct (_ =? _); [| reflexivity].
  rewrite base_of_with_base. reflexivity.
Qed.

(** Visiting one more node: the fix-up applied to it, if any. *)
Lemma touched_visit item F hp0 hp a s :
  touched item F hp0 hp -> a ∉ F -> hp !! a = Some s ->
  touched item (F ++ [a]) hp0 (<[a := fix_master item s]> hp).
Proof.
  intros H Ha Hs b. pose proof (touched_lookup_notin _ _ _ _ _ H Ha) as Ha0.
  rewrite Hs in Ha0. specialize (H b).
  destruct (decide (b = a)) as [-> | Hne].
  - rewrite <- Ha0. exists (fix_master item s). rewrite lookup_insert_eq.
    split; [reflexivity |]. split.
    + rewrite bool_decide_eq_true_2 by (apply elem_of_app; right; left). reflexivity.
    + intros Hn. exfalso. apply Hn. apply elem_of_app. right. left.
  - rewrite lookup_insert_ne by congruence.
    destruct (hp0 !! b) as [sb |]; [| exact H].
    destruct H as (s' & Hs' & Hu & Heq). exists s'. split; [exact Hs' |]. split.
    + rewrite Hu. destruct (bool_decide (b ∈ F)) eqn:E.
      * apply bool_decide_eq_true_1 in E.
        rewrite bool_decide_eq_true_2 by (apply elem_of_app; left; exact E). reflexivity.
      * apply bool_decide_eq_false_1 in E.
        rewrite bool_decide_eq_false_2; [reflexivity |].
        rewrite elem_of_app, list_elem_of_singleton. tauto.
    + intros Hn. apply Heq. intros Hin. apply Hn. apply elem_of_app. left. exact Hin.
Qed.

Lemma touched_relink item F hp0 hp b s n :
  touched item F hp0 hp -> b ∈ F -> hp !! b = Some s ->
  touched item F hp0 (<[b := with_base (Base.set_next n (base_of s)) s]> hp).
Proof.
  intros H Hb Hs a. specialize (H a).
  destruct (decide (a = b)) as [-> | Hne].
  - destruct (hp0 !! b) as [s0 |].
    + destruct H as (s' & Hs' & Hu & _). rewrite Hs in Hs'. inversion Hs'; subst.
      eexists. rewrite lookup_insert_eq. split; [reflexivity |]. split.
      * rewrite unlinked_next. exact Hu.
      * intros Hn. contradiction.
    + rewrite Hs in H. discriminate.
  - rewrite lookup_insert_ne by congruence. exact H.
Qed.

Lemma last_or_null_snoc l a : last_or_null (l ++ [a]) = a.
Proof. unfold last_or_null. rewrite last_snoc. reflexivity. Qed.

Lemma last_or_null_0 l : 0 ∉ l -> last_or_null l = 0 -> l = [].
Proof.
  unfold last_or_null. intros H0 H. destruct (last l) as [x |] eqn:E.
  - cbn in H. subst. apply last_Some_elem_of in E. contradiction.
  - apply last_None. exact E.
Qed.

Lemma last_or_null_split l : 0 ∉ l -> last_or_null l <> 0 ->
  exists l', l = l' ++ [last_or_null l].
Proof.
  unfold last_or_null. intros H0 H. destruct (last l) as [x |] eqn:E; [| contradiction].
  apply last_Some in E. exact E.
Qed.

Lemma keep_notin item (l : list Z) : item ∉ l -> keep item l = l.
Proof.
  unfold keep. induction l as [| a l IH]; intros H; [reflexivity |].
  apply not_elem_of_cons in H. destruct H as [Hne Hl].
  rewrite filter_cons_True by congruence. rewrite IH by exact Hl. reflexivity.
Qed.

Lemma keep_snoc_other item (l : list Z) a : a <> item -> keep item (l ++ [a]) = keep item l ++ [a].
Proof.
  intros H. unfold keep. rewrite filter_app, filter_cons_True, filter_nil by exact H. reflexivity.
Qed.

Lemma keep_snoc_item item (l : list Z) : keep item (l ++ [item]) = keep item l.
Proof.
  unfold keep. rewrite filter_app, filter_cons_False, filter_nil, app_nil_r by tauto. reflexivity.
Qed.

Lemma list_remove_loop_spec hp0 item :
  forall (l2 : list Z) (fuel : nat) (l1 : list Z) prev iter (found : bool) w,
    NoDup (l1 ++ l2) -> 0 ∉ l1 ->
    touched item l1 hp0 (heap w) ->
    lseg (heap w) iter l2 0 ->
    (if found
     then (item ∈ l1)
          /\ lseg (heap w) (lwiperf_all_connections w) (keep item l1) iter
     else (item ∉ l1)
          /\ lseg (heap w) (lwiperf_all_connections w) l1 iter
          /\ prev = last_or_null l1) ->
    (length l2 < fuel)%nat ->
    exists w', list_remove_loop fuel item prev iter found w = Ok w'
               /\ lseg (heap w') (lwiperf_all_connections w') (keep item (l1 ++ l2)) 0
               /\ touched item (l1 ++ l2) hp0 (heap w').
Proof.
  induction l2 as [| a l2 IH]; intros fuel l1 prev iter found w Hnd H0 Ht Hseg Hhead Hfuel;
    (destruct fuel as [| fuel]; [cbn in Hfuel; lia |]); cbn [list_remove_loop].
  - cbn in Hseg. subst iter. cbn. exists w. rewrite app_nil_r. split; [reflexivity |].
    split; [| exact Ht].
    destruct found.
    + tauto.
    + destruct Hhead as (Hni & Hl & _). rewrite keep_notin by exact Hni. exact Hl.
  - cbn in Hseg. destruct Hseg as (-> & Hnz & s & Hs & Hseg).
    apply NoDup_app in Hnd as Hnd'. destruct Hnd' as (Hnd1 & Hdisj & Hnd2).
    apply NoDup_cons in Hnd2. destruct Hnd2 as [Ha2 Hnd2].
    assert (a ∉ l1) as Ha1 by (intros Hin; apply (Hdisj a Hin); left).
    destruct (a =? 0) eqn:E0; [apply Z.eqb_eq in E0; contradiction |].
    rewrite (read_base_Some _ _ _ Hs). cbn [mbind res_bind].
    (* the fix-up of the visited node *)
    set (w1 := set_heap (<[a := fix_master item s]> (heap w)) w).
    assert ((if Base.related_master_state (base_of s) =? item
             then write_base (forget_master item) a w else Ok w) = Ok w1) as ->.
    { unfold w1, fix_master. destruct (_ =? item).
      - apply write_base_Some. exact Hs.
      - rewrite insert_id by exact Hs. destruct w; reflexivity. }
    cbn [mbind res_bind].
    assert (heap w1 !! a = Some (fix_master item s)) as Hs1 by apply lookup_insert_eq.
    assert (touched item (l1 ++ [a]) hp0 (heap w1)) as Ht1
        by (apply touched_visit; assumption).
    assert (forall p l q, lseg (heap w) p l q -> lseg (heap w1) p l q) as Hkeep.
    { intros p l q. apply (lseg_insert_same_next _ _ s); [exact Hs | apply fix_master_next]. }
    assert (0 ∉ l1 ++ [a]) as H0'.
    { rewrite not_elem_of_app, list_elem_of_singleton. split; [exact H0 | congruence]. }
    assert (NoDup ((l1 ++ [a]) ++ l2)) as Hnd' by (rewrite <- app_assoc; exact Hnd).
    destruct (a =? item) eqn:Eitem.
    + (* the node is the item: unlink it *)
      apply Z.eqb_eq in Eitem. subst item.
      destruct found; [destruct Hhead as [Hin _]; contradiction |].
      destruct Hhead as (_ & Hl1 & Hprev). cbn [LWIP_ASSERT negb mbind res_bind].
      rewrite (read_base_Some _ _ _ Hs1). cbn [mbind res_bind]. rewrite fix_master_next.
      destruct (prev =? 0) eqn:Eprev.
      * apply Z.eqb_eq in Eprev. rewrite Eprev in Hprev. symmetry in Hprev.
        apply last_or_null_0 in Hprev; [| exact H0]. subst l1. cbn [mbind res_bind].
        assert (heap (set_head (Base.next (base_of s)) w1) !! a = Some (fix_master a s))
          as Hs2 by exact Hs1.
        rewrite (read_base_Some _ _ _ Hs2). cbn [mbind res_bind]. rewrite fix_master_next.
        change ([] ++ a :: l2) with (([] ++ [a]) ++ l2). apply (IH fuel ([] ++ [a]) a _ true).
        -- exact Hnd'.
        -- exact H0'.
        -- exact Ht1.
        -- apply Hkeep. exact Hseg.
        -- split; [left |]. rewrite (keep_snoc_item a []). reflexivity.
        -- cbn in Hfuel. lia.
      * apply Z.eqb_neq in Eprev.
        destruct (last_or_null_split l1 H0 ltac:(rewrite <- Hprev; exact Eprev)) as (l1' & Hl1').
        rewrite <- Hprev in Hl1'.
        assert (prev ∉ l1') as Hp1.
        { rewrite Hl1' in Hnd1. apply NoDup_app in Hnd1. destruct Hnd1 as (_ & Hd & _).
          intros Hin. apply (Hd prev Hin). left. }
        assert (prev ∈ l1) as Hpin by (rewrite Hl1'; apply elem_of_app; right; left).
        assert (prev <> a) as Hpa by congruence.
        destruct (lseg_lookup _ _ _ _ prev (Hkeep _ _ _ Hl1) Hpin) as [sp Hsp].
        rewrite (write_base_Some _ _ _ _ Hsp). cbn [mbind res_bind].
        set (w2 := set_heap _ w1).
        assert (heap w2 !! a = Some (fix_master a s)) as Hs2.
        { unfold w2. cbn. rewrite lookup_insert_ne by exact Hpa. exact Hs1. }
        rewrite (read_base_Some _ _ _ Hs2). cbn [mbind res_bind]. rewrite fix_master_next.
        replace (l1 ++ a :: l2) with ((l1 ++ [a]) ++ l2)
          by (rewrite <- app_assoc; reflexivity).
        apply (IH fuel (l1 ++ [a]) a _ true).
        -- exact Hnd'.
        -- exact H0'.
        -- unfold w2. cbn. apply touched_relink; [exact Ht1 | | exact Hsp].
           apply elem_of_app. left. exact Hpin.
        -- unfold w2. cbn. apply lseg_insert_notin; [| apply Hkeep; exact Hseg].
           intros Hin. apply (Hdisj prev Hpin). right. exact Hin.
        -- split; [apply elem_of_app; right; left |].
           rewrite keep_snoc_item, keep_notin by exact Ha1.
           unfold w2. cbn. rewrite Hl1'.
           apply (lseg_relink_last _ _ _ _ _ _ a); [| exact Hp1 | exact Hsp].
           rewrite <- Hl1'. apply Hkeep. exact Hl1.
        -- cbn in Hfuel. lia.
    + (* any other node *)
      apply Z.eqb_neq in Eitem. cbn [mbind res_bind].
      rewrite (read_base_Some _ _ _ Hs1). cbn [mbind res_bind]. rewrite fix_master_next.
      replace (l1 ++ a :: l2) with ((l1 ++ [a]) ++ l2)
          by (rewrite <- app_assoc; reflexivity).
        apply (IH fuel (l1 ++ [a]) a _ found).
      * exact Hnd'.
      * exact H0'.
      * exact Ht1.
      * apply Hkeep. exact Hseg.
      * destruct found.
        -- destruct Hhead as [Hin Hl]. split; [apply elem_of_app; left; exact Hin |].
           rewrite keep_snoc_other by congruence.
           apply lseg_app. exists a. split; [apply Hkeep; exact Hl |].
           cbn. repeat split; auto. exists (fix_master item s). split; [exact Hs1 |].
           apply fix_master_next.
        -- destruct Hhead as (Hni & Hl & _). split; [| split].
           ++ rewrite not_elem_of_app, list_elem_of_singleton. split; [exact Hni | congruence].
           ++ apply lseg_app. exists a. split; [apply Hkeep; exact Hl |].
              cbn. repeat split; auto. exists (fix_master item s). split; [exact Hs1 |].
              apply fix_master_next.
           ++ symmetry. apply last_or_null_snoc.
      * cbn in Hfuel. lia.
Qed.

Lemma lwiperf_list_remove_spec fuel item w (l : list Z) :
  registry w l -> (length l < fuel)%nat ->
  exists w', lwiperf_list_remove fuel item w = Ok w'
             /\ registry w' (keep item l)
             /\ touched item l (heap w) (heap w').
Proof.
  intros Hreg Hfuel. unfold lwiperf_list_remove.
  apply (list_remove_loop_spec (heap w) item l fuel [] 0 _ false w).
  - apply (lseg_NoDup _ _ _ Hreg).
  - apply not_elem_of_nil.
  - apply touched_refl.
  - exact Hreg.
  - split; [apply not_elem_of_nil |]. split; reflexivity.
  - exact Hfuel.
Qed.

Lemma unlinked_inv s s' :
  unlinked s' = unlinked s ->
  s' = with_base (Base.set_next (Base.next (base_of s')) (base_of s)) s.
Proof.
  intros H. apply unlinked_eq.
  - rewrite unlinked_next. exact H.
  - rewrite base_of_with_base. reflexivity.
Qed.

Lemma touched_in item F hp hp' a s :
  touched item F hp hp' -> a ∈ F -> hp !! a = Some s ->
  exists s', hp' !! a = Some s' /\ unlinked s' = unlinked (fix_master item s).
Proof.
  intros H Ha Hs. specialize (H a). rewrite Hs in H.
  destruct H as (s' & Hs' & Hu & _). rewrite bool_decide_eq_true_2 in Hu by exact Ha. eauto.
Qed.

(** The fields lwiperf_list_remove leaves as they are. *)
Lemma fix_master_related item s :
  (Base.related_master_state (base_of s) = item ->
   Base.related_master_state (base_of (fix_master item s)) = 0
   /\ Base.deallocated_master_state_address (base_of (fix_master item s)) = item)
  /\ (Base.related_master_state (base_of s) <> item ->
      fix_master item s = s).
Proof.
  unfold fix_master. split.
  - intros H. rewrite H, Z.eqb_refl, base_of_with_base. cbn. auto.
  - intros H. apply Z.eqb_neq in H. rewrite H. reflexivity.
Qed.

Lemma unlinked_fields s s' :
  unlinked s' = unlinked s ->
  Base.tcp (base_of s') = Base.tcp (base_of s)
  /\ Base.related_master_state (base_of s') = Base.related_master_state (base_of s)
  /\ Base.deallocated_master_state_address (base_of s')
     = Base.deallocated_master_state_address (base_of s)
  /\ (kind_ok s' <-> kind_ok s).
Proof.
  intros H. apply unlinked_inv in H. rewrite H. rewrite base_of_with_base. cbn.
  repeat split; destruct s; cbn; auto.
Qed.

Lemma abort_target_fix h a item s :
  item <> 0 -> master_ok s ->
  abort_target h a (base_of (fix_master item s)) = abort_target h a (base_of s).
Proof.
  intros Hitem Hok. unfold fix_master.
  destruct (Base.related_master_state (base_of s) =? item) eqn:E; [| reflexivity].
  apply Z.eqb_eq in E. rewrite base_of_with_base. unfold abort_target. cbn.
  rewrite (Hok ltac:(congruence)), E.
  destruct (a =? h); cbn; [reflexivity |]. apply orb_comm.
Qed.

Lemma master_ok_fix item s : master_ok s -> master_ok (fix_master item s).
Proof.
  unfold master_ok, fix_master. intros H.
  destruct (_ =? item); [| exact H]. rewrite base_of_with_base. cbn. congruence.
Qed.

Lemma kind_ok_fix item s : kind_ok s -> kind_ok (fix_master item s).
Proof.
  unfold fix_master. destruct (_ =? item); [| auto]. destruct s; cbn; auto.
Qed.

Lemma elem_of_keep item (l : list Z) b : b ∈ keep item l <-> b <> item /\ b ∈ l.
Proof. unfold keep. rewrite list_elem_of_filter. tauto. Qed.

Lemma node_ok_fix m0 h hp hp' item b s s' :
  item <> 0 ->
  node_ok m0 h hp b -> hp !! b = Some s -> hp' !! b = Some s' ->
  unlinked s' = unlinked (fix_master item s) ->
  node_ok m0 h hp' b.
Proof.
  intros Hitem (s0 & Hs0 & Hk & Hm & Ht) Hs Hs' Hu. rewrite Hs in Hs0. inversion Hs0; subst s0.
  exists s'. split; [exact Hs' |].
  destruct (unlinked_fields _ _ Hu) as (_ & Hrel & Hde & Hkind).
  split; [apply Hkind, kind_ok_fix, Hk |]. split.
  - pose proof (master_ok_fix item s Hm) as Hm'. unfold master_ok in *.
    rewrite Hrel, Hde. exact Hm'.
  - rewrite <- Ht, <- (abort_target_fix h b item s Hitem Hm).
    unfold abort_target. rewrite Hrel, Hde. reflexivity.
Qed.

Lemma freed_app tr1 tr2 : freed (tr1 ++ tr2) = freed tr1 ++ freed tr2.
Proof. unfold freed. apply flat_map_app. Qed.

Lemma freed_tcp_report now a c rt : freed (lwip_tcp_conn_report now a c rt) = [].
Proof. unfold lwip_tcp_conn_report. split_ifs; reflexivity. Qed.

Lemma freed_udp_report now a c rt : freed (lwip_udp_conn_report now a c rt) = [].
Proof. unfold lwip_udp_conn_report. split_ifs; reflexivity. Qed.

Lemma unlinked_same_kind s s' :
  unlinked s' = unlinked s ->
  match s, s' with
  | TcpS c, TcpS c' =>
    Tcp.conn_pcb c' = Tcp.conn_pcb c /\ Tcp.server_pcb c' = Tcp.server_pcb c
  | UdpS _, UdpS _ => True
  | _, _ => False
  end.
Proof.
  destruct s as [c | c], s' as [c' | c']; cbn; intros H; try discriminate; [| exact I].
  destruct c, c'; cbn in *. inversion H; subst. auto.
Qed.

(** Closing the session at [a], listed or already unlinked, on behalf of
    lwiperf_abort. *)
Lemma abort_close_spec rfuel e h m0 a s w (L : list Z) :
  listeners_close e -> a <> 0 ->
  registry w L -> (length L < rfuel)%nat ->
  heap w !! a = Some s -> kind_ok s ->
  (forall b, b ∈ keep a L -> node_ok m0 h (heap w) b) ->
  exists w' tr,
    (if nz (Base.tcp (base_of s))
     then lwiperf_tcp_close rfuel e a LWIPERF_TCP_ABORTED_LOCAL w
     else lwiperf_udp_close rfuel e a LWIPERF_UDP_ABORTED_LOCAL w) = Ok (w', tr)
    /\ registry w' (keep a L)
    /\ freed tr = [a]
    /\ heap w' !! a = None
    /\ (forall b, b ∈ keep a L -> node_ok m0 h (heap w') b)
    /\ (forall b, b <> a -> heap w !! b = None -> heap w' !! b = None).
Proof.
  intros Hlisten Ha Hreg Hfuel Hs Hkind Hnodes.
  destruct (lwiperf_list_remove_spec rfuel a w L Hreg Hfuel) as (w2 & Hrm & Hreg2 & Ht).
  (* the state of [a] after the scan: same kind, same contents up to the base *)
  assert (exists s2, heap w2 !! a = Some s2
                     /\ match s, s2 with
                        | TcpS c, TcpS c2 =>
                          Tcp.conn_pcb c2 = Tcp.conn_pcb c /\ Tcp.server_pcb c2 = Tcp.server_pcb c
                        | UdpS _, UdpS _ => True
                        | _, _ => False
                        end) as (s2 & Hs2 & Hsame).
  { pose proof (Ht a) as Hta. rewrite Hs in Hta. destruct Hta as (s2 & Hs2 & Hu & _).
    exists s2. split; [exact Hs2 |]. apply unlinked_same_kind in Hu.
    destruct (bool_decide (a ∈ L)); [| exact Hu].
    unfold fix_master in Hu. destruct (_ =? a); [| exact Hu].
    destruct s, s2; cbn in Hu; auto. }
  assert (forall b, b ∈ keep a L -> node_ok m0 h (delete a (heap w2)) b) as Hnodes'.
  { intros b Hb. pose proof (Hnodes b Hb) as Hn. apply elem_of_keep in Hb. destruct Hb as [Hne Hb].
    destruct Hn as (sb & Hsb & Hn).
    destruct (touched_in _ _ _ _ _ _ Ht Hb Hsb) as (sb' & Hsb' & Hu).
    apply (node_ok_fix m0 h (heap w) _ a b sb sb' Ha); [exists sb; auto | exact Hsb | | exact Hu].
    rewrite lookup_delete_ne by congruence. exact Hsb'. }
  assert (registry (set_heap (delete a (heap w2)) w2) (keep a L)) as Hreg3.
  { unfold registry. cbn. apply lseg_delete_notin; [| exact Hreg2].
    rewrite elem_of_keep. tauto. }
  assert (forall b, b <> a -> heap w !! b = None -> delete a (heap w2) !! b = None) as Hnone.
  { intros b Hne Hb. rewrite lookup_delete_ne by congruence.
    pose proof (Ht b) as Htb. rewrite Hb in Htb. exact Htb. }
  destruct s as [c | c]; cbn in Hkind; cbn [base_of].
  - assert (nz (Base.tcp (Tcp.base c)) = true) as ->
        by (unfold nz; apply negb_true_iff, Z.eqb_neq; exact Hkind).
    destruct s2 as [c2 | c2]; [| contradiction]. destruct Hsame as [Hcp Hsp].
    unfold lwiperf_tcp_close. rewrite Hrm. cbn [mbind res_bind]. rewrite Hs2.
    rewrite (Hlisten (Tcp.server_pcb c2)). cbn [LWIP_ASSERT Z.eqb ERR_OK].
    destruct (nz (Tcp.conn_pcb c2)); [| destruct (nz (Tcp.server_pcb c2))];
      cbn [mbind res_bind]; eexists; eexists; (split; [reflexivity |]);
      (split; [exact Hreg3 |]); (split; [| split; [apply lookup_delete_eq | split; assumption]]);
      rewrite !freed_app, freed_tcp_report; cbn; split_ifs; reflexivity.
  - assert (nz (Base.tcp (Udp.base c)) = false) as ->
        by (unfold nz; rewrite Hkind; reflexivity).
    unfold lwiperf_udp_close. rewrite Hs, Hrm. cbn [mbind res_bind].
    eexists. eexists. split; [reflexivity |].
    split; [exact Hreg3 |]. split; [| split; [apply lookup_delete_eq | split; assumption]].
    rewrite !freed_app, freed_udp_report. cbn. split_ifs; reflexivity.
Qed.

Lemma pick_snoc_same m0 b (l : list Z) a : m0 a = b -> pick m0 b (l ++ [a]) = pick m0 b l ++ [a].
Proof.
  intros H. unfold pick. rewrite filter_app, filter_cons_True, filter_nil by exact H. reflexivity.
Qed.

Lemma pick_snoc_other m0 b (l : list Z) a : m0 a <> b -> pick m0 b (l ++ [a]) = pick m0 b l.
Proof.
  intros H. unfold pick.
  rewrite filter_app, filter_cons_False, filter_nil, app_nil_r by exact H. reflexivity.
Qed.

Lemma elem_of_pick m0 b (l : list Z) a : a ∈ pick m0 b l <-> m0 a = b /\ a ∈ l.
Proof. unfold pick. rewrite list_elem_of_filter. tauto. Qed.

Lemma lseg_head hp l : forall p q, lseg hp p l q -> p = hd q l.
Proof. destruct l; cbn; intros p q H; [exact H | tauto]. Qed.

Lemma node_ok_unlinked m0 h hp hp' b s s' :
  node_ok m0 h hp b -> hp !! b = Some s -> hp' !! b = Some s' ->
  unlinked s' = unlinked s -> node_ok m0 h hp' b.
Proof.
  intros (s0 & Hs0 & Hk & Hm & Ht) Hs Hs' Hu. rewrite Hs in Hs0. inversion Hs0; subst s0.
  exists s'. split; [exact Hs' |].
  destruct (unlinked_fields _ _ Hu) as (_ & Hrel & Hde & Hkind).
  split; [apply Hkind, Hk |]. split.
  - unfold master_ok in *. rewrite Hrel, Hde. exact Hm.
  - rewrite <- Ht. unfold abort_target. rewrite Hrel, Hde. reflexivity.
Qed.

(** A pass of the abort loop over sessions none of which is a target
    leaves the world alone. *)
Lemma abort_loop_noop rfuel e h w :
  forall (l : list Z) fuel i last tr,
    lseg (heap w) i l 0 ->
    (forall a, a ∈ l -> exists s, heap w !! a = Some s /\ abort_target h a (base_of s) = false) ->
    (length l < fuel)%nat ->
    abort_loop fuel rfuel e h i last w tr = Ok (w, tr).
Proof.
  induction l as [| a l IH]; intros fuel i last tr Hseg Hno Hfuel;
    (destruct fuel as [| fuel]; [cbn in Hfuel; lia |]); cbn [abort_loop]; cbn in Hseg.
  - subst i. reflexivity.
  - destruct Hseg as (-> & Ha & s & Hs & Hseg).
    destruct (a =? 0) eqn:E0; [apply Z.eqb_eq in E0; contradiction |].
    rewrite (read_base_Some _ _ _ Hs). cbn [mbind res_bind].
    destruct (Hno a ltac:(left)) as (s' & Hs' & Hna). rewrite Hs in Hs'. inversion Hs'; subst s'.
    unfold abort_target in Hna. rewrite Hna.
    apply IH; [exact Hseg | | cbn in Hfuel; lia].
    intros b Hb. apply Hno. right. exact Hb.
Qed.

Lemma abort_loop_spec e h m0 rfuel :
  listeners_close e ->
  forall (todo : list Z) (fuel : nat) (done : list Z) i last w tr,
    NoDup (done ++ todo) ->
    registry w (pick m0 false done ++ todo) ->
    i = hd 0 todo -> last = last_or_null (pick m0 false done) ->
    (forall a, a ∈ pick m0 false done ++ todo -> node_ok m0 h (heap w) a) ->
    (forall a, a ∈ pick m0 true done -> heap w !! a = None) ->
    freed tr = pick m0 true done ->
    (length todo < fuel)%nat ->
    (length (pick m0 false done ++ todo) < rfuel)%nat ->
    exists w' tr',
      abort_loop fuel rfuel e h i last w tr = Ok (w', tr')
      /\ registry w' (pick m0 false (done ++ todo))
      /\ (forall a, a ∈ pick m0 false (done ++ todo) -> node_ok m0 h (heap w') a)
      /\ (forall a, a ∈ pick m0 true (done ++ todo) -> heap w' !! a = None)
      /\ freed tr' = pick m0 true (done ++ todo).
Proof.
  intros Hlisten.
  induction todo as [| a todo IH];
    intros fuel done i last w tr Hnd Hreg Hi Hlast Hnodes Hgone Hfreed Hfuel Hrfuel;
    (destruct fuel as [| fuel]; [cbn in Hfuel; lia |]); cbn [abort_loop].
  - cbn in Hi. subst i. cbn. rewrite app_nil_r in *. eauto 10.
  - cbn in Hi. subst i.
    pose proof Hreg as Hreg0. unfold registry in Hreg0. apply lseg_app in Hreg0.
    destruct Hreg0 as (m & Hkept & Htodo). pose proof (lseg_head _ _ _ _ Htodo) as Hm.
    cbn in Hm. subst m. cbn in Htodo. destruct Htodo as (_ & Ha & s & Hs & Htodo).
    pose proof (lseg_head _ _ _ _ Htodo) as Hnext.
    destruct (a =? 0) eqn:E0; [apply Z.eqb_eq in E0; contradiction |].
    rewrite (read_base_Some _ _ _ Hs). cbn [mbind res_bind].
    destruct (Hnodes a ltac:(apply elem_of_app; right; left)) as (s' & Hs' & Hkind & Hmok & Htgt).
    rewrite Hs in Hs'. inversion Hs'; subst s'. clear Hs'.
    unfold abort_target in Htgt. rewrite Htgt.
    apply NoDup_app in Hnd as Hnd0. destruct Hnd0 as (Hnd1 & Hdisj & Hnd2).
    apply NoDup_cons in Hnd2. destruct Hnd2 as [Ha2 Hnd2].
    assert (a ∉ done) as Ha1 by (intros Hin; apply (Hdisj a Hin); left).
    assert (NoDup ((done ++ [a]) ++ todo)) as Hnd' by (rewrite <- app_assoc; exact Hnd).
    replace (done ++ a :: todo) with ((done ++ [a]) ++ todo)
      by (rewrite <- app_assoc; reflexivity).
    destruct (m0 a) eqn:Em.
    + (* a target: unlink, close, go on from its successor *)
      set (kept := pick m0 false done) in *.
      assert (a ∉ kept) as Hak by (unfold kept; rewrite elem_of_pick; tauto).
      assert (0 ∉ kept) as H0k.
      { apply (lseg_nonnull _ _ _ _ Hkept). }
      (* the world after [last->next = i] and the list the removal scans *)
      assert (exists w1 L,
                 (if nz last then write_base (Base.set_next (Base.next (base_of s))) last w
                  else Ok w) = Ok w1
                 /\ registry w1 L /\ keep a L = kept ++ todo
                 /\ (length L <= length (kept ++ a :: todo))%nat
                 /\ heap w1 !! a = Some s
                 /\ (forall b, b ∈ kept ++ todo -> node_ok m0 h (heap w1) b)
                 /\ (forall b, heap w !! b = None -> heap w1 !! b = None))
        as (w1 & L & -> & Hreg1 & HL & HLlen & Hs1 & Hnodes1 & Hnone1).
      { unfold nz. destruct (last =? 0) eqn:El; cbn [negb].
        - apply Z.eqb_eq in El. rewrite El in Hlast. symmetry in Hlast.
          apply last_or_null_0 in Hlast; [| exact H0k].
          exists w, (a :: todo). rewrite Hlast in *. cbn [app] in *.
          split; [reflexivity |]. split; [exact Hreg |]. split.
          + unfold keep. rewrite filter_cons_False by tauto.
            apply (keep_notin a todo Ha2).
          + split; [lia |]. split; [exact Hs |]. split; [| auto].
            intros b Hb. apply Hnodes. right. exact Hb.
        - apply Z.eqb_neq in El.
          destruct (last_or_null_split kept H0k ltac:(rewrite <- Hlast; exact El)) as (k' & Hk').
          rewrite <- Hlast in Hk'.
          assert (last ∈ kept) as Hlk by (rewrite Hk'; apply elem_of_app; right; left).
          assert (last ∈ done) as Hld by (apply elem_of_pick in Hlk; tauto).
          assert (last <> a) as Hla by congruence.
          assert (NoDup kept) as Hndk by (unfold kept, pick; apply NoDup_filter; exact Hnd1).
          assert (last ∉ k') as Hlk'.
          { rewrite Hk' in Hndk. apply NoDup_app in Hndk. destruct Hndk as (_ & Hd & _).
            intros Hin. apply (Hd last Hin). left. }
          destruct (lseg_lookup _ _ _ _ last Hkept Hlk) as [sl Hsl].
          rewrite (write_base_Some _ _ _ _ Hsl).
          eexists. exists (kept ++ todo). split; [reflexivity |]. cbn [heap set_heap].
          split; [| split; [| split; [| split; [| split]]]].
          + unfold registry. cbn [heap set_heap lwiperf_all_connections].
            apply lseg_app. exists (Base.next (base_of s)). split.
            * rewrite Hk'. apply (lseg_relink_last _ _ _ _ _ _ a); [| exact Hlk' | exact Hsl].
              rewrite <- Hk'. exact Hkept.
            * apply lseg_insert_notin; [| exact Htodo].
              intros Hin. apply (Hdisj last Hld). right. exact Hin.
          + apply keep_notin. rewrite not_elem_of_app. tauto.
          + rewrite !length_app. cbn. lia.
          + rewrite lookup_insert_ne by exact Hla. exact Hs.
          + intros b Hb. assert (node_ok m0 h (heap w) b) as Hnb.
            { apply Hnodes. rewrite elem_of_app in *. destruct Hb; [left | right; right]; auto. }
            destruct (decide (b = last)) as [-> | Hbl].
            * eapply node_ok_unlinked;
                [exact Hnb | exact Hsl | apply lookup_insert_eq | apply unlinked_next].
            * destruct Hnb as (sb & Hsb & Hrest). exists sb.
              rewrite lookup_insert_ne by congruence. auto.
          + intros b Hb. rewrite lookup_insert_ne; [exact Hb |].
            intros <-. rewrite Hsl in Hb. discriminate. }
      cbn [mbind res_bind].
      destruct (abort_close_spec rfuel e h m0 a s w1 L Hlisten Ha Hreg1 ltac:(lia) Hs1 Hkind
                  ltac:(rewrite HL; exact Hnodes1))
        as (w3 & trc & -> & Hreg3 & Hfr3 & Hgone3 & Hnodes3 & Hnone3).
      cbn [mbind res_bind]. rewrite HL in Hreg3, Hnodes3.
      apply (IH fuel (done ++ [a]) _ last w3 (tr ++ trc)).
      * exact Hnd'.
      * rewrite pick_snoc_other by congruence. exact Hreg3.
      * exact Hnext.
      * rewrite pick_snoc_other by congruence. exact Hlast.
      * rewrite pick_snoc_other by congruence. exact Hnodes3.
      * rewrite pick_snoc_same by exact Em. intros b Hb. apply elem_of_app in Hb.
        destruct Hb as [Hb | Hb].
        -- apply Hnone3; [| apply Hnone1, Hgone, Hb].
           intros ->. apply elem_of_pick in Hb. tauto.
        -- apply list_elem_of_singleton in Hb. subst b. exact Hgone3.
      * rewrite pick_snoc_same by exact Em. rewrite freed_app, Hfreed, Hfr3. reflexivity.
      * cbn in Hfuel. lia.
      * rewrite pick_snoc_other by congruence. fold kept. revert Hrfuel.
        rewrite !length_app. cbn [length]. lia.
    + (* not a target: it becomes the predecessor *)
      apply (IH fuel (done ++ [a]) _ a w tr).
      * exact Hnd'.
      * rewrite pick_snoc_same by exact Em. rewrite <- app_assoc. exact Hreg.
      * exact Hnext.
      * rewrite pick_snoc_same by exact Em. symmetry. apply last_or_null_snoc.
      * rewrite pick_snoc_same by exact Em. rewrite <- app_assoc. exact Hnodes.
      * rewrite pick_snoc_other by congruence. exact Hgone.
      * rewrite pick_snoc_other by congruence. exact Hfreed.
      * cbn in Hfuel. lia.
      * rewrite pick_snoc_same by exact Em. rewrite <- app_assoc. exact Hrfuel.
Qed.

Lemma registry_ok_nil hp : registry_ok (mk_world hp 0) [].
Proof.
  split; [reflexivity |]. intros a Ha. apply elem_of_nil in Ha. contradiction.
Qed.

(** Registering a well-formed state keeps the registry well-formed. *)
Lemma lwiperf_list_add_ok item s w (l : list Z) :
  registry_ok w l -> item <> 0 -> item ∉ l ->
  heap w !! item = Some s -> kind_ok s -> master_ok s ->
  exists w', lwiperf_list_add item w = Ok w' /\ registry_ok w' (item :: l).
Proof.
  intros [Hreg Hok] Hnz Hni Hs Hk Hm. unfold lwiperf_list_add.
  rewrite (write_base_Some _ _ _ _ Hs). cbn [mbind res_bind].
  eexists. split; [reflexivity |]. split.
  - unfold registry. cbn. repeat split; auto.
    eexists. rewrite lookup_insert_eq. split; [reflexivity |].
    rewrite base_of_with_base. cbn. apply lseg_insert_notin; assumption.
  - cbn [heap set_heap set_head]. intros a Ha. apply elem_of_cons in Ha. destruct Ha as [-> | Ha].
    + eexists. rewrite lookup_insert_eq. split; [reflexivity |].
      split; [destruct s; exact Hk |].
      unfold master_ok in *. rewrite base_of_with_base. exact Hm.
    + rewrite lookup_insert_ne by (intros ->; contradiction). auto.
Qed.

(** C4: lwiperf_list_remove(item) scans the whole list: the registry is
    afterwards the old list without [item]; every listed session whose
    related_master_state was [item] has that reference set to NULL and
    [item] recorded in deallocated_master_state_address; every other listed
    session keeps both fields; nothing else of any state changes (up to the
    list links), and states outside the list are untouched.  Consequently
    no listed session names [item] as its live master afterwards. *)
Theorem lwiperf_list_remove_clears_master fuel item w (l : list Z) :
  registry w l -> item <> 0 -> (length l < fuel)%nat ->
  exists w',
    lwiperf_list_remove fuel item w = Ok w'
    /\ registry w' (keep item l)
    /\ (forall a, a ∈ l ->
        exists s s',
          heap w !! a = Some s /\ heap w' !! a = Some s'
          /\ unlinked s' = unlinked (fix_master item s)
          /\ (Base.related_master_state (base_of s) = item ->
              Base.related_master_state (base_of s') = 0
              /\ Base.deallocated_master_state_address (base_of s') = item)
          /\ (Base.related_master_state (base_of s) <> item ->
              Base.related_master_state (base_of s') = Base.related_master_state (base_of s)
              /\ Base.deallocated_master_state_address (base_of s')
                 = Base.deallocated_master_state_address (base_of s))
          /\ Base.related_master_state (base_of s') <> item)
    /\ (forall a, a ∉ l -> heap w' !! a = heap w !! a).
Proof.
  intros Hreg Hitem Hfuel.
  destruct (lwiperf_list_remove_spec fuel item w l Hreg Hfuel) as (w' & Hrm & Hreg' & Ht).
  exists w'. split; [exact Hrm |]. split; [exact Hreg' |]. split.
  - intros a Ha. destruct (lseg_lookup _ _ _ _ a Hreg Ha) as [s Hs].
    destruct (touched_in _ _ _ _ _ _ Ht Ha Hs) as (s' & Hs' & Hu).
    exists s, s'. split; [exact Hs |]. split; [exact Hs' |]. split; [exact Hu |].
    destruct (unlinked_fields _ _ Hu) as (_ & Hrel & Hde & _). rewrite Hrel, Hde.
    destruct (fix_master_related item s) as [Hyes Hno].
    split; [exact Hyes |]. split.
    + intros Hne. rewrite (Hno Hne). auto.
    + destruct (decide (Base.related_master_state (base_of s) = item)) as [E | E].
      * destruct (Hyes E) as [-> _]. congruence.
      * rewrite (Hno E). exact E.
  - intros a Ha. apply (touched_lookup_notin _ _ _ _ _ Ht Ha).
Qed.

Lemma lwiperf_list_remove_ok fuel item w (l : list Z) :
  registry_ok w l -> (length l < fuel)%nat ->
  exists w', lwiperf_list_remove fuel item w = Ok w' /\ registry_ok w' (keep item l).
Proof.
  intros [Hreg Hok] Hfuel.
  destruct (lwiperf_list_remove_spec fuel item w l Hreg Hfuel) as (w' & Hrm & Hreg' & Ht).
  exists w'. split; [exact Hrm |]. split; [exact Hreg' |].
  intros a Ha. apply elem_of_keep in Ha. destruct Ha as [_ Ha].
  destruct (Hok a Ha) as (s & Hs & Hk & Hm).
  destruct (touched_in _ _ _ _ _ _ Ht Ha Hs) as (s' & Hs' & Hu).
  exists s'. split; [exact Hs' |].
  destruct (unlinked_fields _ _ Hu) as (_ & Hrel & Hde & Hkind).
  split; [apply Hkind, kind_ok_fix, Hk |].
  pose proof (master_ok_fix item s Hm) as Hm'. unfold master_ok in *.
  rewrite Hrel, Hde. exact Hm'.
Qed.

(** C3: on a well-formed registry lwiperf_abort(h) frees, in one pass over
    the list and in list order, exactly the sessions that are [h] itself or
    name [h] in related_master_state or in
    deallocated_master_state_address; the other sessions stay registered
    and well-formed, the freed states are gone from the heap, and a second
    lwiperf_abort(h) returns the same world with an empty trace: it closes
    nothing, frees nothing and reports nothing. *)
Theorem lwiperf_abort_closes_targets fuel e h w (l : list Z) :
  registry_ok w l -> listeners_close e -> (length l < fuel)%nat ->
  exists w' tr,
    lwiperf_abort fuel e h w = Ok (w', tr)
    /\ freed tr = pick (targets w h) true l
    /\ registry_ok w' (pick (targets w h) false l)
    /\ (forall a, a ∈ l -> targets w h a = true -> heap w' !! a = None)
    /\ (forall e', lwiperf_abort fuel e' h w' = Ok (w', [])).
Proof.
  intros [Hreg Hok] Hlisten Hfuel. unfold lwiperf_abort.
  destruct (abort_loop_spec e h (targets w h) fuel Hlisten l fuel []
              (lwiperf_all_connections w) 0 w [])
    as (w' & tr & Hrun & Hreg' & Hnodes & Hgone & Hfreed).
  - apply (lseg_NoDup _ _ _ Hreg).
  - exact Hreg.
  - apply (lseg_head _ _ _ _ Hreg).
  - reflexivity.
  - intros a Ha. destruct (Hok a Ha) as (s & Hs & Hk & Hm).
    exists s. unfold targets. rewrite Hs. auto.
  - intros a Ha. apply elem_of_nil in Ha. contradiction.
  - reflexivity.
  - exact Hfuel.
  - exact Hfuel.
  - cbn [app] in *. exists w', tr. split; [exact Hrun |]. split; [exact Hfreed |].
    split; [| split].
    + split; [exact Hreg' |]. intros a Ha. destruct (Hnodes a Ha) as (s & Hs & Hk & Hm & _). eauto.
    + intros a Ha Ht. apply Hgone. apply elem_of_pick. auto.
    + intros e'. apply (abort_loop_noop fuel e' h w' (pick (targets w h) false l)).
      * exact Hreg'.
      * intros a Ha. destruct (Hnodes a Ha) as (s & Hs & _ & _ & Ht).
        exists s. split; [exact Hs |]. rewrite Ht. apply elem_of_pick in Ha. tauto.
      * unfold pick. pose proof (length_filter (λ a : Z, targets w h a = false) l). lia.
Qed.

Ltac concrete_registry :=
  unfold registry; cbn [lseg];
  repeat (split; [vm_compute; reflexivity |]; split; [lia |];
          eexists; split; [vm_compute; reflexivity |]);
  vm_compute; reflexivity.

Lemma sample_registry_ok : registry_ok sample_registry [0x300; 0x200; 0x400; 0x100].
Proof.
  split; [concrete_registry |].
  intros a Ha.
  repeat (apply elem_of_cons in Ha; destruct Ha as [-> | Ha]);
    [| | | | apply elem_of_nil in Ha; contradiction];
    (eexists; split; [vm_compute; reflexivity |]; split;
     [vm_compute; first [reflexivity | discriminate]
     | unfold master_ok; vm_compute; intros H; first [reflexivity | contradiction H; reflexivity]]).
Defined.

Lemma lwiperf_list_remove_clears_master_witness :
  exists w',
    lwiperf_list_remove 5 0x100 sample_registry = Ok w'
    /\ registry w' (keep 0x100 [0x300; 0x200; 0x400; 0x100])
    /\ (forall a, a ∈ [0x300; 0x200; 0x400; 0x100] ->
        exists s s',
          heap sample_registry !! a = Some s /\ heap w' !! a = Some s'
          /\ unlinked s' = unlinked (fix_master 0x100 s)
          /\ (Base.related_master_state (base_of s) = 0x100 ->
              Base.related_master_state (base_of s') = 0
              /\ Base.deallocated_master_state_address (base_of s') = 0x100)
          /\ (Base.related_master_state (base_of s) <> 0x100 ->
              Base.related_master_state (base_of s') = Base.related_master_state (base_of s)
              /\ Base.deallocated_master_state_address (base_of s')
                 = Base.deallocated_master_state_address (base_of s))
          /\ Base.related_master_state (base_of s') <> 0x100)
    /\ (forall a, a ∉ [0x300; 0x200; 0x400; 0x100] -> heap w' !! a = heap sample_registry !! a).
Proof.
  apply (lwiperf_list_remove_clears_master 5 0x100 sample_registry [0x300; 0x200; 0x400; 0x100]).
  - apply sample_registry_ok.
  - lia.
  - cbn. lia.
Defined.

Lemma lwiperf_abort_closes_targets_witness :
  exists w' tr,
    lwiperf_abort 5 sample_close_env 0x100 sample_registry = Ok (w', tr)
    /\ freed tr = pick (targets sample_registry 0x100) true [0x300; 0x200; 0x400; 0x100]
    /\ registry_ok w' (pick (targets sample_registry 0x100) false [0x300; 0x200; 0x400; 0x100])
    /\ (forall a, a ∈ [0x300; 0x200; 0x400; 0x100] ->
        targets sample_registry 0x100 a = true -> heap w' !! a = None)
    /\ (forall e', lwiperf_abort 5 e' 0x100 w' = Ok (w', [])).
Proof.
  apply (lwiperf_abort_closes_targets 5 sample_close_env 0x100 sample_registry
           [0x300; 0x200; 0x400; 0x100]).
  - apply sample_registry_ok.
  - intros pcb. reflexivity.
  - cbn. lia.
Defined.

(** The same run, spelled out: the two clients are closed and reported
    first, then the server; the listener is left as the only entry. *)
Example sample_abort_run :
  exists w', lwiperf_abort 5 sample_close_env 0x100 sample_registry
             = Ok (w', [EvReport 0x300 LWIPERF_UDP_ABORTED_LOCAL 0 1000 0; EvFree 0x300;
                        EvReport 0x200 LWIPERF_UDP_ABORTED_LOCAL 0 1000 0; EvFree 0x200;
                        EvUdpRemove 0x2000; EvFree 0x100])
             /\ lwiperf_all_connections w' = 0x400
             /\ pick (targets sample_registry 0x100) true [0x300; 0x200; 0x400; 0x100]
                = [0x300; 0x200; 0x100].
Proof.
  eexists. split; [vm_compute; reflexivity |]. split; vm_compute; reflexivity.
Qed.

(** A child that follows its master in the list is recognised through the
    address lwiperf_list_remove has just recorded in it. *)
Example sample_dual_abort_run :
  exists w', lwiperf_abort 3 sample_close_env 0x700 sample_dual_registry
             = Ok (w', [EvUdpRemove 0x2100; EvFree 0x700; EvUdpRemove 0x2200; EvFree 0x600])
             /\ lwiperf_all_connections w' = 0
             /\ heap w' = ∅.
Proof.
  eexists. split; [vm_compute; reflexivity |]. split; vm_compute; reflexivity.
Qed.

(** ** Looking a session up *)

Lemma list_find_loop_spec item w :
  forall (l : list Z) fuel iter,
    lseg (heap w) iter l 0 -> (length l < fuel)%nat ->
    list_find_loop fuel item iter w = Ok (if bool_decide (item ∈ l) then item else 0).
Proof.
  induction l as [| a l IH]; intros fuel iter Hseg Hfuel;
    (destruct fuel as [| fuel]; [cbn in Hfuel; lia |]); cbn [list_find_loop]; cbn in Hseg.
  - subst iter. cbn. rewrite bool_decide_eq_false_2 by apply not_elem_of_nil. reflexivity.
  - destruct Hseg as (-> & Ha & s & Hs & Hseg).
    destruct (a =? 0) eqn:E0; [apply Z.eqb_eq in E0; contradiction |].
    destruct (a =? item) eqn:Ei.
    + apply Z.eqb_eq in Ei. subst a.
      rewrite bool_decide_eq_true_2 by left. reflexivity.
    + apply Z.eqb_neq in Ei. rewrite (read_base_Some _ _ _ Hs). cbn [mbind res_bind].
      rewrite (IH fuel _ Hseg) by (cbn in Hfuel; lia).
      destruct (bool_decide (item ∈ l)) eqn:El.
      * apply bool_decide_eq_true_1 in El.
        rewrite bool_decide_eq_true_2 by (right; exact El). reflexivity.
      * apply bool_decide_eq_false_1 in El.
        rewrite bool_decide_eq_false_2; [reflexivity |].
        rewrite elem_of_cons. intros [-> | H]; contradiction.
Qed.

(** lwiperf_list_find returns the address it is asked for when the list
    holds it, and NULL otherwise. *)
Lemma lwiperf_list_find_spec fuel item w (l : list Z) :
  registry w l -> (length l < fuel)%nat ->
  lwiperf_list_find fuel item w = Ok (if bool_decide (item ∈ l) then item else 0).
Proof. intros Hreg Hfuel. apply list_find_loop_spec; assumption. Qed.

(** The links of a list are determined by the addresses it visits. *)
Lemma lseg_next_eq hp hp' l : forall p q a s s',
  lseg hp p l q -> lseg hp' p l q -> NoDup l -> a ∈ l ->
  hp !! a = Some s -> hp' !! a = Some s' ->
  Base.next (base_of s') = Base.next (base_of s).
Proof.
  induction l as [| b l IH]; intros p q a s s' H H' Hnd Ha Hs Hs'; cbn in H, H'.
  - apply elem_of_nil in Ha. contradiction.
  - destruct H as (-> & Hb & s0 & Hs0 & H), H' as (_ & _ & s0' & Hs0' & H').
    apply NoDup_cons in Hnd. destruct Hnd as [Hbl Hnd].
    apply elem_of_cons in Ha. destruct Ha as [-> | Ha].
    + rewrite Hs in Hs0. rewrite Hs' in Hs0'. inversion Hs0; inversion Hs0'; subst.
      rewrite (lseg_head _ _ _ _ H), (lseg_head _ _ _ _ H'). reflexivity.
    + pose proof (lseg_head _ _ _ _ H) as E. pose proof (lseg_head _ _ _ _ H') as E'.
      rewrite E in H. rewrite E' in H'. eapply IH; eauto.
Qed.

(** X1: on a well-formed list lwiperf_list_find(item) returns [item] when
    the session is registered and NULL when it is not; it does not depend
    on anything but the addresses in the list. *)
Theorem lwiperf_list_find_registered fuel item w (l : list Z) :
  registry w l -> (length l < fuel)%nat ->
  (item ∈ l -> lwiperf_list_find fuel item w = Ok item)
  /\ (item ∉ l -> lwiperf_list_find fuel item w = Ok 0).
Proof.
  intros Hreg Hfuel. rewrite (lwiperf_list_find_spec fuel item w l Hreg Hfuel). split; intros H.
  - rewrite bool_decide_eq_true_2 by exact H. reflexivity.
  - rewrite bool_decide_eq_false_2 by exact H. reflexivity.
Qed.

Lemma lwiperf_list_find_registered_witness :
  lwiperf_list_find 5 0x400 sample_registry = Ok 0x400
  /\ lwiperf_list_find 5 0x500 sample_registry = Ok 0.
Proof.
  split.
  - apply (lwiperf_list_find_registered 5 0x400 sample_registry [0x300; 0x200; 0x400; 0x100]);
      [apply sample_registry_ok | cbn; lia | set_solver].
  - apply (lwiperf_list_find_registered 5 0x500 sample_registry [0x300; 0x200; 0x400; 0x100]);
      [apply sample_registry_ok | cbn; lia |].
    rewrite !not_elem_of_cons. repeat split; try lia. apply not_elem_of_nil.
Defined.

(** X2: registering a session and unregistering it again is a round trip.
    After lwiperf_list_add the session is the head of the list and
    lwiperf_list_find finds it; after lwiperf_list_remove the list, its
    head and every other state are as they were before, provided no listed
    session names the session as its master, and lwiperf_list_find
    answers NULL. *)
Theorem lwiperf_list_add_then_remove fuel item s w (l : list Z) :
  registry w l -> item <> 0 -> item ∉ l -> heap w !! item = Some s ->
  (forall a sa, a ∈ l -> heap w !! a = Some sa ->
                Base.related_master_state (base_of sa) <> item) ->
  (length l + 1 < fuel)%nat ->
  exists w1 w2,
    lwiperf_list_add item w = Ok w1
    /\ registry w1 (item :: l)
    /\ lwiperf_list_find fuel item w1 = Ok item
    /\ lwiperf_list_remove fuel item w1 = Ok w2
    /\ registry w2 l
    /\ lwiperf_all_connections w2 = lwiperf_all_connections w
    /\ (forall a, a <> item -> heap w2 !! a = heap w !! a)
    /\ lwiperf_list_find fuel item w2 = Ok 0.
Proof.
  intros Hreg Hnz Hni Hs Hmaster Hfuel.
  unfold lwiperf_list_add. rewrite (write_base_Some _ _ _ _ Hs). cbn [mbind res_bind].
  set (w1 := set_head item _).
  assert (registry w1 (item :: l)) as Hreg1.
  { unfold registry, w1. cbn. repeat split; auto.
    eexists. rewrite lookup_insert_eq. split; [reflexivity |].
    rewrite base_of_with_base. cbn. apply lseg_insert_notin; assumption. }
  destruct (lwiperf_list_remove_spec fuel item w1 (item :: l) Hreg1 ltac:(cbn; lia))
    as (w2 & Hrm & Hreg2 & Ht).
  assert (keep item (item :: l) = l) as Hkeep.
  { unfold keep. rewrite filter_cons_False by tauto. apply (keep_notin item l Hni). }
  rewrite Hkeep in Hreg2.
  exists w1, w2. split; [reflexivity |]. split; [exact Hreg1 |]. split.
  { rewrite (lwiperf_list_find_spec fuel item w1 (item :: l) Hreg1) by (cbn; lia).
    rewrite bool_decide_eq_true_2 by left. reflexivity. }
  split; [exact Hrm |]. split; [exact Hreg2 |]. split.
  { rewrite (lseg_head _ _ _ _ Hreg2), (lseg_head _ _ _ _ Hreg). reflexivity. }
  split.
  - intros a Hne. pose proof (Ht a) as Hta.
    assert (heap w1 !! a = heap w !! a) as Hw1.
    { unfold w1. cbn. apply lookup_insert_ne. congruence. }
    rewrite Hw1 in Hta. destruct (heap w !! a) as [sa |] eqn:Hsa; [| exact Hta].
    destruct Hta as (s' & Hs' & Hu & Hout). rewrite Hs'. f_equal.
    destruct (decide (a ∈ l)) as [Hal | Hal].
    + rewrite bool_decide_eq_true_2 in Hu by (right; exact Hal).
      destruct (fix_master_related item sa) as [_ Hno].
      rewrite (Hno (Hmaster a sa Hal Hsa)) in Hu.
      apply unlinked_eq; [exact Hu |].
      apply (lseg_next_eq (heap w) (heap w2) l _ 0 a sa s' Hreg); auto.
      * rewrite (lseg_head _ _ _ _ Hreg). rewrite <- (lseg_head _ _ _ _ Hreg2). exact Hreg2.
      * apply (lseg_NoDup _ _ _ Hreg).
    + apply Hout. rewrite not_elem_of_cons. split; assumption.
  - rewrite (lwiperf_list_find_spec fuel item w2 l Hreg2) by lia.
    rewrite bool_decide_eq_false_2 by exact Hni. reflexivity.
Qed.

Lemma lwiperf_list_add_then_remove_witness :
  exists w1 w2,
    lwiperf_list_add 0x500 sample_pending_world = Ok w1
    /\ registry w1 [0x500; 0x300; 0x200; 0x400; 0x100]
    /\ lwiperf_list_find 6 0x500 w1 = Ok 0x500
    /\ lwiperf_list_remove 6 0x500 w1 = Ok w2
    /\ registry w2 [0x300; 0x200; 0x400; 0x100]
    /\ lwiperf_all_connections w2 = lwiperf_all_connections sample_pending_world
    /\ (forall a, a <> 0x500 -> heap w2 !! a = heap sample_pending_world !! a)
    /\ lwiperf_list_find 6 0x500 w2 = Ok 0.
Proof.
  apply (lwiperf_list_add_then_remove 6 0x500 (sample_listener 0) sample_pending_world
           [0x300; 0x200; 0x400; 0x100]).
  - concrete_registry.
  - lia.
  - rewrite !not_elem_of_cons. repeat split; try lia. apply not_elem_of_nil.
  - vm_compute. reflexivity.
  - intros a sa Ha.
    repeat (apply elem_of_cons in Ha; destruct Ha as [-> | Ha]);
      [| | | | apply elem_of_nil in Ha; contradiction];
      vm_compute; intros H; inversion H; subst; cbn; discriminate.
  - cbn. lia.
Defined.

(** X3: after lwiperf_list_remove(item), lwiperf_list_find(item) answers
    NULL, whether the session was registered or not.  Unregistering a
    session that is not in the list leaves the list and its head alone and
    changes only the states that named it as their master. *)
Theorem lwiperf_list_remove_then_find fuel item w (l : list Z) :
  registry w l -> (length l < fuel)%nat ->
  exists w',
    lwiperf_list_remove fuel item w = Ok w'
    /\ lwiperf_list_find fuel item w' = Ok 0
    /\ (item ∉ l ->
        registry w' l
        /\ lwiperf_all_connections w' = lwiperf_all_connections w
        /\ forall a sa, heap w !! a = Some sa ->
                        Base.related_master_state (base_of sa) <> item ->
                        heap w' !! a = Some sa).
Proof.
  intros Hreg Hfuel.
  destruct (lwiperf_list_remove_spec fuel item w l Hreg Hfuel) as (w' & Hrm & Hreg' & Ht).
  exists w'. split; [exact Hrm |]. split.
  - rewrite (lwiperf_list_find_spec fuel item w' (keep item l) Hreg').
    + rewrite bool_decide_eq_false_2; [reflexivity |]. rewrite elem_of_keep. tauto.
    + unfold keep. pose proof (length_filter (λ a : Z, a ≠ item) l). lia.
  - intros Hni. rewrite (keep_notin item l Hni) in Hreg'.
    split; [exact Hreg' |]. split.
    { rewrite (lseg_head _ _ _ _ Hreg'), (lseg_head _ _ _ _ Hreg). reflexivity. }
    intros a sa Hsa Hrel. pose proof (Ht a) as Hta. rewrite Hsa in Hta.
    destruct Hta as (s' & Hs' & Hu & Hout). rewrite Hs'. f_equal.
    destruct (decide (a ∈ l)) as [Hal | Hal]; [| apply Hout; exact Hal].
    rewrite bool_decide_eq_true_2 in Hu by exact Hal.
    destruct (fix_master_related item sa) as [_ Hno]. rewrite (Hno Hrel) in Hu.
    apply unlinked_eq; [exact Hu |].
    apply (lseg_next_eq (heap w) (heap w') l _ 0 a sa s' Hreg); auto.
    + rewrite (lseg_head _ _ _ _ Hreg). rewrite <- (lseg_head _ _ _ _ Hreg'). exact Hreg'.
    + apply (lseg_NoDup _ _ _ Hreg).
Qed.

Lemma lwiperf_list_remove_then_find_witness :
  exists w',
    lwiperf_list_remove 5 0x500 sample_registry = Ok w'
    /\ lwiperf_list_find 5 0x500 w' = Ok 0
    /\ (0x500 ∉ [0x300; 0x200; 0x400; 0x100] ->
        registry w' [0x300; 0x200; 0x400; 0x100]
        /\ lwiperf_all_connections w' = lwiperf_all_connections sample_registry
        /\ forall a sa, heap sample_registry !! a = Some sa ->
                        Base.related_master_state (base_of sa) <> 0x500 ->
                        heap w' !! a = Some sa).
Proof.
  apply (lwiperf_list_remove_then_find 5 0x500 sample_registry [0x300; 0x200; 0x400; 0x100]).
  - apply sample_registry_ok.
  - cbn. lia.
Defined.

Lemma udp_search_loop_spec s addr port w :
  forall (l : list Z) fuel iter,
    lseg (heap w) iter l 0 ->
    (forall a, a ∈ l -> exists st, heap w !! a = Some st /\ kind_ok st) ->
    (length l < fuel)%nat ->
    udp_search_loop fuel s addr port iter w
    = Ok (hd 0 (pick (udp_client_of w s addr port) true l)).
Proof.
  induction l as [| a l IH]; intros fuel iter Hseg Hok Hfuel;
    (destruct fuel as [| fuel]; [cbn in Hfuel; lia |]); cbn [udp_search_loop]; cbn in Hseg.
  - subst iter. reflexivity.
  - destruct Hseg as (-> & Ha & st & Hst & Hseg).
    destruct (a =? 0) eqn:E0; [apply Z.eqb_eq in E0; contradiction |].
    rewrite Hst.
    destruct (Hok a ltac:(left)) as (st' & Hst' & Hkind). rewrite Hst in Hst'. inversion Hst'; subst st'.
    assert (udp_search_loop fuel s addr port (Base.next (base_of st)) w
            = Ok (hd 0 (pick (udp_client_of w s addr port) true l))) as Hrest.
    { apply IH; [exact Hseg | | cbn in Hfuel; lia]. intros b Hb. apply Hok. right. exact Hb. }
    unfold pick. 
    destruct st as [t | u]; cbn [base_of] in *; cbn in Hkind.
    + assert (nz (Base.tcp (Tcp.base t)) = true) as ->
          by (unfold nz; apply negb_true_iff, Z.eqb_neq; exact Hkind).
      cbn [orb]. rewrite Hrest.
      rewrite filter_cons_False; [reflexivity |].
      unfold udp_client_of. rewrite Hst. discriminate.
    + assert (nz (Base.tcp (Udp.base u)) = false) as ->
          by (unfold nz; rewrite Hkind; reflexivity).
      cbn [orb].
      destruct (nz (Base.related_master_state (Udp.base u))) eqn:Erel; cbn [negb].
      2: { rewrite Hrest. rewrite filter_cons_False; [reflexivity |].
           unfold udp_client_of. rewrite Hst, Erel. discriminate. }
      destruct (Base.related_master_state (Udp.base u) =? s) eqn:Es; cbn [negb].
      2: { rewrite Hrest. rewrite filter_cons_False; [reflexivity |].
           unfold udp_client_of. rewrite Hst, Erel, Es. discriminate. }
      destruct (ip_addr_eq addr (Udp.remote_addr u) && (u16 port =? Udp.remote_port u)) eqn:Em.
      * rewrite filter_cons_True; [reflexivity |].
        unfold udp_client_of. rewrite Hst, Erel, Es. cbn [andb].
        apply andb_true_iff in Em. destruct Em as [-> ->]. reflexivity.
      * rewrite Hrest. rewrite filter_cons_False; [reflexivity |].
        unfold udp_client_of. rewrite Hst, Erel, Es. cbn [andb].
        rewrite Em. discriminate.
Qed.

(** X4: on a well-formed registry lwiperf_udp_search_client returns the
    first listed UDP session whose master is the server [s] and whose peer
    address and port are the ones given, and NULL when there is none.  A
    session it returns is registered, so lwiperf_list_find finds it, and
    its related_master_state is [s]. *)
Theorem lwiperf_udp_search_client_first_match fuel s addr port w (l : list Z) :
  registry_ok w l -> (length l < fuel)%nat ->
  exists r,
    lwiperf_udp_search_client fuel s addr port w = Ok r
    /\ r = hd 0 (pick (udp_client_of w s addr port) true l)
    /\ (r = 0 -> forall a, a ∈ l -> udp_client_of w s addr port a = false)
    /\ (r <> 0 ->
        r ∈ l
        /\ lwiperf_list_find fuel r w = Ok r
        /\ exists u, heap w !! r = Some (UdpS u)
                     /\ Base.related_master_state (Udp.base u) = s
                     /\ s <> 0
                     /\ ip_addr_eq addr (Udp.remote_addr u) = true
                     /\ Udp.remote_port u = u16 port).
Proof.
  intros [Hreg Hok] Hfuel.
  exists (hd 0 (pick (udp_client_of w s addr port) true l)).
  split.
  { apply udp_search_loop_spec; [exact Hreg | | exact Hfuel].
    intros a Ha. destruct (Hok a Ha) as (st & Hst & Hk & _). eauto. }
  split; [reflexivity |].
  pose proof (lseg_nonnull _ _ _ _ Hreg) as Hnz.
  destruct (pick (udp_client_of w s addr port) true l) as [| r rest] eqn:Ep; cbn [hd].
  - split; [| intros H; contradiction].
    intros _ a Ha. destruct (udp_client_of w s addr port a) eqn:E; [| reflexivity].
    assert (a ∈ pick (udp_client_of w s addr port) true l) as Hin
        by (apply elem_of_pick; auto).
    rewrite Ep in Hin. apply elem_of_nil in Hin. contradiction.
  - assert (r ∈ pick (udp_client_of w s addr port) true l) as Hin by (rewrite Ep; left).
    apply elem_of_pick in Hin. destruct Hin as [Hm Hrl].
    split.
    { intros ->. contradiction. }
    intros _. split; [exact Hrl |]. split.
    { rewrite (lwiperf_list_find_spec fuel r w l Hreg Hfuel).
      rewrite bool_decide_eq_true_2 by exact Hrl. reflexivity. }
    unfold udp_client_of in Hm. destruct (heap w !! r) as [[t | u] |]; try discriminate.
    exists u. split; [reflexivity |].
    apply andb_true_iff in Hm. destruct Hm as [Hm Hport].
    apply andb_true_iff in Hm. destruct Hm as [Hm Haddr].
    apply andb_true_iff in Hm. destruct Hm as [Hnzr Hs].
    apply Z.eqb_eq in Hs, Hport. unfold nz in Hnzr. apply negb_true_iff, Z.eqb_neq in Hnzr.
    repeat split; auto. congruence.
Qed.

Lemma lwiperf_udp_search_client_first_match_witness :
  exists r,
    lwiperf_udp_search_client 5 0x100 ip_zero 0 sample_registry = Ok r
    /\ r = hd 0 (pick (udp_client_of sample_registry 0x100 ip_zero 0) true
                   [0x300; 0x200; 0x400; 0x100])
    /\ (r = 0 -> forall a, a ∈ [0x300; 0x200; 0x400; 0x100] ->
                           udp_client_of sample_registry 0x100 ip_zero 0 a = false)
    /\ (r <> 0 ->
        r ∈ [0x300; 0x200; 0x400; 0x100]
        /\ lwiperf_list_find 5 r sample_registry = Ok r
        /\ exists u, heap sample_registry !! r = Some (UdpS u)
                     /\ Base.related_master_state (Udp.base u) = 0x100
                     /\ 0x100 <> 0
                     /\ ip_addr_eq ip_zero (Udp.remote_addr u) = true
                     /\ Udp.remote_port u = u16 0).
Proof.
  apply (lwiperf_udp_search_client_first_match 5 0x100 ip_zero 0 sample_registry
           [0x300; 0x200; 0x400; 0x100]).
  - apply sample_registry_ok.
  - cbn. lia.
Defined.

(** The session found for the peer of the sample registry is the client
    registered last. *)
Example sample_search_run :
  lwiperf_udp_search_client 5 0x100 ip_zero 0 sample_registry = Ok 0x300
  /\ lwiperf_udp_search_client 5 0x100 ip_zero 7 sample_registry = Ok 0.
Proof. split; vm_compute; reflexivity. Qed.

(** ** Byte order *)


(** A word assembled from four bytes gives them back. *)
Lemma bytes_low a b c d :
  0 <= d < 256 -> (a * 2^24 + b * 2^16 + c * 2^8 + d) mod 2^8 = d.
Proof.
  intros Hd. replace (a * 2^24 + b * 2^16 + c * 2^8 + d)
    with (d + (a * 2^16 + b * 2^8 + c) * 2^8) by lia.
  rewrite Z.mod_add by lia. apply Z.mod_small. lia.
Qed.

Lemma bytes_shift8 a b c d :
  0 <= d < 256 -> (a * 2^24 + b * 2^16 + c * 2^8 + d) / 2^8 = a * 2^16 + b * 2^8 + c.
Proof.
  intros Hd. replace (a * 2^24 + b * 2^16 + c * 2^8 + d)
    with (d + (a * 2^16 + b * 2^8 + c) * 2^8) by lia.
  rewrite Z.div_add by lia. rewrite Z.div_small by lia. lia.
Qed.

Lemma bytes_shift16 a b c d :
  0 <= c < 256 -> 0 <= d < 256 ->
  (a * 2^24 + b * 2^16 + c * 2^8 + d) / 2^16 = a * 2^8 + b.
Proof.
  intros Hc Hd. replace (a * 2^24 + b * 2^16 + c * 2^8 + d)
    with ((c * 2^8 + d) + (a * 2^8 + b) * 2^16) by lia.
  rewrite Z.div_add by lia. rewrite Z.div_small by lia. lia.
Qed.

Lemma bytes_shift24 a b c d :
  0 <= b < 256 -> 0 <= c < 256 -> 0 <= d < 256 ->
  (a * 2^24 + b * 2^16 + c * 2^8 + d) / 2^24 = a.
Proof.
  intros Hb Hc Hd. replace (a * 2^24 + b * 2^16 + c * 2^8 + d)
    with ((b * 2^16 + c * 2^8 + d) + a * 2^24) by lia.
  rewrite Z.div_add by lia. rewrite Z.div_small by lia. lia.
Qed.

Lemma word_bytes x :
  0 <= x < 2^32 ->
  x = ((x / 2^24) mod 2^8) * 2^24 + ((x / 2^16) mod 2^8) * 2^16
      + ((x / 2^8) mod 2^8) * 2^8 + x mod 2^8.
Proof.
  intros Hx.
  pose proof (Z.div_mod x (2^8) ltac:(lia)) as H0.
  pose proof (Z.div_mod (x / 2^8) (2^8) ltac:(lia)) as H1.
  pose proof (Z.div_mod (x / 2^8 / 2^8) (2^8) ltac:(lia)) as H2.
  rewrite !Z.div_div in * by lia.
  change (2^8 * 2^8) with (2^16) in *. change (2^16 * 2^8) with (2^24) in *.
  assert ((x / 2^24) mod 2^8 = x / 2^24) as ->.
  { apply Z.mod_small. split; [apply Z.div_pos; lia |].
    apply Z.div_lt_upper_bound; lia. }
  pose proof (Z.div_mod (x / 2^16) (2^8) ltac:(lia)) as H3.
  rewrite Z.div_div in H3 by lia. change (2^16 * 2^8) with (2^24) in H3.
  lia.
Qed.

(** Swapping the bytes of a 32-bit word twice gives the word back. *)
Lemma lwip_ntohl_htonl x : 0 <= x < 2^32 -> lwip_ntohl (lwip_htonl x) = x.
Proof.
  intros Hx. unfold lwip_ntohl. unfold lwip_htonl at 1.
  pose proof (Z.mod_pos_bound x (2^8) ltac:(lia)) as B0.
  pose proof (Z.mod_pos_bound (x / 2^8) (2^8) ltac:(lia)) as B1.
  pose proof (Z.mod_pos_bound (x / 2^16) (2^8) ltac:(lia)) as B2.
  pose proof (Z.mod_pos_bound (x / 2^24) (2^8) ltac:(lia)) as B3.
  pose proof (word_bytes x Hx) as Hw.
  unfold lwip_htonl.
  rewrite bytes_low, bytes_shift8, bytes_shift16, bytes_shift24 by lia.
  set (b0 := x mod 2^8) in *. set (b1 := (x / 2^8) mod 2^8) in *.
  set (b2 := (x / 2^16) mod 2^8) in *. set (b3 := (x / 2^24) mod 2^8) in *.
  replace (b0 * 2^16 + b1 * 2^8 + b2) with (b2 + (b0 * 2^8 + b1) * 2^8) by lia.
  rewrite Z.mod_add by lia. rewrite (Z.mod_small b2) by lia.
  replace (b0 * 2^8 + b1) with (b1 + b0 * 2^8) by lia.
  rewrite Z.mod_add by lia. rewrite (Z.mod_small b1) by lia.
  rewrite (Z.mod_small b0) by lia.
  lia.
Qed.

(** ** The report of the server *)





(** X6: the server sends its report twice and then closes the session.
    The first run of lwiperf_udp_send_report on a registered session of a
    one-way test sends the report buffer through the master's pcb, counts
    it and arms the 10 ms timer; the second run sends it again, releases
    the buffer and hands the session to lwiperf_udp_close with
    LWIPERF_UDP_DONE_SERVER_RX, and closes the master as well, without a
    report callback, when that is a temporary server; a run on a session
    that is no longer registered does nothing. *)
Theorem udp_report_sent_twice e s conn q_ref1 q_ref2 :
  Udp.reported conn <> 0 -> Udp.report_count conn = 0 -> q_ref1 <= 1 ->
  tst (St.flags (Ext.base (Udp.settings conn))) (PP_HTONL LWIPERF_FLAGS_ANSWER_TEST) = false ->
  let sent := EvUdpSendTo (Udp.pcb s) (Udp.reported conn) (Udp.remote_addr conn)
                (Udp.remote_port conn) in
  let c1 := Udp.set_report_count 1 conn in
  lwiperf_udp_send_report true q_ref1 e (Some s) conn
  = Ok (mk_report_out (Kept c1) None None [sent; EvTimeout 10])
  /\ lwiperf_udp_send_report true q_ref2 e (Some s) c1
     = Ok (mk_report_out
             (Closed (Udp.set_reported 0 (Udp.set_report_count 2 conn))
                LWIPERF_UDP_DONE_SERVER_RX)
             (if tst (Base.server (Udp.base s)) 0x80
              then Some (Closed (Udp.set_report_fn 0 s) LWIPERF_UDP_DONE_SERVER_RX)
              else None)
             None [sent; EvPbufFree])
  /\ lwiperf_udp_send_report false q_ref2 e (Some s) c1
     = Ok (mk_report_out (Kept c1) None None []).
Proof.
  intros Hq Hcount Href Hflags sent c1.
  assert (nz (Udp.reported conn) = true) as Hnz
      by (unfold nz; apply negb_true_iff, Z.eqb_neq; exact Hq).
  unfold lwiperf_udp_send_report. cbn [negb].
  split; [| split].
  - rewrite Hnz. cbn [LWIP_ASSERT mbind res_bind].
    cbn [Udp.report_count Udp.set_report_count]. rewrite Hcount.
    change (u8 (0 + 1) <? 2) with true. cbn [andb].
    destruct (q_ref1 <=? 1) eqn:E; [reflexivity | apply Z.leb_gt in E; lia].
  - unfold c1. cbn [Udp.reported Udp.set_report_count Udp.report_count].
    rewrite Hnz. cbn [LWIP_ASSERT mbind res_bind].
    cbn [Udp.report_count Udp.set_report_count]. change (u8 (1 + 1) <? 2) with false.
    cbn [andb]. cbn [Udp.settings Udp.set_reported Udp.set_report_count].
    rewrite Hflags. cbn [andb mbind res_bind app].
    destruct conn; reflexivity.
  - reflexivity.
Qed.

Lemma udp_report_sent_twice_witness :
  let sent := EvUdpSendTo (Udp.pcb sample_server) (Udp.reported sample_reporting_receiver)
                (Udp.remote_addr sample_reporting_receiver)
                (Udp.remote_port sample_reporting_receiver) in
  let c1 := Udp.set_report_count 1 sample_reporting_receiver in
  lwiperf_udp_send_report true 1 quiet_start_env (Some sample_server) sample_reporting_receiver
  = Ok (mk_report_out (Kept c1) None None [sent; EvTimeout 10])
  /\ lwiperf_udp_send_report true 1 quiet_start_env (Some sample_server) c1
     = Ok (mk_report_out
             (Closed (Udp.set_reported 0 (Udp.set_report_count 2 sample_reporting_receiver))
                LWIPERF_UDP_DONE_SERVER_RX)
             (if tst (Base.server (Udp.base sample_server)) 0x80
              then Some (Closed (Udp.set_report_fn 0 sample_server) LWIPERF_UDP_DONE_SERVER_RX)
              else None)
             None [sent; EvPbufFree])
  /\ lwiperf_udp_send_report false 1 quiet_start_env (Some sample_server) c1
     = Ok (mk_report_out (Kept c1) None None []).
Proof.
  apply (udp_report_sent_twice quiet_start_env sample_server sample_reporting_receiver 1 1).
  - vm_compute. discriminate.
  - reflexivity.
  - lia.
  - vm_compute. reflexivity.
Defined.

(** ** UDP pacing: the parameters and the gate *)

(** X7: whenever lwiperf_udp_set_client_rate returns, the pacing it leaves
    is well-formed: the delay is a positive multiple of the clock
    resolution and between 1 and 1000 frames go out per delay.  An ideal
    frame delay of at least one clock tick is rounded down to a multiple
    of the tick, one frame at a time; a shorter one becomes one tick with
    as many frames as fit into it. *)
Theorem lwiperf_udp_set_client_rate_pacing c rate buf_len c' :
  lwiperf_udp_set_client_rate c rate buf_len = Ok c' ->
  exists d,
    ideal_frame_delay rate buf_len = Ok d
    /\ 1 <= Udp.frames_per_delay c' <= 1000
    /\ CLOCK_RESOLUTION_US <= Udp.delay_target c'
    /\ Udp.delay_target c' mod CLOCK_RESOLUTION_US = 0
    /\ (CLOCK_RESOLUTION_US <= d ->
        Udp.frames_per_delay c' = 1
        /\ Udp.delay_target c' <= d < Udp.delay_target c' + CLOCK_RESOLUTION_US)
    /\ (d < CLOCK_RESOLUTION_US ->
        Udp.delay_target c' = CLOCK_RESOLUTION_US
        /\ Udp.frames_per_delay c' * d <= CLOCK_RESOLUTION_US
           < (Udp.frames_per_delay c' + 1) * d).
Proof.
  unfold lwiperf_udp_set_client_rate. intros H.
  apply bind_Ok in H. destruct H as (d & Hd & H). exists d. split; [exact Hd |].
  assert (0 <= d < 2^32) as Hrange.
  { unfold ideal_frame_delay in Hd. destruct (u64 rate =? 0); [discriminate |].
    inversion Hd. apply u32_range. }
  unfold CLOCK_RESOLUTION_US in *.
  cbn [Udp.delay_target Udp.set_delay_target] in H.
  pose proof (Z.div_mod d 1000 ltac:(lia)) as Hdm.
  pose proof (Z.mod_pos_bound d 1000 ltac:(lia)) as Hmb.
  assert (0 <= d / 1000) as Hq by (apply Z.div_pos; lia).
  rewrite (u32_small (d / 1000 * 1000)) in H by lia.
  destruct (d / 1000 * 1000 =? 0) eqn:E.
  - apply Z.eqb_eq in E. assert (d < 1000) as Hlt by lia.
    rewrite Hd in H. cbn [mbind res_bind] in H.
    destruct (d =? 0) eqn:E0; [discriminate |]. apply Z.eqb_neq in E0.
    inversion H; subst c'; clear H. cbn.
    pose proof (Z.div_mod 1000 d ltac:(lia)) as Hdm2.
    pose proof (Z.mod_pos_bound 1000 d ltac:(lia)) as Hmb2.
    assert (1 <= 1000 / d) as Hge by (apply Z.div_le_lower_bound; lia).
    assert (1000 / d <= 1000) as Hle by (apply Z.div_le_upper_bound; lia).
    repeat split; try lia; nia.
  - apply Z.eqb_neq in E. inversion H; subst c'; clear H. cbn.
    rewrite Z.mod_mul by lia. repeat split; lia.
Qed.

Lemma lwiperf_udp_set_client_rate_pacing_witness :
  exists d,
    ideal_frame_delay (1024 * 1024) 1470 = Ok d
    /\ 1 <= 1 <= 1000
    /\ CLOCK_RESOLUTION_US <= 11000
    /\ 11000 mod CLOCK_RESOLUTION_US = 0
    /\ (CLOCK_RESOLUTION_US <= d -> 1 = 1 /\ 11000 <= d < 11000 + CLOCK_RESOLUTION_US)
    /\ (d < CLOCK_RESOLUTION_US ->
        11000 = CLOCK_RESOLUTION_US
        /\ 1 * d <= CLOCK_RESOLUTION_US < (1 + 1) * d).
Proof.
  apply (lwiperf_udp_set_client_rate_pacing Udp_zero (1024 * 1024) 1470
           (Udp.set_frames_per_delay 1 (Udp.set_delay_target 11000 Udp_zero))).
  vm_compute. reflexivity.
Defined.

Lemma s32_small x : - 2^31 <= x < 2^31 -> s32 x = x.
Proof.
  intros H. unfold s32. rewrite Z.mod_small by lia. lia.
Qed.

Lemma clock_gettime_fields now :
  0 <= now < 2^32 ->
  Ts.tv_sec (clock_gettime now) = now / 1000
  /\ Ts.tv_nsec (clock_gettime now) = (now mod 1000) * 1000000.
Proof.
  intros H. unfold clock_gettime. cbn [Ts.tv_sec Ts.tv_nsec].
  rewrite (u32_small now) by exact H.
  pose proof (Z.mod_pos_bound now 1000 ltac:(lia)) as Hm.
  assert (0 <= now / 1000 < 2^31) as Hq.
  { split; [apply Z.div_pos; lia |]. apply Z.div_lt_upper_bound; lia. }
  rewrite (u32_small (now mod 1000 * 1000000)) by lia.
  rewrite !s32_small by lia. auto.
Qed.

(** The microseconds between two readings of the clock are a thousand
    times the ticks between them. *)
Lemma clock_elapsed_us a b :
  0 <= a <= b -> b < 2^32 ->
  ts_to_us (diff_ts (clock_gettime a) (clock_gettime b)) = u32 ((b - a) * 1000).
Proof.
  intros Hab Hb.
  destruct (clock_gettime_fields a ltac:(lia)) as [Hsa Hna].
  destruct (clock_gettime_fields b ltac:(lia)) as [Hsb Hnb].
  unfold diff_ts, ts_to_us. rewrite Hsa, Hna, Hsb, Hnb.
  pose proof (Z.div_mod a 1000 ltac:(lia)) as Da.
  pose proof (Z.div_mod b 1000 ltac:(lia)) as Db.
  pose proof (Z.mod_pos_bound a 1000 ltac:(lia)) as Ma.
  pose proof (Z.mod_pos_bound b 1000 ltac:(lia)) as Mb.
  assert (0 <= a / 1000) as Qa by (apply Z.div_pos; lia).
  assert (b / 1000 < 2^31) as Qb by (apply Z.div_lt_upper_bound; lia).
  assert (a / 1000 <= b / 1000) as Qab by (apply Z.div_le_mono; lia).
  set (qa := a / 1000) in *. set (ra := a mod 1000) in *.
  set (qb := b / 1000) in *. set (rb := b mod 1000) in *.
  rewrite (s32_small (rb * 1000000 - ra * 1000000)) by lia.
  destruct (rb * 1000000 - ra * 1000000 <? 0) eqn:E; cbn [Ts.tv_sec Ts.tv_nsec].
  - apply Z.ltb_lt in E.
    rewrite (s32_small (qb - qa - 1)) by lia.
    rewrite (s32_small (rb * 1000000 - ra * 1000000 + 1000000000)) by lia.
    replace (rb * 1000000 - ra * 1000000 + 1000000000)
      with ((rb - ra + 1000) * 1000 * 1000) by lia.
    rewrite Z.quot_mul by lia. f_equal. lia.
  - apply Z.ltb_ge in E.
    rewrite (s32_small (qb - qa)) by lia.
    replace (rb * 1000000 - ra * 1000000) with ((rb - ra) * 1000 * 1000) by lia.
    rewrite Z.quot_mul by lia. f_equal. lia.
Qed.

Lemma udp_send_rounds_lastpkt e ts ending :
  forall fuel i conn tr c' tr',
    udp_send_rounds fuel e ts ending i conn tr = Ok (c', tr') ->
    Udp.udp_lastpkt c' = ts \/ Udp.udp_lastpkt c' = Udp.udp_lastpkt conn.
Proof.
  induction fuel as [| fuel IH]; intros i conn tr c' tr' H; cbn [udp_send_rounds] in H.
  - discriminate.
  - destruct (i <? Udp.frames_per_delay conn); [| inversion H; subst; auto].
    destruct (tx_pbuf_alloc e i); [| inversion H; subst; auto].
    destruct (tx_udp_send e i =? ERR_OK).
    + apply IH in H. destruct H as [H | H]; [left; exact H |].
      left. rewrite H. destruct (nz ending); destruct (_ || _); reflexivity.
    + inversion H; subst. left. reflexivity.
Qed.

(** The time of the last datagram stays a reading of the clock. *)
Lemma udp_client_send_more_lastpkt e conn a o tr :
  Udp.udp_lastpkt conn = clock_gettime a ->
  lwiperf_udp_client_send_more e conn = Ok (o, tr) ->
  Udp.udp_lastpkt (outcome_state o) = clock_gettime a
  \/ Udp.udp_lastpkt (outcome_state o) = clock_gettime (tx_now_clock e).
Proof.
  intros Hlast H. unfold lwiperf_udp_client_send_more in H.
  apply bind_Ok in H. destruct H as (_ & _ & H).
  destruct (nz (udp_tx_ending _ _) && _).
  - destruct (nz (Base.reverse (Udp.base conn))); inversion H; subst; left; exact Hlast.
  - destruct (ts_to_us _ <? _); [inversion H; subst; left; exact Hlast |].
    apply bind_Ok in H. destruct H as ([c' tr'] & Hr & Hk). inversion Hk; subst. cbn.
    apply udp_send_rounds_lastpkt in Hr. destruct Hr as [Hr | Hr]; [right | left]; congruence.
Qed.

(** X8: the pacing gate.  A UDP client that has not reached its target
    and sent its last datagram at tick [a] sends nothing when it is polled
    before delay_target microseconds have gone by: the routine returns
    with the session unchanged and an empty trace.  Whatever a run does,
    the time of the last datagram stays a reading of the clock, that of
    tick [a] or that of the poll. *)
Theorem udp_pacing_gate e conn a :
  Base.tcp (Udp.base conn) = 0 ->
  Base.server (Udp.base conn) = 0 ->
  udp_tx_ending (tx_now_limit e) conn = 0 ->
  Udp.udp_lastpkt conn = clock_gettime a ->
  0 <= a <= tx_now_clock e -> tx_now_clock e < 2^32 ->
  (tx_now_clock e - a) * 1000 < 2^32 ->
  ((tx_now_clock e - a) * 1000 < Udp.delay_target conn ->
   lwiperf_udp_client_send_more e conn = Ok (Kept conn, []))
  /\ (forall o tr,
         lwiperf_udp_client_send_more e conn = Ok (o, tr) ->
         Udp.udp_lastpkt (outcome_state o) = clock_gettime a
         \/ Udp.udp_lastpkt (outcome_state o) = clock_gettime (tx_now_clock e)).
Proof.
  intros Htcp Hsrv Hend Hlast Ha Hnow Hwrap. split.
  - intros Hgate.
    unfold lwiperf_udp_client_send_more. rewrite Htcp, Hsrv, Hend.
    cbn [nz Z.eqb negb andb orb LWIP_ASSERT mbind res_bind].
    rewrite Hlast, clock_elapsed_us by lia.
    rewrite u32_small by lia.
    destruct (_ <? Udp.delay_target conn) eqn:E; [reflexivity | apply Z.ltb_ge in E; lia].
  - intros o tr H. apply (udp_client_send_more_lastpkt e conn a o tr Hlast H).
Qed.

Lemma udp_pacing_gate_witness :
  lwiperf_udp_client_send_more sample_pacing_env sample_paced_sender
  = Ok (Kept sample_paced_sender, []).
Proof.
  destruct (udp_pacing_gate sample_pacing_env sample_paced_sender 100) as [Hgate _].
  - reflexivity.
  - reflexivity.
  - vm_compute. reflexivity.
  - reflexivity.
  - cbn. lia.
  - cbn. lia.
  - cbn. lia.
  - apply Hgate. cbn. lia.
Defined.

(** ** Time-limited tests *)

Lemma testbit7_low k b : 0 <= b < 256 -> Z.testbit (k * 2^8 + b) 7 = (128 <=? b).
Proof.
  intros Hb. rewrite Z.testbit_eqb by lia.
  replace (k * 2^8 + b) with (b + (k * 2) * 2^7) by lia.
  rewrite Z.div_add by lia.
  replace (b / 2^7 + k * 2) with (b / 2^7 + k * 2) by lia.
  rewrite Z.mod_add by lia.
  destruct (128 <=? b) eqn:E.
  - apply Z.leb_le in E. assert (b / 2^7 = 1) as ->; [| reflexivity].
    symmetry. apply (Z.div_unique b (2^7) 1 (b - 128)); lia.
  - apply Z.leb_gt in E. rewrite Z.div_small by lia. reflexivity.
Qed.

Lemma land_128 a : Z.land a 128 = if Z.testbit a 7 then 128 else 0.
Proof.
  apply Z.bits_inj'. intros n Hn. rewrite Z.land_spec.
  change 128 with (2^7). rewrite Z.pow2_bits_eqb by lia.
  destruct (Z.eqb_spec 7 n) as [<- | Hne].
  - rewrite andb_true_r. destruct (Z.testbit a 7); [| symmetry; apply Z.bits_0].
    rewrite Z.pow2_bits_eqb by lia. reflexivity.
  - rewrite andb_false_r. destruct (Z.testbit a 7); [| rewrite Z.bits_0; reflexivity].
    rewrite Z.pow2_bits_eqb by lia. symmetry. apply Z.eqb_neq. exact Hne.
Qed.

(** The test [amount & PP_HTONL(0x80000000)] reads the sign bit of the
    value the field encodes. *)
Lemma tst_sign_bit x :
  0 <= x < 2^32 -> tst (lwip_htonl x) (PP_HTONL 0x80000000) = (2^31 <=? x).
Proof.
  intros Hx. unfold tst. change (PP_HTONL 0x80000000) with 128. rewrite land_128.
  unfold lwip_htonl.
  pose proof (Z.mod_pos_bound (x / 2^24) (2^8) ltac:(lia)) as B3.
  replace (x mod 2^8 * 2^24 + (x / 2^8) mod 2^8 * 2^16 + (x / 2^16) mod 2^8 * 2^8
           + (x / 2^24) mod 2^8)
    with ((x mod 2^8 * 2^16 + (x / 2^8) mod 2^8 * 2^8 + (x / 2^16) mod 2^8) * 2^8
          + (x / 2^24) mod 2^8) by lia.
  rewrite testbit7_low by lia.
  assert ((x / 2^24) mod 2^8 = x / 2^24) as ->.
  { apply Z.mod_small. split; [apply Z.div_pos; lia |]. apply Z.div_lt_upper_bound; lia. }
  destruct (2^31 <=? x) eqn:E.
  - apply Z.leb_le in E.
    assert (128 <= x / 2^24) as H by (apply Z.div_le_lower_bound; lia).
    apply Z.leb_le in H. rewrite H. reflexivity.
  - apply Z.leb_gt in E.
    assert (x / 2^24 < 128) as H by (apply Z.div_lt_upper_bound; lia).
    apply Z.leb_gt in H. rewrite H. reflexivity.
Qed.

(** The amount field of a test that is to run for [T] hundredths of a
    second, as the start functions store it: htonl((u32_t)amount) with
    amount = -T. *)
Lemma time_limit_decoded T :
  1 <= T <= 2^31 ->
  tst (lwip_htonl (u32 (- T))) (PP_HTONL 0x80000000) = true
  /\ u32 (- s32 (lwip_ntohl (lwip_htonl (u32 (- T))))) = T.
Proof.
  intros HT.
  assert (u32 (- T) = 2^32 - T) as Hu.
  { unfold u32. symmetry. apply (Z.mod_unique (- T) (2^32) (-1)); lia. }
  rewrite Hu. split.
  - rewrite tst_sign_bit by lia. apply Z.leb_le. lia.
  - rewrite lwip_ntohl_htonl by lia.
    assert (s32 (2^32 - T) = - T) as ->.
    { unfold s32. replace (2^32 - T + 2^31) with ((2^31 - T) + 1 * 2^32) by lia.
      rewrite Z.mod_add by lia. rewrite Z.mod_small by lia. lia. }
    replace (- - T) with T by lia. apply u32_small. lia.
Qed.

(** X9: a negative amount -T is a time limit of T hundredths of a second.
    With the amount field htonl((u32_t)(-T)) the TCP send loop ends the
    session exactly when 10 * T or more milliseconds have gone by since
    time_started, and the UDP pacing routine sees the end from the same
    moment on and an overshoot from 500 ms later (T >= 1, and 10 * T + 500
    below 2^32 so that the 32-bit products do not wrap). *)
Theorem time_limited_termination T :
  1 <= T -> T * 10 + 500 < 2^32 ->
  (forall now conn,
      St.amount (Ext.base (Tcp.settings conn)) = lwip_htonl (u32 (- T)) ->
      tcp_tx_done now conn = (T * 10 <=? u32 (now - Tcp.time_started conn)))
  /\ (forall now conn,
         St.amount (Ext.base (Udp.settings conn)) = lwip_htonl (u32 (- T)) ->
         udp_tx_ending now conn
         = if T * 10 <=? u32 (now - Udp.time_started conn)
           then (if T * 10 + 500 <? u32 (now - Udp.time_started conn) then 2 else 1)
           else 0).
Proof.
  intros H1 H2. destruct (time_limit_decoded T ltac:(lia)) as [Hsign Htime].
  split; intros now conn Hamount.
  - unfold tcp_tx_done. rewrite Hamount, Hsign, Htime.
    rewrite (u32_small (T * 10)) by lia. reflexivity.
  - unfold udp_tx_ending. rewrite Hamount, Hsign, Htime.
    rewrite (u32_small (T * 10)) by lia. rewrite (u32_small (T * 10 + 500)) by lia.
    reflexivity.
Qed.

Lemma time_limited_termination_witness :
  tcp_tx_done 9999 sample_timed_tcp_sender
  = (1000 * 10 <=? u32 (9999 - Tcp.time_started sample_timed_tcp_sender))
  /\ udp_tx_ending 10000 sample_timed_udp_sender
     = (if 1000 * 10 <=? u32 (10000 - Udp.time_started sample_timed_udp_sender)
        then (if 1000 * 10 + 500 <? u32 (10000 - Udp.time_started sample_timed_udp_sender)
              then 2 else 1)
        else 0).
Proof.
  destruct (time_limited_termination 1000 ltac:(lia) ltac:(lia)) as [Ht Hu].
  split; [apply Ht | apply Hu]; reflexivity.
Defined.

(** The default clients, amount -1000, run for ten seconds: the test is
    not over at tick 9999 and is over at tick 10000. *)
Example sample_time_limit :
  tcp_tx_done 9999 sample_timed_tcp_sender = false
  /\ tcp_tx_done 10000 sample_timed_tcp_sender = true
  /\ udp_tx_ending 9999 sample_timed_udp_sender = 0
  /\ udp_tx_ending 10000 sample_timed_udp_sender = 1
  /\ udp_tx_ending 10501 sample_timed_udp_sender = 2.
Proof. repeat split; vm_compute; reflexivity. Qed.

(** ** Idle connections *)

Lemma tcp_polls_idle fuel e ms tpcb :
  forall (n : nat) conn,
    Tcp.conn_pcb conn = tpcb ->
    nz (Base.server (Tcp.base conn)) || nz (Base.reverse (Tcp.base conn)) = true ->
    0 <= Tcp.poll_count conn ->
    Tcp.poll_count conn + Z.of_nat n < LWIPERF_MAX_IDLE_SEC ->
    tcp_polls n fuel e ms conn tpcb
    = Ok (Kept (Tcp.set_poll_count (Tcp.poll_count conn + Z.of_nat n) conn)).
Proof.
  unfold LWIPERF_MAX_IDLE_SEC.
  induction n as [| n IH]; intros conn Hpcb Hkind H0 Hn.
  - cbn. rewrite Z.add_0_r. destruct conn; reflexivity.
  - cbn [tcp_polls]. unfold lwiperf_tcp_poll. rewrite Hpcb, Z.eqb_refl.
    cbn [LWIP_ASSERT mbind res_bind Tcp.poll_count Tcp.set_poll_count Tcp.base].
    assert (u8 (Tcp.poll_count conn + 1) = Tcp.poll_count conn + 1) as ->
        by (unfold u8; apply Z.mod_small; lia).
    unfold LWIPERF_MAX_IDLE_SEC.
    destruct (10 <=? Tcp.poll_count conn + 1) eqn:E; [apply Z.leb_le in E; lia |].
    assert (negb (nz (Base.server (Tcp.base conn))) && negb (nz (Base.reverse (Tcp.base conn)))
            = false) as ->.
    { rewrite <- negb_orb, Hkind. reflexivity. }
    cbn [mbind res_bind].
    rewrite IH; cbn [Tcp.conn_pcb Tcp.set_poll_count Tcp.base Tcp.poll_count]; try assumption; try lia.
    do 2 f_equal. replace (Tcp.poll_count conn + 1 + Z.of_nat n)
      with (Tcp.poll_count conn + Z.of_nat (S n)) by lia.
    destruct conn; reflexivity.
Qed.

(** X10: the idle timeout.  A TCP session that does not send on a poll (a
    server-side or reversed session) and whose poll count is [k] is kept
    by each of the next 9 - k polls in a row, which only count, and is
    closed with LWIPERF_TCP_ABORTED_LOCAL by the poll that brings the
    count to LWIPERF_MAX_IDLE_SEC = 10. *)
Theorem tcp_idle_timeout fuel e ms conn (n : nat) :
  nz (Base.server (Tcp.base conn)) || nz (Base.reverse (Tcp.base conn)) = true ->
  0 <= Tcp.poll_count conn < LWIPERF_MAX_IDLE_SEC ->
  (Tcp.poll_count conn + Z.of_nat n < LWIPERF_MAX_IDLE_SEC ->
   tcp_polls n fuel e ms conn (Tcp.conn_pcb conn)
   = Ok (Kept (Tcp.set_poll_count (Tcp.poll_count conn + Z.of_nat n) conn)))
  /\ (Tcp.poll_count conn + Z.of_nat n = LWIPERF_MAX_IDLE_SEC ->
      tcp_polls n fuel e ms conn (Tcp.conn_pcb conn)
      = Ok (Closed (Tcp.set_poll_count LWIPERF_MAX_IDLE_SEC conn) LWIPERF_TCP_ABORTED_LOCAL)).
Proof.
  intros Hkind Hk. split; intros Hn.
  - apply tcp_polls_idle; first [reflexivity | assumption | lia].
  - unfold LWIPERF_MAX_IDLE_SEC in *.
    destruct n as [| n]; [cbn in Hn; lia |].
    assert (forall m c, tcp_polls m fuel e ms c (Tcp.conn_pcb conn)
                        = Ok (Kept (Tcp.set_poll_count 9 conn)) ->
                        tcp_polls (m + 1) fuel e ms c (Tcp.conn_pcb conn)
                        = Ok (Closed (Tcp.set_poll_count 10 conn) LWIPERF_TCP_ABORTED_LOCAL))
      as Hstep.
    { induction m as [| m IHm]; intros c Hc.
      - cbn in Hc. inversion Hc; subst c. cbn [tcp_polls Nat.add].
        unfold lwiperf_tcp_poll. cbn [Tcp.conn_pcb Tcp.set_poll_count].
        rewrite Z.eqb_refl. reflexivity.
      - cbn [tcp_polls Nat.add] in *.
        destruct (lwiperf_tcp_poll fuel e ms c (Tcp.conn_pcb conn)) as [[r tr] | f];
          cbn [mbind res_bind] in *; [| discriminate].
        destruct r as [[c1 | c1 rt] | c1]; try discriminate. apply IHm. exact Hc. }
    replace (S n) with (n + 1)%nat by lia. apply Hstep.
    rewrite (tcp_polls_idle fuel e ms (Tcp.conn_pcb conn) n conn)
      by first [reflexivity | assumption | unfold LWIPERF_MAX_IDLE_SEC; lia].
    do 3 f_equal. lia.
Qed.

Lemma tcp_idle_timeout_witness :
  tcp_polls 9 0 sample_tcp_tx_env None sample_tcp_server_conn
    (Tcp.conn_pcb sample_tcp_server_conn)
  = Ok (Kept (Tcp.set_poll_count (Tcp.poll_count sample_tcp_server_conn + Z.of_nat 9)
                sample_tcp_server_conn))
  /\ tcp_polls 10 0 sample_tcp_tx_env None sample_tcp_server_conn
       (Tcp.conn_pcb sample_tcp_server_conn)
     = Ok (Closed (Tcp.set_poll_count LWIPERF_MAX_IDLE_SEC sample_tcp_server_conn)
             LWIPERF_TCP_ABORTED_LOCAL).
Proof.
  split.
  - apply (tcp_idle_timeout 0 sample_tcp_tx_env None sample_tcp_server_conn 9).
    + reflexivity.
    + vm_compute. split; [discriminate | reflexivity].
    + vm_compute. reflexivity.
  - apply (tcp_idle_timeout 0 sample_tcp_tx_env None sample_tcp_server_conn 10).
    + reflexivity.
    + vm_compute. split; [discriminate | reflexivity].
    + reflexivity.
Defined.

(** ** The error callback *)

(** X11: the error callback never touches the pcb the transport has
    already freed.  Run on a TCP session, registered or not,
    lwiperf_tcp_err reports it (with zeros, when there is a callback),
    frees the state and does nothing else: no tcp_close and no tcp_abort
    appear in the trace; afterwards the state is gone and the session is
    not in the list. *)
Theorem lwiperf_tcp_err_frees_once fuel e conn c w (l : list Z) :
  registry w l -> (length l < fuel)%nat ->
  heap w !! conn = Some (TcpS c) ->
  exists w' tr,
    lwiperf_tcp_err fuel e conn w = Ok (w', tr)
    /\ tr = (if nz conn && nz (Tcp.report_fn c)
             then [EvReport conn LWIPERF_TCP_ABORTED_REMOTE 0 0 0] else [])
            ++ [EvFree conn]
    /\ registry w' (keep conn l)
    /\ heap w' !! conn = None.
Proof.
  intros Hreg Hfuel Hc. unfold lwiperf_tcp_err. rewrite Hc.
  set (c0 := Tcp.set_server_pcb 0 (Tcp.set_conn_pcb 0 c)).
  set (w0 := set_heap (<[conn := TcpS c0]> (heap w)) w).
  assert (registry w0 l) as Hreg0.
  { unfold registry, w0. cbn. apply (lseg_insert_same_next _ _ (TcpS c)); [exact Hc | reflexivity |].
    exact Hreg. }
  destruct (lwiperf_list_remove_spec fuel conn w0 l Hreg0 Hfuel) as (w2 & Hrm & Hreg2 & Ht).
  unfold lwiperf_tcp_close. rewrite Hrm. cbn [mbind res_bind].
  pose proof (Ht conn) as Htc.
  assert (heap w0 !! conn = Some (TcpS c0)) as Hc0 by apply lookup_insert_eq.
  rewrite Hc0 in Htc. destruct Htc as (s2 & Hs2 & Hu & _).
  assert (exists c2, s2 = TcpS c2 /\ Tcp.conn_pcb c2 = 0 /\ Tcp.server_pcb c2 = 0
                     /\ Tcp.report_fn c2 = Tcp.report_fn c) as (c2 & -> & Hcp & Hsp & Hfn).
  { destruct (bool_decide (conn ∈ l)).
    - unfold fix_master in Hu. cbn [base_of] in Hu.
      destruct (Base.related_master_state (Tcp.base c0) =? conn);
        destruct s2 as [c2 | u2]; cbn in Hu; try discriminate;
        exists c2; destruct c2, c; cbn in *; inversion Hu; subst; auto.
    - destruct s2 as [c2 | u2]; cbn in Hu; try discriminate.
      exists c2. destruct c2, c; cbn in *; inversion Hu; subst; auto. }
  rewrite Hs2. rewrite Hcp, Hsp. change (nz 0) with false. cbn [mbind res_bind].
  eexists. eexists. split; [reflexivity |]. split.
  - unfold lwip_tcp_conn_report. rewrite Hcp, Hsp, Hfn. change (nz 0) with false.
    destruct (nz conn && nz (Tcp.report_fn c)); reflexivity.
  - split.
    + unfold registry. cbn. apply lseg_delete_notin; [| exact Hreg2].
      rewrite elem_of_keep. tauto.
    + cbn. apply lookup_delete_eq.
Qed.

Lemma lwiperf_tcp_err_frees_once_witness :
  exists w' tr,
    lwiperf_tcp_err 2 sample_close_env 0x3000 sample_tcp_world = Ok (w', tr)
    /\ tr = (if nz 0x3000 && nz (Tcp.report_fn sample_tcp_conn)
             then [EvReport 0x3000 LWIPERF_TCP_ABORTED_REMOTE 0 0 0] else [])
            ++ [EvFree 0x3000]
    /\ registry w' (keep 0x3000 [0x3000])
    /\ heap w' !! 0x3000 = None.
Proof.
  apply (lwiperf_tcp_err_frees_once 2 sample_close_env 0x3000 sample_tcp_conn sample_tcp_world
           [0x3000]).
  - concrete_registry.
  - cbn. lia.
  - vm_compute. reflexivity.
Defined.

(** ** Temporary servers *)




